(** * Chit-fund ledger: a shallow embedding of [foremen3.py] and [DHARMAREDDY.py]

    The development follows the two Python programs of the repository.

    - [Py] holds the part of Python's semantics the programs rely on:
      exceptions, unbounded [int] (as [Z]), [float] (IEEE binary64, as the
      kernel's primitive floats), and the arithmetic and comparison
      operators between them, with the exceptions they raise.
    - [Calendar] holds [calendar.monthrange], [datetime.date] with its
      range checks, and the helper [add_months] of [foremen3.py].
    - [Streamlit] holds the messages a page shows; [Handler] the monad of
      state and exceptions the handlers are written in.
    - [Dharmareddy] holds [calculate_installment], [calculate_dividend] and
      the chit and dividend handlers of [DHARMAREDDY.py].
    - [Foremen] holds the tables, the queries, the database functions and
      the forms of [foremen3.py].
    - [Pages] holds the listings, the auction update and the other forms
      of [foremen3.py]; its statements come last, from "Months forwards and
      backwards" on.

    What the sources do not contain is a parameter: the SQL schema, so the
    server's verdict on a statement is an oracle, Python's [float(str)]
    parser, and the rows of the table [Auctions], which no modelled page
    writes.  Two simplifications are said where they are made: a [SUM]
    adds its floats in the order of the rows, and the clock is read once
    per handler.  [st.rerun()] is the end of the run that calls it, and
    takes what that run had shown off the page.

    The statements come after the definitions: month arithmetic, the two
    formulas, the installment schedule, the status query, payments, groups,
    the wall clock, and the chit table. *)

From Stdlib Require Import ZArith List Bool String Ascii Lia Floats.
Set Warnings "-inexact-float".
Import ListNotations.
Open Scope Z_scope.

(* ===================================================================== *)
(** * Python values *)
(* ===================================================================== *)

Module Py.

(** The exceptions that can be raised by the modelled code.
    [MySQLError] is [mysql.connector.Error] with its [errno];
    [IllegalMonthError] is a subclass of [ValueError] in [calendar]. *)
Inductive exn : Type :=
| ValueError
| IllegalMonthError
| ZeroDivisionError
| OverflowError
| TypeError
| NameError
| MySQLError (errno : Z).

(** The outcome of evaluating an expression: a value or a raised exception. *)
Inductive result (A : Type) : Type :=
| Ok (a : A)
| Raise (e : exn).

Arguments Ok {A} a.
Arguments Raise {A} e.

Definition rbind {A B : Type} (r : result A) (k : A -> result B) : result B :=
  match r with
  | Ok a => k a
  | Raise e => Raise e
  end.

Declare Scope py_scope.
Delimit Scope py_scope with py.
Notation "'let*' x ':=' e 'in' k" := (rbind e (fun x => k))
  (at level 10, x name, e at level 100, k at level 200) : py_scope.

(** A Python number: an [int] of any size or a [float]. *)
Inductive num : Type :=
| PyInt (z : Z)
| PyFloat (f : float).

(** [float(z)] for an int: the nearest binary64 value, ties to even;
    [OverflowError] when that value would be infinite
    ("int too large to convert to float"). *)
Definition float_of_int (z : Z) : result float :=
  match binary_normalize prec emax z 0 false with
  | S754_infinity _ => Raise OverflowError
  | sf => Ok (SF2Prim sf)
  end.

(** The operand of a float operation: ints are converted first. *)
Definition as_float (x : num) : result float :=
  match x with
  | PyInt z => float_of_int z
  | PyFloat f => Ok f
  end.

(** [a / b] on two ints: the correctly rounded quotient, [OverflowError]
    when it is too large for a float.  The divisor is not zero here. *)
Definition int_truediv (a b : Z) : result float :=
  let s := xorb (a <? 0) (b <? 0) in
  let '(q, e, l) := SFdiv_core_binary prec emax (Z.abs a) 0 (Z.abs b) 0 in
  match binary_round_aux prec emax s q e l with
  | S754_infinity _ => Raise OverflowError
  | sf => Ok (SF2Prim sf)
  end.

(** [x * y] *)
Definition mul (x y : num) : result num :=
  match x, y with
  | PyInt a, PyInt b => Ok (PyInt (a * b))
  | _, _ =>
      (let* a := as_float x in
       let* b := as_float y in
       Ok (PyFloat (PrimFloat.mul a b)))%py
  end.

(** [x - y] *)
Definition sub (x y : num) : result num :=
  match x, y with
  | PyInt a, PyInt b => Ok (PyInt (a - b))
  | _, _ =>
      (let* a := as_float x in
       let* b := as_float y in
       Ok (PyFloat (PrimFloat.sub a b)))%py
  end.

(** [y == 0], the test that makes [/] raise. *)
Definition is_zero (y : num) : bool :=
  match y with
  | PyInt b => b =? 0
  | PyFloat g => PrimFloat.eqb g 0%float
  end.

(** [x / y]: true division.  Always a float; a zero divisor raises
    [ZeroDivisionError] also for floats. *)
Definition truediv (x y : num) : result num :=
  if is_zero y then Raise ZeroDivisionError
  else
    match x, y with
    | PyInt a, PyInt b =>
        (let* q := int_truediv a b in Ok (PyFloat q))%py
    | _, _ =>
        (let* a := as_float x in
         let* b := as_float y in
         Ok (PyFloat (PrimFloat.div a b)))%py
    end.

(** The exact comparison of a float with an int, as Python does it
    (no rounding of the int).  [None] when the float is a NaN. *)
Definition compare_float_int (f : float) (z : Z) : option comparison :=
  match Prim2SF f with
  | S754_nan => None
  | S754_infinity s => Some (if s then Lt else Gt)
  | S754_zero _ => Some (0 ?= z)
  | S754_finite s m e =>
      let v := if s then Z.neg m else Z.pos m in
      Some (if 0 <=? e then (v * 2 ^ e ?= z) else (v ?= z * 2 ^ (- e)))
  end.

(** [x > y] *)
Definition gt (x y : num) : bool :=
  match x, y with
  | PyInt a, PyInt b => b <? a
  | PyFloat f, PyFloat g => PrimFloat.ltb g f
  | PyFloat f, PyInt b =>
      match compare_float_int f b with Some Gt => true | _ => false end
  | PyInt a, PyFloat g =>
      match compare_float_int g a with Some Lt => true | _ => false end
  end.

(** [x <= y] *)
Definition le (x y : num) : bool :=
  match x, y with
  | PyInt a, PyInt b => a <=? b
  | PyFloat f, PyFloat g => PrimFloat.leb f g
  | PyFloat f, PyInt b =>
      match compare_float_int f b with Some Lt | Some Eq => true | _ => false end
  | PyInt a, PyFloat g =>
      match compare_float_int g a with Some Gt | Some Eq => true | _ => false end
  end.

End Py.

Import Py.
Open Scope py_scope.

(* ===================================================================== *)
(** * Dates *)
(* ===================================================================== *)

Module Calendar.

(** A [datetime.date]. *)
Record date : Type := mkdate { year : Z; month : Z; day : Z }.

Definition MINYEAR : Z := 1.
Definition MAXYEAR : Z := 9999.

(** [calendar.isleap] *)
Definition isleap (y : Z) : bool :=
  (y mod 4 =? 0) && (negb (y mod 100 =? 0) || (y mod 400 =? 0)).

(** [calendar.mdays], the days of each month of a common year. *)
Definition mdays (m : Z) : Z :=
  match m with
  | 1 => 31 | 2 => 28 | 3 => 31 | 4 => 30 | 5 => 31 | 6 => 30
  | 7 => 31 | 8 => 31 | 9 => 30 | 10 => 31 | 11 => 30 | 12 => 31
  | _ => 0
  end.

(** The second component of [calendar.monthrange(year, month)]: the number
    of days of the month.  A month outside 1..12 raises. *)
Definition monthrange_days (y m : Z) : result Z :=
  if (1 <=? m) && (m <=? 12)
  then Ok (mdays m + (if (m =? 2) && isleap y then 1 else 0))
  else Raise IllegalMonthError.

(** The same number as a total function, for statements. *)
Definition days_in_month (y m : Z) : Z :=
  mdays m + (if (m =? 2) && isleap y then 1 else 0).

(** The checks of the constructor [datetime.date(year, month, day)]. *)
Definition date_fields_ok (y m d : Z) : bool :=
  (MINYEAR <=? y) && (y <=? MAXYEAR) &&
  (1 <=? m) && (m <=? 12) &&
  (1 <=? d) && (d <=? days_in_month y m).

(** The range of a C [int], which the constructor of [datetime.date]
    converts its three arguments to. *)
Definition INT_MIN : Z := -2147483648.
Definition INT_MAX : Z := 2147483647.

Definition fits_c_int (z : Z) : bool := (INT_MIN <=? z) && (z <=? INT_MAX).

(** [datetime.date(year, month, day)]: [OverflowError] for an argument
    that is no C [int], [ValueError] outside the ranges of a date.  (For a
    year above [MAXYEAR], [calendar.monthrange] of Python before 3.8
    raises [ValueError] one line earlier.) *)
Definition datetime_date (y m d : Z) : result date :=
  if fits_c_int y && fits_c_int m && fits_c_int d then
    if date_fields_ok y m d then Ok (mkdate y m d) else Raise ValueError
  else Raise OverflowError.

(** The values a [datetime.date] object can hold. *)
Definition valid_date (d : date) : bool :=
  date_fields_ok (year d) (month d) (day d).

(** A [datetime.datetime]: a date and the microseconds since midnight;
    [dt_date] is its method [date()]. *)
Record datetime : Type := mkdatetime { dt_date : date; dt_micros : Z }.

(** [add_months(sourcedate, months)] of [foremen3.py]. *)
Definition add_months (sourcedate : date) (months : Z) : result date :=
  let month0 := month sourcedate - 1 + months in
  let year' := year sourcedate + month0 / 12 in
  let month' := month0 mod 12 + 1 in
  let* ndays := monthrange_days year' month' in
  let day' := Z.min (day sourcedate) ndays in
  datetime_date year' month' day'.

End Calendar.

Import Calendar.

(* ===================================================================== *)
(** * Messages shown on the page *)
(* ===================================================================== *)

Module Streamlit.

(** A piece of an f-string: literal text, a formatted number, date or
    exception. *)
Inductive piece : Type :=
| Txt (s : string)
| Int (z : Z)
| Day (d : date)
| Exc (e : exn).

(** [st.success], [st.warning], [st.error], [st.info]; [Printed] is a
    [print] to the console. *)
Inductive level : Type := Success | Warning | Error | Info | Printed.

Definition message : Type := (level * list piece)%type.

(** The lines of the console among the messages. *)
Definition printed (m : message) : bool :=
  match fst m with
  | Printed => true
  | _ => false
  end.

End Streamlit.

Import Streamlit.

(* ===================================================================== *)
(** * Handlers: state and exceptions *)
(* ===================================================================== *)

Module Handler.

(** A piece of Python code that reads and writes a state of type [W] and
    returns a value or raises. *)
Definition M (W A : Type) : Type := W -> result A * W.

Definition ret {W A : Type} (a : A) : M W A := fun w => (Ok a, w).

Definition bind {W A B : Type} (m : M W A) (k : A -> M W B) : M W B :=
  fun w =>
    match m w with
    | (Ok a, w') => k a w'
    | (Raise e, w') => (Raise e, w')
    end.

Definition raise {W A : Type} (e : exn) : M W A := fun w => (Raise e, w).

(** A pure expression that may raise. *)
Definition lift {W A : Type} (r : result A) : M W A := fun w => (r, w).

(** [try: body  except Error as e: handler]: only [mysql.connector.Error]
    is caught; anything else goes on to the caller.  The [finally] clauses
    of the source close the cursor, which the model does not keep. *)
Definition try_except_Error {W A : Type} (body : M W A) (handler : exn -> M W A) : M W A :=
  fun w =>
    match body w with
    | (Raise (MySQLError n), w') => handler (MySQLError n) w'
    | other => other
    end.

Declare Scope handler_scope.
Delimit Scope handler_scope with handler.
Notation "x <- m ;; k" := (bind m (fun x => k))
  (at level 61, m at next level, right associativity) : handler_scope.
Notation "m ;; k" := (bind m (fun _ => k))
  (at level 61, right associativity) : handler_scope.

End Handler.

Import Handler.
Open Scope handler_scope.

(* ===================================================================== *)
(** * DHARMAREDDY.py *)
(* ===================================================================== *)

Module Dharmareddy.

(** [calculate_installment(chit_value, duration)] *)
Definition calculate_installment (chit_value duration : num) : result num :=
  if Py.gt duration (PyInt 0)
  then Py.truediv chit_value duration
  else Ok (PyInt 0).

(** [calculate_dividend(chit_value, winning_bid_discount_percentage,
    foreman_commission_percentage, num_members)] *)
Definition calculate_dividend
  (chit_value winning_bid_discount_percentage
   foreman_commission_percentage num_members : num) : result num :=
  let* discount_rate := Py.truediv winning_bid_discount_percentage (PyInt 100) in
  let* discount_amount := Py.mul chit_value discount_rate in
  let* commission_rate := Py.truediv foreman_commission_percentage (PyInt 100) in
  let* foreman_commission := Py.mul chit_value commission_rate in
  if Py.gt num_members (PyInt 1)
  then
    let* net := Py.sub discount_amount foreman_commission in
    let* others := Py.sub num_members (PyInt 1) in
    Py.truediv net others
  else Ok (PyInt 0).

(** ** The tables and the handlers of the page "Chit Setup" *)

(** A row of [Chits].  [chit_value] and [duration] come from int widgets
    ([min_value=1000, step=1000] and [min_value=1, step=1]); the column
    types are not in the sources, so a row keeps the values handed to the
    statement. *)
Record chit_row : Type := mkchit {
  chit_id : string;
  chit_value : Z;
  duration : Z;
  foreman_commission_percentage : float;
  start_date : date;
  installment_amount : num }.

(** A row of [Dividends]. *)
Record dividend_row : Type := mkdividend {
  dv_chit_id : string;
  dv_member_id : Z;
  dv_auction_date : date;
  dv_dividend_amount : num;
  dv_distribution_date : date }.

(** The columns that the dividend form selects from [Auctions]. *)
Record auction_row : Type := mkauction {
  winner_id : option Z;
  winning_bid_discount_percentage : option num }.

Inductive statement : Type :=
| InsertChit (r : chit_row)
| UpdateChit (value duration : Z) (commission : float) (start : date)
    (installment : num) (id : string)
| DeleteChit (id : string)
| SelectChit (id : string)
| SelectAuction (id : string) (auction_date : date)
| InsertDividend (r : dividend_row).

(** [connected]: whether [get_db_connection()] gave a live connection.
    [clock]: the reading of [datetime.now()].  [page]: the messages on
    the page and the lines printed on the console so far. *)
Record store : Type := mkstore {
  connected : bool;
  Chits : list chit_row;
  Dividends : list dividend_row;
  clock : datetime;
  page : list message }.

Definition set_tables (cs : list chit_row) (ds : list dividend_row) (s : store) : store :=
  mkstore (connected s) cs ds (clock s) (page s).

Definition set_clock (t : datetime) (s : store) : store :=
  mkstore (connected s) (Chits s) (Dividends s) t (page s).

Definition look {A : Type} (f : store -> A) : M store A := fun s => (Ok (f s), s).

Definition tell (l : level) (text : list piece) : M store unit :=
  fun s => (Ok tt, mkstore (connected s) (Chits s) (Dividends s) (clock s) (page s ++ [(l, text)])).

(** [UPDATE Chits SET ... WHERE chit_id = %s] on one row. *)
Definition update_row (value dur : Z) (commission : float) (start : date)
  (installment : num) (id : string) (r : chit_row) : chit_row :=
  if String.eqb (chit_id r) id
  then mkchit (chit_id r) value dur commission start installment
  else r.

Definition apply_statement (st : statement) (s : store) : store :=
  match st with
  | InsertChit r => set_tables (Chits s ++ [r]) (Dividends s) s
  | UpdateChit v d c sd inst id =>
      set_tables (map (update_row v d c sd inst id) (Chits s)) (Dividends s) s
  | DeleteChit id =>
      set_tables (filter (fun r => negb (String.eqb (chit_id r) id)) (Chits s)) (Dividends s) s
  | SelectChit _ | SelectAuction _ _ => s
  | InsertDividend r => set_tables (Chits s) (Dividends s ++ [r]) s
  end.

(** [st.rerun()]: the run of the script stops here and the script is run
    again from the top, which draws the page anew: nothing of what the
    stopped run had shown stays, the console keeps its lines.  Where the
    handlers call it, it is their last statement. *)
Definition rerun : M store unit :=
  fun s =>
    (Ok tt, mkstore (connected s) (Chits s) (Dividends s) (clock s) (filter printed (page s))).

Section Server.

(** The server's verdict on a statement, a parameter as the schema is not
    in the sources. *)
Variable server_error : list chit_row -> list dividend_row -> statement -> option Z.

(** The rows of [Auctions] for a chit and a date.  The page "Auctions",
    which writes that table, is not modelled, so they are a parameter. *)
Variable auctions_of : string -> date -> list auction_row.

(** [execute_query(conn, query, params)]: [True] when the statement was
    taken and committed; the [Error] is caught here and printed, between
    apostrophes. *)
Definition execute_query (st : statement) : M store bool :=
  live <- look connected ;;
  if live then
    verdict <- look (fun s => server_error (Chits s) (Dividends s) st) ;;
    match verdict with
    | None => (fun s => (Ok true, apply_statement st s))
    | Some errno =>
        tell Printed [Txt "Error executing query: '"; Exc (MySQLError errno); Txt "'"] ;;
        ret false
    end
  else
    tell Printed [Txt "Error: MySQL Connection not available in execute_query."] ;;
    ret false.

(** [fetch_data(conn, "SELECT * FROM Chits WHERE chit_id = %s", (id,))]:
    the list of rows, empty after an error. *)
Definition fetch_chit (id : string) : M store (list chit_row) :=
  live <- look connected ;;
  if live then
    verdict <- look (fun s => server_error (Chits s) (Dividends s) (SelectChit id)) ;;
    match verdict with
    | None => look (fun s => filter (fun r => String.eqb (chit_id r) id) (Chits s))
    | Some errno =>
        tell Printed [Txt "Error executing query: '"; Exc (MySQLError errno); Txt "'"] ;;
        ret []
    end
  else
    tell Printed [Txt "Error: MySQL Connection not available in fetch_data."] ;;
    ret [].

(** [fetch_data(conn, "SELECT winner_id, winning_bid_discount_percentage
    FROM Auctions WHERE chit_id = %s AND auction_date = %s", ...)] *)
Definition fetch_auction (id : string) (auction_date : date) : M store (list auction_row) :=
  live <- look connected ;;
  if live then
    verdict <- look (fun s => server_error (Chits s) (Dividends s)
                                (SelectAuction id auction_date)) ;;
    match verdict with
    | None => ret (auctions_of id auction_date)
    | Some errno =>
        tell Printed [Txt "Error executing query: '"; Exc (MySQLError errno); Txt "'"] ;;
        ret []
    end
  else
    tell Printed [Txt "Error: MySQL Connection not available in fetch_data."] ;;
    ret [].

(** The form [new_chit_form].  [execute_query] raises nothing, so the
    [except] around it never runs and the success message follows whatever
    it returned. *)
Definition new_chit_form (new_chit_id : string) (new_chit_value new_duration : Z)
  (foreman_commission : float) (new_start_date : date) (submitted : bool) : M store unit :=
  if submitted then
    if negb (String.eqb new_chit_id EmptyString) && (0 <? new_chit_value) && (0 <? new_duration)
    then
      installment <- lift (calculate_installment (PyInt new_chit_value) (PyInt new_duration)) ;;
      execute_query (InsertChit (mkchit new_chit_id new_chit_value new_duration
                                   foreman_commission new_start_date installment)) ;;
      tell Success [Txt "Chit Fund '"; Txt new_chit_id; Txt "' created successfully!"]
    else
      tell Error [Txt "Please fill all the required details for the Chit Fund."]
  else ret tt.

(** The body of [if update_submitted:] in the form [edit_chit_form_...]. *)
Definition edit_chit_form_submit (selected_chit_id_edit : string)
  (edit_chit_value edit_duration : Z) (edit_foreman_commission : float)
  (edit_start_date : date) : M store unit :=
  edit_installment <- lift (calculate_installment (PyInt edit_chit_value) (PyInt edit_duration)) ;;
  execute_query (UpdateChit edit_chit_value edit_duration edit_foreman_commission
                   edit_start_date edit_installment selected_chit_id_edit) ;;
  tell Success [Txt "Chit Fund '"; Txt selected_chit_id_edit; Txt "' updated successfully!"].

(** The expander "Edit Existing Chit Fund" as it is written:
    [current_chit = current_chit_data] is the list of rows, and
    [current_chit['chit_value']], the default of the first widget of the
    form, indexes that list with a string. *)
Definition edit_chit_expander (selected_chit_id_edit : string)
  (edit_chit_value edit_duration : Z) (edit_foreman_commission : float)
  (edit_start_date : date) (update_submitted : bool) : M store unit :=
  if negb (String.eqb selected_chit_id_edit EmptyString) then
    current_chit_data <- fetch_chit selected_chit_id_edit ;;
    match current_chit_data with
    | [] => ret tt
    | _ =>
        raise (A := unit) TypeError ;;
        if update_submitted then
          edit_chit_form_submit selected_chit_id_edit edit_chit_value edit_duration
            edit_foreman_commission edit_start_date
        else ret tt
    end
  else ret tt.

(** The button of the expander "Delete Existing Chit Fund": the success
    message is followed by [st.rerun()]. *)
Definition delete_chit (selected_chit_id_delete : string) : M store unit :=
  execute_query (DeleteChit selected_chit_id_delete) ;;
  tell Success [Txt "Chit Fund '"; Txt selected_chit_id_delete; Txt "' deleted successfully!"] ;;
  rerun.

(** The loop [for member_id in members_in_chit] of the form
    [calculate_dividend_form], which writes one dividend per member other
    than the winner, dated [datetime.now().date()].  The winner, the
    members and the amount are parameters here: in the form they come
    from the statements before the loop, and the first of them raises (see
    [calculate_dividend_form] below), so the form as it is written never
    runs the loop. *)
Fixpoint record_dividends (chit_id_dividend : string) (members_in_chit : list Z)
  (winner_id_auction : Z) (auction_date_dividend : date) (dividend_amount : num)
  : M store unit :=
  match members_in_chit with
  | [] => ret tt
  | member_id :: others =>
      (if negb (member_id =? winner_id_auction) then
         today <- look (fun s => dt_date (clock s)) ;;
         execute_query (InsertDividend (mkdividend chit_id_dividend member_id
                                          auction_date_dividend dividend_amount today)) ;;
         ret tt
       else ret tt) ;;
      record_dividends chit_id_dividend others winner_id_auction
        auction_date_dividend dividend_amount
  end.

(** The form [calculate_dividend_form] as it is written.  When the query
    finds an auction, the next statement is
    [winner_id_auction = auction_result[winner_id]]: the name [winner_id]
    is bound nowhere in the program, so the form stops there with
    [NameError].  The statements after it, down to [calculate_dividend] and
    the loop [record_dividends], are never reached. *)
Definition calculate_dividend_form (chit_id_dividend : string)
  (auction_date_dividend : date) (submitted_dividend : bool) : M store unit :=
  if submitted_dividend && negb (String.eqb chit_id_dividend EmptyString) then
    auction_result <- fetch_auction chit_id_dividend auction_date_dividend ;;
    match auction_result with
    | [] =>
        tell Warning [Txt "No auction found for Chit '"; Txt chit_id_dividend;
                      Txt "' on "; Day auction_date_dividend; Txt "."]
    | _ => raise NameError
    end
  else ret tt.

End Server.

End Dharmareddy.

(* ===================================================================== *)
(** * foremen3.py *)
(* ===================================================================== *)

Module Foremen.

(** [uuid.uuid4().bytes]: sixteen bytes, kept as the 128-bit number. *)
Definition uuid : Type := N.
Bind Scope N_scope with uuid.

(** ** The tables (section 6 of the spec, the columns named in the queries) *)

Record group_row : Type := mkgroup {
  g_id : uuid;
  g_name : string;
  g_value : float;
  g_numberOfSubscribers : Z;
  g_duration : Z;
  g_startDate : date;
  g_foremanCommissionPercentage : option float;
  g_isActive : bool }.

Record subscriber_row : Type := mksubscriber {
  s_id : uuid;
  s_name : string;
  s_phoneNumber : string;
  s_address : string;
  s_createdDate : datetime;
  s_isActive : bool }.

Record enrollment_row : Type := mkenrollment {
  e_id : uuid;
  e_subscriberId : uuid;
  e_groupId : uuid;
  e_assignedChitNumber : Z;
  e_joinDate : date }.

Record installment_row : Type := mkinstallment {
  i_id : uuid;
  i_groupId : uuid;
  i_monthNumber : Z;
  i_dueDate : date;
  i_isAuctionConducted : bool;
  i_auctionPrizeAmount : option float;
  i_auctionWinnerId : option uuid;
  i_isCompleted : bool }.

Record payment_row : Type := mkpayment {
  p_id : uuid;
  p_installmentId : uuid;
  p_subscriberId : uuid;
  p_paymentDate : datetime;
  p_amountPaid : float;
  p_notes : string }.

Record database : Type := mkdb {
  ChitGroups : list group_row;
  Subscribers : list subscriber_row;
  Enrollments : list enrollment_row;
  Installments : list installment_row;
  InstallmentPayments : list payment_row }.

(** The statements the modelled functions send to the server. *)
Inductive statement : Type :=
| InsertChitGroup (r : group_row)
| InsertSubscriber (r : subscriber_row)
| InsertEnrollment (r : enrollment_row)
| CountInstallments (groupId : uuid)
| InsertInstallments (rs : list installment_row)
| InsertPayment (r : payment_row)
| SelectInstallmentId (groupId : uuid) (monthNumber : Z)
| SelectPaymentStatus (installmentId groupId : uuid).

(** ** The world a handler runs in *)

(** [connection]: whether [get_db_connection()] yields a connection.
    [now]: the reading of the wall clock, [datetime.datetime.now()].
    [uuid4_source], [uuid4_calls]: the random identifiers, and how many
    were drawn so far.  [screen]: the messages on the page.
    [connect_error]: what happens when there is no connection: the [errno]
    of the [Error] that [mysql.connector.connect] raises, or [None] when
    it gives a connection that is not connected. *)
Record world : Type := mkworld {
  connection : bool;
  db : database;
  now : datetime;
  uuid4_source : nat -> uuid;
  uuid4_calls : nat;
  screen : list message;
  connect_error : option Z }.

Definition set_db (d : database) (w : world) : world :=
  mkworld (connection w) d (now w) (uuid4_source w) (uuid4_calls w) (screen w)
    (connect_error w).

Definition set_now (t : datetime) (w : world) : world :=
  mkworld (connection w) (db w) t (uuid4_source w) (uuid4_calls w) (screen w)
    (connect_error w).

Definition set_uuid4_calls (n : nat) (w : world) : world :=
  mkworld (connection w) (db w) (now w) (uuid4_source w) n (screen w) (connect_error w).

Definition set_screen (s : list message) (w : world) : world :=
  mkworld (connection w) (db w) (now w) (uuid4_source w) (uuid4_calls w) s
    (connect_error w).

Definition M (A : Type) : Type := Handler.M world A.

Definition show (l : level) (text : list piece) : M unit :=
  fun w => (Ok tt, set_screen (screen w ++ [(l, text)]) w).

(** [st.rerun()]: the run of the script stops here and the script is run
    again from the top, which draws the page anew: nothing of what the
    stopped run had shown stays.  Where a page calls it, it is the last
    statement of the part that is modelled. *)
Definition rerun : M unit :=
  fun w => (Ok tt, set_screen (filter printed (screen w)) w).

(** [uuid.uuid4().bytes] *)
Definition uuid4 : M uuid :=
  fun w => (Ok (uuid4_source w (uuid4_calls w)), set_uuid4_calls (S (uuid4_calls w)) w).

(** [datetime.datetime.now()].  The reading stays the same while one
    handler runs. *)
Definition datetime_now : M datetime := fun w => (Ok (now w), w).

(** The message of [get_db_connection()] when it gives no connection:
    the one of its [except Error] branch when [connect] raised, the one of
    its [else] branch when the connection it got is not connected. *)
Definition no_connection (raised : option Z) : message :=
  match raised with
  | Some errno =>
      (Error,
       [Txt "Database connection error: Unable to connect. Please check your credentials and database status. Details: ";
        Exc (MySQLError errno)])
  | None => (Error, [Txt "Database connection failed."])
  end.

(** [get_db_connection()]: the connection, or [None] after an error
    message.  Its [print]s go to the console, which [screen] does not
    keep. *)
Definition get_db_connection : M bool :=
  fun w =>
    if connection w then (Ok true, w)
    else (Ok false, set_screen (screen w ++ [no_connection (connect_error w)]) w).

(** [range(lo, hi)] *)
Definition py_range (lo hi : Z) : list Z :=
  map (fun i => lo + Z.of_nat i) (seq 0 (Z.to_nat (hi - lo))).

(** What a modifying statement does to the tables once the server has
    taken it. *)
Definition apply_statement (st : statement) (d : database) : database :=
  match st with
  | InsertChitGroup r =>
      mkdb (ChitGroups d ++ [r]) (Subscribers d) (Enrollments d) (Installments d) (InstallmentPayments d)
  | InsertSubscriber r =>
      mkdb (ChitGroups d) (Subscribers d ++ [r]) (Enrollments d) (Installments d) (InstallmentPayments d)
  | InsertEnrollment r =>
      mkdb (ChitGroups d) (Subscribers d) (Enrollments d ++ [r]) (Installments d) (InstallmentPayments d)
  | InsertInstallments rs =>
      mkdb (ChitGroups d) (Subscribers d) (Enrollments d) (Installments d ++ rs) (InstallmentPayments d)
  | InsertPayment r =>
      mkdb (ChitGroups d) (Subscribers d) (Enrollments d) (Installments d) (InstallmentPayments d ++ [r])
  | CountInstallments _ | SelectInstallmentId _ _ | SelectPaymentStatus _ _ => d
  end.

(** ** Queries *)

(** [SELECT id FROM Installments WHERE groupId = %s AND monthNumber = %s] *)
Definition select_installment_id (d : database) (groupId : uuid) (monthNumber : Z) : list uuid :=
  map i_id
    (filter (fun i => (i_groupId i =? groupId)%N && (i_monthNumber i =? monthNumber))
       (Installments d)).

(** [SELECT COUNT( * ) FROM Installments WHERE groupId = %s] *)
Definition count_installments (d : database) (groupId : uuid) : Z :=
  Z.of_nat (List.length (filter (fun i => (i_groupId i =? groupId)%N) (Installments d))).

(** A row of the status query before grouping: the GROUP BY columns
    [e.id, s.id, s.name, e.assignedChitNumber] and [ip.amountPaid], which
    is NULL when the LEFT JOIN found no payment. *)
Definition status_key : Type := (uuid * uuid * string * Z)%type.

Definition status_key_eqb (a b : status_key) : bool :=
  let '(ae, asub, an, ac) := a in
  let '(be, bsub, bn, bc) := b in
  (ae =? be)%N && (asub =? bsub)%N && String.eqb an bn && (ac =? bc).

(** The payments of one subscriber for one installment, in table order:
    the rows the LEFT JOIN condition
    [e.subscriberId = ip.subscriberId AND ip.installmentId = %s] keeps. *)
Definition payments_of (d : database) (installmentId subscriberId : uuid) : list payment_row :=
  filter (fun ip => (subscriberId =? p_subscriberId ip)%N && (p_installmentId ip =? installmentId)%N)
    (InstallmentPayments d).

(** [FROM Enrollments e JOIN Subscribers s ON e.subscriberId = s.id
     LEFT JOIN InstallmentPayments ip ON ... WHERE e.groupId = %s] *)
Definition status_joined (d : database) (installmentId groupId : uuid)
  : list (status_key * option float) :=
  flat_map (fun e =>
    flat_map (fun s =>
      let k := (e_id e, s_id s, s_name s, e_assignedChitNumber e) in
      match payments_of d installmentId (e_subscriberId e) with
      | [] => [(k, None)]
      | ips => map (fun ip => (k, Some (p_amountPaid ip))) ips
      end)
      (filter (fun s => (e_subscriberId e =? s_id s)%N) (Subscribers d)))
    (filter (fun e => (e_groupId e =? groupId)%N) (Enrollments d)).

(** The values of a column that are not NULL. *)
Definition non_null {A : Type} (vs : list (option A)) : list A :=
  flat_map (fun v => match v with Some x => [x] | None => [] end) vs.

(** [SUM(...)] over a group: NULL when every value is NULL, else the
    values added in the order of the rows. *)
Definition sql_sum (vs : list (option float)) : option float :=
  match non_null vs with
  | [] => None
  | a :: rest => Some (fold_left PrimFloat.add rest a)
  end.

(** The different keys of a list, in the order of their first row. *)
Fixpoint distinct (ks : list status_key) : list status_key :=
  match ks with
  | [] => []
  | k :: rest => k :: filter (fun k' => negb (status_key_eqb k k')) (distinct rest)
  end.

(** [GROUP BY e.id, s.id, s.name, e.assignedChitNumber] with
    [SUM(ip.amountPaid)]. *)
Definition status_grouped (rows : list (status_key * option float))
  : list (status_key * option float) :=
  map (fun k =>
         (k, sql_sum (map snd (filter (fun r => status_key_eqb k (fst r)) rows))))
      (distinct (map fst rows)).

Definition chit_number_of (r : status_key * option float) : Z :=
  let '(_, _, _, c) := fst r in c.

(** [ORDER BY e.assignedChitNumber]: a stable insertion sort. *)
Fixpoint insert_by_chit_number (r : status_key * option float)
  (sorted : list (status_key * option float)) : list (status_key * option float) :=
  match sorted with
  | [] => [r]
  | x :: rest =>
      if chit_number_of x <? chit_number_of r
      then x :: insert_by_chit_number r rest
      else r :: sorted
  end.

Definition order_by_chit_number (rows : list (status_key * option float))
  : list (status_key * option float) :=
  fold_right insert_by_chit_number [] rows.

(** The whole status query of [get_payment_status_for_installment]. *)
Definition select_payment_status (d : database) (installmentId groupId : uuid)
  : list (status_key * option float) :=
  order_by_chit_number (status_grouped (status_joined d installmentId groupId)).

(** One dictionary of the returned status list. *)
Record status_entry : Type := mkstatus {
  Subscriber_Name : string;
  Chit_Number : Z;
  Status : string;
  Total_Paid : num }.

(** The body of the loop [for row in results]. *)
Definition status_of_row (row : status_key * option float) : status_entry :=
  let '(_, _, subscriberName, assignedChitNumber) := fst row in
  let total_paid :=
    match snd row with
    | Some f => PyFloat f
    | None => PyInt 0
    end in
  let status := if Py.gt total_paid (PyInt 0) then "Paid"%string else "Due"%string in
  mkstatus subscriberName assignedChitNumber status total_paid.

(** ** The database functions *)

Section Server.

(** The schema is not part of the sources, so whether the server takes a
    statement (unique keys, foreign keys, column ranges, its own health) is
    a parameter: [Some errno] is the [mysql.connector.Error] it answers. *)
Variable server_error : database -> statement -> option Z.

(** Python's [float(str)], whose [ValueError] the form catches. *)
Variable float_of_str : string -> result float.

(** [cursor.execute(query, values)] *)
Definition execute (st : statement) : M unit :=
  fun w =>
    match server_error (db w) st with
    | Some errno => (Raise (MySQLError errno), w)
    | None => (Ok tt, set_db (apply_statement st (db w)) w)
    end.

(** [cursor.executemany(query, rows)] sends nothing for an empty list. *)
Definition executemany (rows : list installment_row) : M unit :=
  match rows with
  | [] => ret tt
  | _ => execute (InsertInstallments rows)
  end.

(** [conn.commit()] and [conn.rollback()].  Every function sends one
    modifying statement and commits right after it, so the open transaction
    never holds more than the statement that has just been taken or
    refused: [execute] writes the tables directly. *)
Definition commit : M unit := ret tt.
Definition rollback : M unit := ret tt.

(** Reading a result set that the server has produced. *)
Definition fetch {A : Type} (q : database -> A) : M A :=
  fun w => (Ok (q (db w)), w).

(** [insert_group(name, value, num_subscribers, duration, start_date,
    commission)] *)
Definition insert_group (name : string) (value : float) (num_subscribers duration : Z)
  (start_date : date) (commission : option float) : M bool :=
  conn <- get_db_connection ;;
  if negb conn then ret false
  else
    try_except_Error
      (group_id <- uuid4 ;;
       execute (InsertChitGroup
                  (mkgroup group_id name value num_subscribers duration
                     start_date commission true)) ;;
       commit ;;
       show Success [Txt "Chit Group '"; Txt name; Txt "' added successfully!"] ;;
       ret true)
      (fun e =>
         show Error [Txt "Error adding Chit Group: "; Exc e] ;;
         rollback ;;
         ret false).

(** [insert_subscriber(name, phone, address)] *)
Definition insert_subscriber (name phone address : string) : M bool :=
  conn <- get_db_connection ;;
  if negb conn then ret false
  else
    try_except_Error
      (subscriber_id <- uuid4 ;;
       created <- datetime_now ;;
       execute (InsertSubscriber
                  (mksubscriber subscriber_id name phone address created true)) ;;
       commit ;;
       show Success [Txt "Subscriber '"; Txt name; Txt "' added successfully!"] ;;
       ret true)
      (fun e =>
         (match e with
          | MySQLError 1062 =>
              show Error [Txt "Error adding Subscriber: Phone number '"; Txt phone;
                          Txt "' already exists."]
          | _ => show Error [Txt "Error adding Subscriber: "; Exc e]
          end) ;;
         rollback ;;
         ret false).

(** [insert_enrollment(subscriber_id_bytes, group_id_bytes, assigned_number,
    join_date)] *)
Definition insert_enrollment (subscriber_id_bytes group_id_bytes : uuid)
  (assigned_number : Z) (join_date : date) : M bool :=
  conn <- get_db_connection ;;
  if negb conn then ret false
  else
    try_except_Error
      (enrollment_id <- uuid4 ;;
       execute (InsertEnrollment
                  (mkenrollment enrollment_id subscriber_id_bytes group_id_bytes
                     assigned_number join_date)) ;;
       commit ;;
       show Success [Txt "Subscriber enrolled successfully!"] ;;
       ret true)
      (fun e =>
         (match e with
          | MySQLError 1062 =>
              show Error [Txt "Error enrolling Subscriber: Either they are already enrolled in this group, or the assigned number is already taken in this group."]
          | _ => show Error [Txt "Error enrolling Subscriber: "; Exc e]
          end) ;;
         rollback ;;
         ret false).

(** The loop [for month_num in range(1, duration + 1)] of
    [generate_installments_for_group], which fills [values_to_insert].
    The two auction columns are not among the inserted ones and stay NULL. *)
Fixpoint installment_values (group_id_bytes : uuid) (start_date : date)
  (months : list Z) : M (list installment_row) :=
  match months with
  | [] => ret []
  | month_num :: later =>
      installment_id <- uuid4 ;;
      due_date <- lift (add_months start_date (month_num - 1)) ;;
      others <- installment_values group_id_bytes start_date later ;;
      ret (mkinstallment installment_id group_id_bytes month_num due_date
             false None None false :: others)
  end.

(** [generate_installments_for_group(group_id_bytes, start_date, duration)].
    [start_date] is a [date] here, so the [isinstance] test of the source
    passes. *)
Definition generate_installments_for_group (group_id_bytes : uuid)
  (start_date : date) (duration : Z) : M bool :=
  conn <- get_db_connection ;;
  if negb conn then ret false
  else
    try_except_Error
      (execute (CountInstallments group_id_bytes) ;;
       count <- fetch (fun d => count_installments d group_id_bytes) ;;
       if 0 <? count then
         show Warning [Txt "Installments already exist for this group. Cannot regenerate."] ;;
         ret false
       else
         values_to_insert <-
           installment_values group_id_bytes start_date (py_range 1 (duration + 1)) ;;
         executemany values_to_insert ;;
         commit ;;
         show Success [Txt "Generated "; Int duration; Txt " installments for the group."] ;;
         ret true)
      (fun e =>
         show Error [Txt "Error generating installments: "; Exc e] ;;
         rollback ;;
         ret false).

(** [insert_payment(installment_id_bytes, subscriber_id_bytes, amount_paid,
    notes)] *)
Definition insert_payment (installment_id_bytes subscriber_id_bytes : uuid)
  (amount_paid : float) (notes : string) : M bool :=
  conn <- get_db_connection ;;
  if negb conn then ret false
  else
    try_except_Error
      (payment_id <- uuid4 ;;
       payment_date <- datetime_now ;;
       execute (InsertPayment
                  (mkpayment payment_id installment_id_bytes subscriber_id_bytes
                     payment_date amount_paid notes)) ;;
       commit ;;
       show Success [Txt "Payment recorded successfully!"] ;;
       ret true)
      (fun e =>
         show Error [Txt "Error recording payment: "; Exc e] ;;
         rollback ;;
         ret false).

(** [get_payment_status_for_installment(group_id_bytes,
    installment_month_number)].  [fetchone()] takes the first installment
    row; when the server had more than one, the rows left unread make the
    next [execute] raise (an [InternalError], errno -1). *)
Definition get_payment_status_for_installment (group_id_bytes : uuid)
  (installment_month_number : Z) : M (list status_entry) :=
  conn <- get_db_connection ;;
  if negb conn then ret []
  else
    try_except_Error
      (execute (SelectInstallmentId group_id_bytes installment_month_number) ;;
       found <- fetch (fun d => select_installment_id d group_id_bytes installment_month_number) ;;
       match found with
       | [] =>
           show Info [Txt "Installment Month "; Int installment_month_number;
                      Txt " not found for this group."] ;;
           ret []
       | installment_id_bytes :: unread =>
           (match unread with
            | [] => execute (SelectPaymentStatus installment_id_bytes group_id_bytes)
            | _ => raise (MySQLError (-1))
            end) ;;
           results <- fetch (fun d => select_payment_status d installment_id_bytes group_id_bytes) ;;
           ret (map status_of_row results)
       end)
      (fun e =>
         show Error [Txt "Error fetching payment status: "; Exc e] ;;
         ret []).

(** ** The forms *)

(** The text field of the commission:
    [float(commission_str) if commission_str else None], a [ValueError]
    giving a warning and [None]. *)
Definition read_commission (commission_str : string) : M (option float) :=
  match commission_str with
  | EmptyString => ret None
  | _ =>
      match float_of_str commission_str with
      | Ok c => ret (Some c)
      | Raise ValueError =>
          show Warning [Txt "Invalid input for Commission. Please enter a number."] ;;
          ret None
      | Raise e => raise e
      end
  end.

(** The form [add_group_form] of the page "Manage Chit Groups": the values
    of its widgets and whether the button was pressed.  A date is always
    true in Python, so [start_date] does not show in the test. *)
Definition add_group_form (name : string) (value : float) (num_subscribers duration : Z)
  (start_date : date) (commission_str : string) (submitted : bool) : M unit :=
  commission <- read_commission commission_str ;;
  if submitted then
    if negb (String.eqb name EmptyString)
       && Py.gt (PyFloat value) (PyInt 0)
       && (0 <? num_subscribers) && (0 <? duration)
    then
      insert_group name value num_subscribers duration start_date commission ;;
      ret tt
    else
      show Warning [Txt "Please fill all required fields (Name, Value, Subscribers, Duration, Start Date) with valid values."]
  else ret tt.

(** The form [record_payment_form] of the page "Record Payments", once an
    installment and a subscriber are selected. *)
Definition record_payment_form (selected_installment_id selected_subscriber_id : uuid)
  (amount_paid : float) (notes : string) (record_button : bool) : M unit :=
  if record_button then
    if Py.gt (PyFloat amount_paid) (PyInt 0) then
      insert_payment selected_installment_id selected_subscriber_id amount_paid notes ;;
      ret tt
    else
      show Warning [Txt "Amount Paid must be greater than zero."]
  else ret tt.

End Server.

End Foremen.

(* ===================================================================== *)
(** * Notions used in the statements *)
(* ===================================================================== *)

Import Dharmareddy.
Import Foremen.

(** [x * (p / 100)], the amount that the percentage [p] of [x] is, as
    [calculate_dividend] computes its two products. *)
Definition percent_of (x p : num) : result num :=
  let* rate := Py.truediv p (PyInt 100) in
  Py.mul x rate.

(** The month and the year that [add_months] reaches. *)
Definition target_year (d : date) (months : Z) : Z :=
  year d + (month d - 1 + months) / 12.

Definition target_month (d : date) (months : Z) : Z :=
  (month d - 1 + months) mod 12 + 1.

(** What the spec asks of a freshly generated installment of group [g]
    with start date [s]: due [monthNumber - 1] months after [s], no
    auction yet, not completed. *)
Definition scheduled (g : uuid) (s : date) (r : installment_row) : Prop :=
  i_groupId r = g /\
  add_months s (i_monthNumber r - 1) = Ok (i_dueDate r) /\
  i_isAuctionConducted r = false /\ i_isCompleted r = false /\
  i_auctionPrizeAmount r = None /\ i_auctionWinnerId r = None.

(** Two worlds that differ at most in the identifiers drawn. *)
Definition same_but_uuids (w w' : world) : Prop :=
  connection w' = connection w /\ db w' = db w /\ now w' = now w /\
  screen w' = screen w /\ uuid4_source w' = uuid4_source w.

(** The sum of the payments of one subscriber for one installment, as
    the form reads it: the int [0] when there is none. *)
Definition total_paid_for (d : database) (installmentId subscriberId : uuid) : num :=
  match payments_of d installmentId subscriberId with
  | [] => PyInt 0
  | p :: ps => PyFloat (fold_left PrimFloat.add (map p_amountPaid ps) (p_amountPaid p))
  end.

Definition key_of (e : enrollment_row) (s : subscriber_row) : status_key :=
  (e_id e, s_id s, s_name s, e_assignedChitNumber e).

(** The rows of the join that come from one enrollment and its subscriber. *)
Definition joined_for (d : database) (installmentId : uuid)
  (e : enrollment_row) (s : subscriber_row) : list (status_key * option float) :=
  match payments_of d installmentId (e_subscriberId e) with
  | [] => [(key_of e s, None)]
  | ips => map (fun ip => (key_of e s, Some (p_amountPaid ip))) ips
  end.

(** The tables with other groups: the status query reads none of them. *)
Definition with_groups (gs : list group_row) (d : database) : database :=
  mkdb gs (Subscribers d) (Enrollments d) (Installments d) (InstallmentPayments d).

(** What the form makes of the commission text: nothing for an empty text
    or one that [float] refuses, else the number, whatever it is. *)
Definition parsed_commission (float_of_str : string -> result float)
  (commission_str : string) : option float :=
  match commission_str with
  | EmptyString => None
  | _ => match float_of_str commission_str with
         | Ok c => Some c
         | Raise _ => None
         end
  end.

(** The warning that a text [float] refuses leaves on the page. *)
Definition commission_notes (float_of_str : string -> result float)
  (commission_str : string) : list message :=
  match commission_str with
  | EmptyString => []
  | _ => match float_of_str commission_str with
         | Ok _ => []
         | Raise _ => [(Warning, [Txt "Invalid input for Commission. Please enter a number."])]
         end
  end.

Definition fill_fields_warning : message :=
  (Warning, [Txt "Please fill all required fields (Name, Value, Subscribers, Duration, Start Date) with valid values."]).

(** A handler that never reads the clock: run at another reading [t], it
    gives the same value and the same world, up to the clock itself. *)
Definition clock_blind {A : Type} (m : Foremen.M A) : Prop :=
  forall t w, m (set_now t w) = (fst (m w), set_now t (snd (m w))).

(** The invariant of the spec on one row: the stored installment amount
    is the value divided by the duration. *)
Definition installment_invariant (r : chit_row) : Prop :=
  Py.truediv (PyInt (chit_value r)) (PyInt (duration r)) = Ok (installment_amount r).

Definition chits_invariant (s : store) : Prop :=
  Forall installment_invariant (Chits s).

(** What the page "Chit Setup" can do to the store.  The int widgets of
    both forms hold a value of at least 1000 and a duration of at least 1. *)
Inductive chit_step (server_error : list chit_row -> list dividend_row ->
                                     Dharmareddy.statement -> option Z)
  : store -> store -> Prop :=
| step_new (s : store) (id : string) (v d : Z) (c : float) (sd : date) (submitted : bool) :
    1000 <= v -> 1 <= d ->
    chit_step server_error s (snd (new_chit_form server_error id v d c sd submitted s))
| step_edit (s : store) (id : string) (v d : Z) (c : float) (sd : date) :
    1000 <= v -> 1 <= d ->
    chit_step server_error s (snd (edit_chit_form_submit server_error id v d c sd s))
| step_edit_expander (s : store) (id : string) (v d : Z) (c : float) (sd : date)
    (submitted : bool) :
    chit_step server_error s (snd (edit_chit_expander server_error id v d c sd submitted s))
| step_delete (s : store) (id : string) :
    chit_step server_error s (snd (delete_chit server_error id s)).

(* ===================================================================== *)
(** * Sample worlds *)
(* ===================================================================== *)

Module Samples.

(** A server that takes every statement. *)
Definition willing_server : database -> statement -> option Z := fun _ _ => None.

(** Identifiers 4096, 4097, ... *)
Definition counting_uuids : nat -> uuid := fun n => (4096 + N.of_nat n)%N.

(** A parser that knows the texts "5" and "50". *)
Definition small_float_of_str (s : string) : result float :=
  if String.eqb s "5" then Ok 5%float
  else if String.eqb s "50" then Ok 50%float
  else Raise ValueError.

Definition empty_db : database := mkdb [] [] [] [] [].

Definition noon : datetime := mkdatetime (mkdate 2025 5 15) 43200000000.
Definition midnight : datetime := mkdatetime (mkdate 2025 5 16) 0.

(** A connected world with empty tables. *)
Definition fresh_world : world := mkworld true empty_db noon counting_uuids 0 [] None.

(** One group of value 100000 over 20 months (an installment of 5000),
    two subscribers enrolled in it, the installment of month 1, and a
    payment of 100 towards it by the first of them. *)
Definition underpaid_db : database :=
  mkdb
    [mkgroup 1 "Group A" 100000 20 20 (mkdate 2025 1 31) (Some 5%float) true]
    [mksubscriber 10 "Asha" "9000000001" EmptyString noon true;
     mksubscriber 11 "Ravi" "9000000002" EmptyString noon true]
    [mkenrollment 20 10 1 1 (mkdate 2025 1 31);
     mkenrollment 21 11 1 2 (mkdate 2025 1 31)]
    [mkinstallment 30 1 1 (mkdate 2025 1 31) false None None false]
    [mkpayment 40 30 10 noon 100 EmptyString].

Definition underpaid_world : world := mkworld true underpaid_db noon counting_uuids 0 [] None.

End Samples.

Import Samples.

(** Sample stores of DHARMAREDDY.py. *)
Module ChitSamples.

Definition willing_chit_server
  : list chit_row -> list dividend_row -> Dharmareddy.statement -> option Z :=
  fun _ _ _ => None.

Definition empty_store : store := mkstore true [] [] noon [].

(** The store after the chit "DR-01" of value 100000 over 20 months was
    created. *)
Definition one_chit : store :=
  snd (new_chit_form willing_chit_server "DR-01" 100000 20 5 (mkdate 2025 6 1) true empty_store).

End ChitSamples.

Import ChitSamples.

(* ===================================================================== *)
(** * foremen3.py: listings, auctions and the other forms *)
(* ===================================================================== *)

Module Pages.

(** [ORDER BY] on a whole-number column: a stable insertion sort.  Rows
    with the same value stay in table order; the server promises no order
    among them. *)
Fixpoint insert_by {A : Type} (key : A -> Z) (r : A) (sorted : list A) : list A :=
  match sorted with
  | [] => [r]
  | x :: rest =>
      if key x <? key r
      then x :: insert_by key r rest
      else r :: sorted
  end.

Definition order_by {A : Type} (key : A -> Z) (rows : list A) : list A :=
  fold_right (insert_by key) [] rows.

(** [ORDER BY name]: the same sort on a text column.  Which of two names
    comes first is the collation's affair, [before] here. *)
Fixpoint insert_by_name {A : Type} (before : string -> string -> bool) (name : A -> string)
  (r : A) (sorted : list A) : list A :=
  match sorted with
  | [] => [r]
  | x :: rest =>
      if before (name x) (name r)
      then x :: insert_by_name before name r rest
      else r :: sorted
  end.

Definition order_by_name {A : Type} (before : string -> string -> bool) (name : A -> string)
  (rows : list A) : list A :=
  fold_right (insert_by_name before name) [] rows.

(** The statements of the functions of this part. *)
Inductive query : Type :=
| SelectInstallments (groupId : uuid)
| SelectEnrollmentDetails (groupId : uuid)
| SelectGroupDetails (id : uuid)
| SelectGroupNames
| SelectSubscriberNames
| UpdateInstallmentAuction (prize_amount : float) (winner id : uuid).

(** A dictionary of [get_enrollments_details_for_group]. *)
Record enrollment_detail : Type := mkdetail {
  enrollmentId : uuid;
  subscriberId : uuid;
  subscriberName : string;
  subscriberPhone : string;
  assignedChitNumber : Z;
  joinDate : date }.

(** [SELECT ... FROM Installments WHERE groupId = %s ORDER BY monthNumber] *)
Definition select_installments (d : database) (groupId : uuid) : list installment_row :=
  order_by i_monthNumber
    (filter (fun i => (i_groupId i =? groupId)%N) (Installments d)).

(** [SELECT ... FROM Enrollments e JOIN Subscribers s ON e.subscriberId = s.id
     WHERE e.groupId = %s ORDER BY e.assignedChitNumber] *)
Definition select_enrollment_details (d : database) (groupId : uuid)
  : list enrollment_detail :=
  order_by assignedChitNumber
    (flat_map (fun e =>
       map (fun s => mkdetail (e_id e) (s_id s) (s_name s) (s_phoneNumber s)
                       (e_assignedChitNumber e) (e_joinDate e))
         (filter (fun s => (e_subscriberId e =? s_id s)%N) (Subscribers d)))
       (filter (fun e => (e_groupId e =? groupId)%N) (Enrollments d))).

(** [SELECT ... FROM ChitGroups WHERE id = %s] *)
Definition select_group_details (d : database) (id : uuid) : list group_row :=
  filter (fun g => (g_id g =? id)%N) (ChitGroups d).

(** [SET isAuctionConducted = TRUE, auctionPrizeAmount = %s,
    auctionWinnerId = %s WHERE id = %s] on one row. *)
Definition set_auction (prize_amount : float) (winner id : uuid) (r : installment_row)
  : installment_row :=
  if (i_id r =? id)%N
  then mkinstallment (i_id r) (i_groupId r) (i_monthNumber r) (i_dueDate r)
         true (Some prize_amount) (Some winner) (i_isCompleted r)
  else r.

Definition apply_query (q : query) (d : database) : database :=
  match q with
  | UpdateInstallmentAuction prize_amount winner id =>
      mkdb (ChitGroups d) (Subscribers d) (Enrollments d)
        (map (set_auction prize_amount winner id) (Installments d))
        (InstallmentPayments d)
  | SelectInstallments _ | SelectEnrollmentDetails _ | SelectGroupDetails _
  | SelectGroupNames | SelectSubscriberNames => d
  end.

(** [{name: id for name, id in options}.get(key)]: of two options with the
    same name the dictionary keeps the later one. *)
Definition dict_get {V : Type} (options : list (string * V)) (key : string) : option V :=
  option_map snd (find (fun p => String.eqb (fst p) key) (rev options)).

Section Server.

(** The server's verdict on the statements of [Foremen] and on those of
    this part. *)
Variable server_error : database -> statement -> option Z.
Variable query_error : database -> query -> option Z.

(** [cursor.rowcount] after the UPDATE: the rows it changed, or the rows it
    matched when the connection counts those (CLIENT_FOUND_ROWS).  The
    sources pass no flag, so which of the two it is stays with the library:
    the count is a parameter. *)
Variable rowcount : database -> query -> Z.

(** The texts [f"Month {monthNumber} (Due: {dueDate:%Y-%m-%d})"] and
    [f"{subscriberName} (Chit No: {assignedChitNumber})"] of the select
    boxes; [strftime] pads the year differently from one platform to
    another. *)
Variable month_label : Z -> date -> string.
Variable subscriber_label : string -> Z -> string.

(** The order of the collation of the name columns: whether the first name
    sorts before the second. *)
Variable name_before : string -> string -> bool.

(** [cursor.execute(query, values)] *)
Definition execute (q : query) : M unit :=
  fun w =>
    match query_error (db w) q with
    | Some errno => (Raise (MySQLError errno), w)
    | None => (Ok tt, set_db (apply_query q (db w)) w)
    end.

(** [get_installments_for_group(group_id_bytes)].  The identifiers of the
    rows become [uuid.UUID] objects, the same sixteen bytes. *)
Definition get_installments_for_group (group_id_bytes : uuid) : M (list installment_row) :=
  conn <- get_db_connection ;;
  if negb conn then ret []
  else
    try_except_Error
      (execute (SelectInstallments group_id_bytes) ;;
       results <- fetch (fun d => select_installments d group_id_bytes) ;;
       ret results)
      (fun e =>
         show Error [Txt "Error fetching installments: "; Exc e] ;;
         ret []).

(** [get_enrollments_details_for_group(group_id_bytes)] *)
Definition get_enrollments_details_for_group (group_id_bytes : uuid)
  : M (list enrollment_detail) :=
  conn <- get_db_connection ;;
  if negb conn then ret []
  else
    try_except_Error
      (execute (SelectEnrollmentDetails group_id_bytes) ;;
       results <- fetch (fun d => select_enrollment_details d group_id_bytes) ;;
       ret results)
      (fun e =>
         show Error [Txt "Error fetching enrollments: "; Exc e] ;;
         ret []).

(** [get_group_details_by_id(group_id_bytes)]: the row [fetchone()] gives,
    [None] when there is none, no connection, or an error. *)
Definition get_group_details_by_id (group_id_bytes : uuid) : M (option group_row) :=
  conn <- get_db_connection ;;
  if negb conn then ret None
  else
    try_except_Error
      (execute (SelectGroupDetails group_id_bytes) ;;
       result <- fetch (fun d => hd_error (select_group_details d group_id_bytes)) ;;
       ret result)
      (fun e =>
         show Error [Txt "Error fetching group details: "; Exc e] ;;
         ret None).

(** [get_group_names_and_ids()]: the pairs of name and identifier of the
    active groups, for the select boxes. *)
Definition get_group_names_and_ids : M (list (string * uuid)) :=
  conn <- get_db_connection ;;
  if negb conn then ret []
  else
    try_except_Error
      (execute SelectGroupNames ;;
       results <- fetch (fun d => order_by_name name_before g_name
                                    (filter g_isActive (ChitGroups d))) ;;
       ret (map (fun group => (g_name group, g_id group)) results))
      (fun e =>
         show Error [Txt "Error fetching group names: "; Exc e] ;;
         ret []).

(** [get_subscriber_names_and_ids()] *)
Definition get_subscriber_names_and_ids : M (list (string * uuid)) :=
  conn <- get_db_connection ;;
  if negb conn then ret []
  else
    try_except_Error
      (execute SelectSubscriberNames ;;
       results <- fetch (fun d => order_by_name name_before s_name
                                    (filter s_isActive (Subscribers d))) ;;
       ret (map (fun sub => (s_name sub, s_id sub)) results))
      (fun e =>
         show Error [Txt "Error fetching subscriber names: "; Exc e] ;;
         ret []).

(** [update_installment_auction(installment_id_bytes, prize_amount,
    winner_subscriber_id_bytes)].  The commit comes before the test of
    [rowcount]. *)
Definition update_installment_auction (installment_id_bytes : uuid)
  (prize_amount : float) (winner_subscriber_id_bytes : uuid) : M bool :=
  conn <- get_db_connection ;;
  if negb conn then ret false
  else
    try_except_Error
      (count <- fetch (fun d => rowcount d
                   (UpdateInstallmentAuction prize_amount winner_subscriber_id_bytes
                      installment_id_bytes)) ;;
       execute (UpdateInstallmentAuction prize_amount winner_subscriber_id_bytes
                  installment_id_bytes) ;;
       commit ;;
       if 0 <? count then
         show Success [Txt "Auction details updated successfully!"] ;;
         ret true
       else
         show Warning [Txt "No installment found with the specified ID to update."] ;;
         ret false)
      (fun e =>
         show Error [Txt "Error updating auction details: "; Exc e] ;;
         rollback ;;
         ret false).

(** The form [add_subscriber_form] of the page "Manage Subscribers". *)
Definition add_subscriber_form (name phone address : string) (submitted : bool) : M unit :=
  if submitted then
    if negb (String.eqb name EmptyString) && negb (String.eqb phone EmptyString)
    then
      insert_subscriber server_error name phone address ;;
      ret tt
    else
      show Warning [Txt "Please fill in the Subscriber's Name and Phone Number."]
  else ret tt.

(** The form [add_enrollment_form] of the page "Manage Enrollments", from
    the two option lists that [get_group_names_and_ids] and
    [get_subscriber_names_and_ids] gave.  An identifier is sixteen bytes and
    a date is a date, both true in Python; only [None] fails the test. *)
Definition add_enrollment_form (group_options subscriber_options : list (string * uuid))
  (selected_group_name selected_subscriber_name : string)
  (assigned_number : Z) (join_date : date) (submitted : bool) : M unit :=
  match group_options, subscriber_options with
  | [], _ | _, [] =>
      show Info [Txt "Please add at least one Group and one Subscriber before creating enrollments."]
  | _, _ =>
      if submitted then
        match dict_get group_options selected_group_name,
              dict_get subscriber_options selected_subscriber_name with
        | Some selected_group_id_bytes, Some selected_subscriber_id_bytes =>
            if 1 <=? assigned_number then
              insert_enrollment server_error selected_subscriber_id_bytes
                selected_group_id_bytes assigned_number join_date ;;
              ret tt
            else
              show Warning [Txt "Please select a Group and Subscriber and provide a valid Assigned Number and Join Date."]
        | _, _ =>
            show Warning [Txt "Please select a Group and Subscriber and provide a valid Assigned Number and Join Date."]
        end
      else ret tt
  end.

(** The button "Generate Installments" of the page "Manage Installments",
    from the option list that [get_group_names_and_ids] gave.  The start
    date of a stored group is a date, which is true in Python. *)
Definition generate_installments_button (group_options_generate : list (string * uuid))
  (selected_group_name_generate : string) (generate_button : bool) : M unit :=
  match group_options_generate with
  | [] => show Info [Txt "Add a group first to generate installments."]
  | _ =>
      if generate_button && negb (String.eqb selected_group_name_generate EmptyString) then
        match dict_get group_options_generate selected_group_name_generate with
        | Some selected_group_id_generate_bytes =>
            group_details <- get_group_details_by_id selected_group_id_generate_bytes ;;
            match group_details with
            | Some details =>
                if 0 <? g_duration details then
                  generate_installments_for_group server_error
                    selected_group_id_generate_bytes (g_startDate details)
                    (g_duration details) ;;
                  ret tt
                else
                  show Warning [Txt "Could not fetch required details (Start Date or Duration) for the selected group."]
            | None =>
                show Warning [Txt "Could not fetch required details (Start Date or Duration) for the selected group."]
            end
        | None => show Warning [Txt "Could not find the selected group ID."]
        end
      else ret tt
  end.

(** The part "View Installments by Group" of the same page, once the
    identifier of the selected group is known: the list of installments,
    then the form [record_auction_form], which offers the installments
    without an auction.  [auction_prize_amount >= 0] is [0 <=
    auction_prize_amount]; after an update that succeeded the page calls
    [st.rerun()]. *)
Definition view_installments (group_id_for_view_install_bytes : uuid)
  (selected_group_name_view_install selected_installment_name_auction : string)
  (auction_prize_amount : float) (selected_winner_name_auction : string)
  (record_auction_button : bool) : M unit :=
  installments <- get_installments_for_group group_id_for_view_install_bytes ;;
  match installments with
  | [] =>
      show Info [Txt "No installments found for '"; Txt selected_group_name_view_install;
                 Txt "'. Generate them above."]
  | _ =>
      let open_installments :=
        filter (fun inst => negb (i_isAuctionConducted inst)) installments in
      match open_installments with
      | [] =>
          show Info [Txt "All installments for this group have had their auction details recorded."]
      | _ =>
          let installment_options_auction :=
            map (fun inst => (month_label (i_monthNumber inst) (i_dueDate inst), i_id inst))
              open_installments in
          enrolled_subscribers_for_group <-
            get_enrollments_details_for_group group_id_for_view_install_bytes ;;
          match enrolled_subscribers_for_group with
          | [] =>
              show Info [Txt "No subscribers enrolled in this group yet to select a winner."]
          | _ =>
              let subscriber_options_auction :=
                map (fun sub => (subscriber_label (subscriberName sub) (assignedChitNumber sub),
                                 subscriberId sub))
                  enrolled_subscribers_for_group in
              if record_auction_button then
                match dict_get installment_options_auction selected_installment_name_auction,
                      dict_get subscriber_options_auction selected_winner_name_auction with
                | Some selected_installment_id_auction, Some selected_winner_id_auction =>
                    if Py.le (PyInt 0) (PyFloat auction_prize_amount) then
                      recorded <-
                        update_installment_auction selected_installment_id_auction
                          auction_prize_amount selected_winner_id_auction ;;
                      if recorded then rerun else ret tt
                    else
                      show Warning [Txt "Please select an Installment, Winner, and provide a valid Prize Amount."]
                | _, _ =>
                    show Warning [Txt "Please select an Installment, Winner, and provide a valid Prize Amount."]
                end
              else ret tt
          end
      end
  end.

(** The page "Record Payments" from its select boxes down to the form
    [record_payment_form], from the option list that
    [get_group_names_and_ids] gave.  The [else] branches are those of the
    source: the one of [if installments_for_payment:] warns about the group,
    the one of [if selected_installment_id_payment_uuid:] tells that there
    are no installments, and [if group_id_for_payment_bytes:] has none.  The
    identifiers in the option lists are the [uuid.UUID] objects of the
    listings, and [.bytes] gives their sixteen bytes back.  The list of the
    payments of the installment, shown below the form, is not part of
    this. *)
Definition record_payments_page (group_options_payment : list (string * uuid))
  (selected_group_name_payment selected_installment_name_payment
   selected_subscriber_name_payment : string)
  (amount_paid : float) (notes : string) (record_button : bool) : M unit :=
  match group_options_payment with
  | [] => show Info [Txt "Add a group first to record payments."]
  | _ =>
      match dict_get group_options_payment selected_group_name_payment with
      | Some group_id_for_payment_bytes =>
          installments_for_payment <- get_installments_for_group group_id_for_payment_bytes ;;
          match installments_for_payment with
          | [] => show Warning [Txt "Could not find the selected group ID."]
          | _ =>
              let installment_options_payment :=
                map (fun inst => (month_label (i_monthNumber inst) (i_dueDate inst), i_id inst))
                  installments_for_payment in
              match dict_get installment_options_payment selected_installment_name_payment with
              | Some selected_installment_id_payment_uuid =>
                  enrolled_subscribers_for_group <-
                    get_enrollments_details_for_group group_id_for_payment_bytes ;;
                  match enrolled_subscribers_for_group with
                  | [] => show Info [Txt "No subscribers enrolled in this group yet."]
                  | _ =>
                      let subscriber_options_payment :=
                        map (fun sub =>
                               (subscriber_label (subscriberName sub) (assignedChitNumber sub),
                                subscriberId sub))
                          enrolled_subscribers_for_group in
                      match dict_get subscriber_options_payment
                              selected_subscriber_name_payment with
                      | Some selected_subscriber_id_payment_uuid =>
                          record_payment_form server_error
                            selected_installment_id_payment_uuid
                            selected_subscriber_id_payment_uuid
                            amount_paid notes record_button
                      | None => show Warning [Txt "Could not find the selected subscriber ID."]
                      end
                  end
              | None =>
                  show Info [Txt "No installments found for '"; Txt selected_group_name_payment;
                             Txt "'. Generate them in 'Manage Installments'."]
              end
          end
      | None => ret tt
      end
  end.

(** The page "View Dues & Status", from the option list that
    [get_group_names_and_ids] gave; the value is the status list that the
    page puts in its table, empty when it shows none.  A month number is
    never [None], so [is not None] holds for every value of the
    dictionary. *)
Definition view_dues_page (group_options_dues : list (string * uuid))
  (selected_group_name_dues selected_installment_name_dues : string)
  (view_dues_button : bool) : M (list status_entry) :=
  match group_options_dues with
  | [] => show Info [Txt "Add a group first to check dues."] ;; ret []
  | _ =>
      match dict_get group_options_dues selected_group_name_dues with
      | Some group_id_for_dues_bytes =>
          installments_for_dues <- get_installments_for_group group_id_for_dues_bytes ;;
          match installments_for_dues with
          | [] =>
              show Info [Txt "No installments found for '"; Txt selected_group_name_dues;
                         Txt "'. Generate them in 'Manage Installments'."] ;;
              ret []
          | _ =>
              let installment_options_dues :=
                map (fun inst => (month_label (i_monthNumber inst) (i_dueDate inst),
                                  i_monthNumber inst))
                  installments_for_dues in
              if view_dues_button
                 && negb (String.eqb selected_installment_name_dues EmptyString) then
                match dict_get installment_options_dues selected_installment_name_dues with
                | Some selected_installment_month_dues =>
                    status_list <-
                      get_payment_status_for_installment server_error
                        group_id_for_dues_bytes selected_installment_month_dues ;;
                    match status_list with
                    | [] =>
                        show Info [Txt "No payment status found for Month ";
                                   Int selected_installment_month_dues; Txt "."] ;;
                        ret []
                    | _ => ret status_list
                    end
                | None =>
                    show Warning [Txt "Could not retrieve the selected installment month."] ;;
                    ret []
                end
              else ret []
          end
      | None =>
          show Warning [Txt "Could not find the selected group ID."] ;;
          ret []
      end
  end.

End Server.

End Pages.

(* ===================================================================== *)
(** * Notions used in the further statements *)
(* ===================================================================== *)

(** [a < b] on two dates, as Python compares them: by year, then month,
    then day. *)
Definition date_ltb (a b : date) : bool :=
  (year a <? year b)
  || ((year a =? year b)
      && ((month a <? month b) || ((month a =? month b) && (day a <? day b)))).

(** The months since year 0 of a date. *)
Definition month_index (d : date) : Z := 12 * year d + month d.

(** The date [n] months from [d]: the month reached, with the day of [d]
    or the last day of that month when it is shorter. *)
Definition months_later (d : date) (n : Z) : date :=
  mkdate (target_year d n) (target_month d n)
    (Z.min (day d) (days_in_month (target_year d n) (target_month d n))).

(** The due date of the installment of month [m] for the start date [s]. *)
Definition due_date_of (s : date) (m : Z) : date := months_later s (m - 1).

(** The rows that the loop of [generate_installments_for_group] makes for
    the months [months], when the identifiers are drawn from [src] starting
    at draw [calls]. *)
Fixpoint schedule_rows (g : uuid) (s : date) (src : nat -> uuid) (calls : nat)
  (months : list Z) : list installment_row :=
  match months with
  | [] => []
  | m :: later =>
      mkinstallment (src calls) g m (due_date_of s m) false None None false
        :: schedule_rows g s src (S calls) later
  end.

(** A list of numbers in ascending order. *)
Fixpoint ascending (l : list Z) : Prop :=
  match l with
  | [] => True
  | x :: rest => (forall y, In y rest -> x <= y) /\ ascending rest
  end.

(** The enrollments of a group with the subscriber each one names. *)
Definition enrolled_pairs (d : database) (g : uuid)
  : list (enrollment_row * subscriber_row) :=
  flat_map (fun e =>
    map (pair e) (filter (fun s => (e_subscriberId e =? s_id s)%N) (Subscribers d)))
    (filter (fun e => (e_groupId e =? g)%N) (Enrollments d)).

(** The status entry of an enrolled subscriber for the installment [inst]. *)
Definition entry_of (d : database) (inst : uuid) (p : enrollment_row * subscriber_row)
  : status_entry :=
  let total := total_paid_for d inst (e_subscriberId (fst p)) in
  mkstatus (s_name (snd p)) (e_assignedChitNumber (fst p))
    (if Py.gt total (PyInt 0) then "Paid"%string else "Due"%string) total.

(** The tables with another table of installments. *)
Definition with_installments (rows : list installment_row) (d : database) : database :=
  mkdb (ChitGroups d) (Subscribers d) (Enrollments d) rows (InstallmentPayments d).

(** The world after a message. *)
Definition shown (l : level) (text : list piece) (w : world) : world :=
  set_screen (screen w ++ [(l, text)]) w.

(** At most one installment for a month of a group: what the status page
    relies on when it reads one row. *)
Definition one_installment_per_month (d : database) : Prop :=
  forall g m, (List.length (select_installment_id d g m) <= 1)%nat.

(** What the database functions of [foremen3.py] can do to the world, one
    call at a time, with any arguments. *)
Inductive ledger_step (server_error : database -> statement -> option Z)
  (query_error : database -> Pages.query -> option Z)
  (rowcount : database -> Pages.query -> Z) : world -> world -> Prop :=
| call_insert_group (w : world) (name : string) (value : float) (subs dur : Z)
    (start : date) (commission : option float) :
    ledger_step server_error query_error rowcount w
      (snd (insert_group server_error name value subs dur start commission w))
| call_insert_subscriber (w : world) (name phone address : string) :
    ledger_step server_error query_error rowcount w
      (snd (insert_subscriber server_error name phone address w))
| call_insert_enrollment (w : world) (sub g : uuid) (n : Z) (join : date) :
    ledger_step server_error query_error rowcount w
      (snd (insert_enrollment server_error sub g n join w))
| call_generate (w : world) (g : uuid) (s : date) (D : Z) :
    ledger_step server_error query_error rowcount w
      (snd (generate_installments_for_group server_error g s D w))
| call_update_auction (w : world) (id : uuid) (prize : float) (winner : uuid) :
    ledger_step server_error query_error rowcount w
      (snd (Pages.update_installment_auction query_error rowcount id prize winner w))
| call_insert_payment (w : world) (inst sub : uuid) (amount : float) (notes : string) :
    ledger_step server_error query_error rowcount w
      (snd (insert_payment server_error inst sub amount notes w))
| call_payment_status (w : world) (g : uuid) (m : Z) :
    ledger_step server_error query_error rowcount w
      (snd (get_payment_status_for_installment server_error g m w)).

(** Any number of calls, one after the other. *)
Inductive ledger_run (server_error : database -> statement -> option Z)
  (query_error : database -> Pages.query -> option Z)
  (rowcount : database -> Pages.query -> Z) : world -> world -> Prop :=
| run_done (w : world) : ledger_run server_error query_error rowcount w w
| run_call (w w1 w2 : world) :
    ledger_run server_error query_error rowcount w w1 ->
    ledger_step server_error query_error rowcount w1 w2 ->
    ledger_run server_error query_error rowcount w w2.

(** More sample worlds. *)
Module MoreSamples.

Definition willing_queries : database -> Pages.query -> option Z := fun _ _ => None.

(** A server that refuses every statement with the error number [errno]. *)
Definition refusing_server (errno : Z) : database -> statement -> option Z :=
  fun _ _ => Some errno.

(** The count of the rows that the UPDATE matches. *)
Definition matched_rows (d : database) (q : Pages.query) : Z :=
  match q with
  | Pages.UpdateInstallmentAuction _ _ id =>
      Z.of_nat (List.length (filter (fun i => (i_id i =? id)%N) (Installments d)))
  | _ => 0
  end.

(** A collation that keeps the order of the table. *)
Definition table_order : string -> string -> bool := fun _ _ => true.

Definition plain_month_label (m : Z) (d : date) : string :=
  match m with
  | 1 => "Month 1"
  | 2 => "Month 2"
  | 3 => "Month 3"
  | _ => "Month"
  end.

Definition plain_subscriber_label (name : string) (n : Z) : string := name.

Definition offline_world : world := mkworld false underpaid_db noon counting_uuids 0 [] None.

(** The same without a server to connect to: [connect] raises the error
    2003. *)
Definition unreachable_world : world :=
  mkworld false underpaid_db noon counting_uuids 0 [] (Some 2003).

(** [underpaid_world] with the installments of months 2 and 3, month 2
    with its auction recorded. *)
Definition auction_db : database :=
  with_installments
    [mkinstallment 30 1 1 (mkdate 2025 1 31) false None None false;
     mkinstallment 31 1 2 (mkdate 2025 2 28) true (Some 90000%float) (Some 10%N) false;
     mkinstallment 32 1 3 (mkdate 2025 3 31) false None None false]
    underpaid_db.

Definition auction_world : world := mkworld true auction_db noon counting_uuids 0 [] None.

End MoreSamples.

Import MoreSamples.

(* ===================================================================== *)
(** * Month arithmetic *)
(* ===================================================================== *)

Section MonthArithmetic.

Lemma days_in_month_bounds (y m : Z) :
  1 <= m <= 12 -> 28 <= days_in_month y m <= 31.
Proof.
  intros Hm. unfold days_in_month.
  assert (Hcases : m = 1 \/ m = 2 \/ m = 3 \/ m = 4 \/ m = 5 \/ m = 6 \/
                   m = 7 \/ m = 8 \/ m = 9 \/ m = 10 \/ m = 11 \/ m = 12) by lia.
  repeat (destruct Hcases as [-> | Hcases]); try subst m; simpl;
    try lia; destruct (isleap y); simpl; lia.
Qed.

Lemma valid_date_fields (d : date) :
  valid_date d = true ->
  MINYEAR <= year d <= MAXYEAR /\ 1 <= month d <= 12 /\
  1 <= day d <= days_in_month (year d) (month d).
Proof.
  unfold valid_date, date_fields_ok. intros H.
  repeat (apply andb_prop in H; destruct H as [H ?]).
  repeat match goal with
         | E : (_ <=? _) = true |- _ => apply Z.leb_le in E
         end.
  lia.
Qed.

Lemma date_fields_ok_intro (y m d : Z) :
  MINYEAR <= y <= MAXYEAR -> 1 <= m <= 12 -> 1 <= d <= days_in_month y m ->
  date_fields_ok y m d = true.
Proof.
  intros Hy Hm Hd. unfold date_fields_ok.
  repeat (apply andb_true_intro; split); apply Z.leb_le; lia.
Qed.

Lemma target_month_range (d : date) (n : Z) : 1 <= target_month d n <= 12.
Proof.
  unfold target_month.
  pose proof (Z.mod_pos_bound (month d - 1 + n) 12 ltac:(lia)). lia.
Qed.

Lemma monthrange_days_target (y : Z) (d : date) (n : Z) :
  monthrange_days y (target_month d n) = Ok (days_in_month y (target_month d n)).
Proof.
  unfold monthrange_days, days_in_month.
  pose proof (target_month_range d n) as [H1 H2].
  apply Z.leb_le in H1. apply Z.leb_le in H2. rewrite H1, H2. reflexivity.
Qed.

Lemma add_months_unfold (d : date) (n : Z) :
  add_months d n =
  datetime_date (target_year d n) (target_month d n)
    (Z.min (day d) (days_in_month (target_year d n) (target_month d n))).
Proof.
  unfold add_months. fold (target_year d n). fold (target_month d n).
  rewrite monthrange_days_target. reflexivity.
Qed.

Lemma fits_c_int_intro (z : Z) : INT_MIN <= z <= INT_MAX -> fits_c_int z = true.
Proof.
  intros H. unfold fits_c_int. apply andb_true_intro. split; apply Z.leb_le; lia.
Qed.

(** The three outcomes of [add_months] from a date: the year reached is
    no C [int], or it is one outside the calendar, or the date exists. *)
Lemma add_months_cases (d : date) (n : Z) :
  valid_date d = true ->
  add_months d n =
  if fits_c_int (target_year d n) then
    if (MINYEAR <=? target_year d n) && (target_year d n <=? MAXYEAR)
    then Ok (mkdate (target_year d n) (target_month d n)
               (Z.min (day d) (days_in_month (target_year d n) (target_month d n))))
    else Raise ValueError
  else Raise OverflowError.
Proof.
  intros Hv. rewrite add_months_unfold. unfold datetime_date.
  destruct (valid_date_fields d Hv) as (Hyear & Hmonth & Hday).
  pose proof (days_in_month_bounds (year d) _ Hmonth) as Hb0.
  pose proof (target_month_range d n) as Hm.
  pose proof (days_in_month_bounds (target_year d n) _ Hm) as Hb.
  remember (days_in_month (target_year d n) (target_month d n)) as last eqn:Hlast.
  rewrite (fits_c_int_intro (target_month d n)) by (unfold INT_MIN, INT_MAX; lia).
  rewrite (fits_c_int_intro (Z.min (day d) last)) by (unfold INT_MIN, INT_MAX; lia).
  rewrite !andb_true_r.
  destruct (fits_c_int (target_year d n)); [| reflexivity].
  unfold date_fields_ok. rewrite <- Hlast.
  replace (1 <=? target_month d n) with true by (symmetry; apply Z.leb_le; lia).
  replace (target_month d n <=? 12) with true by (symmetry; apply Z.leb_le; lia).
  replace (1 <=? Z.min (day d) last) with true by (symmetry; apply Z.leb_le; lia).
  replace (Z.min (day d) last <=? last) with true by (symmetry; apply Z.leb_le; lia).
  rewrite !andb_true_r. reflexivity.
Qed.

Lemma add_months_in_range (d : date) (n : Z) :
  valid_date d = true -> 0 <= n -> target_year d n <= MAXYEAR ->
  add_months d n =
  Ok (mkdate (target_year d n) (target_month d n)
        (Z.min (day d) (days_in_month (target_year d n) (target_month d n)))).
Proof.
  intros Hv Hn Hy. rewrite (add_months_cases d n Hv).
  destruct (valid_date_fields d Hv) as (Hyear & Hmonth & Hday).
  assert (Hlow : MINYEAR <= target_year d n).
  { unfold target_year. pose proof (Z.div_pos (month d - 1 + n) 12). lia. }
  rewrite fits_c_int_intro by (unfold INT_MIN, INT_MAX, MINYEAR, MAXYEAR in *; lia).
  replace (MINYEAR <=? target_year d n) with true by (symmetry; apply Z.leb_le; lia).
  replace (target_year d n <=? MAXYEAR) with true by (symmetry; apply Z.leb_le; lia).
  reflexivity.
Qed.

(** Past year 9999 the constructor raises [ValueError], as long as the
    year is a C [int]. *)
Lemma add_months_out_of_range (d : date) (n : Z) :
  valid_date d = true ->
  MAXYEAR < target_year d n <= INT_MAX -> add_months d n = Raise ValueError.
Proof.
  intros Hv Hy. rewrite (add_months_cases d n Hv).
  rewrite fits_c_int_intro by (unfold INT_MIN, INT_MAX, MAXYEAR in *; lia).
  replace (target_year d n <=? MAXYEAR) with false by (symmetry; apply Z.leb_gt; lia).
  rewrite andb_false_r. reflexivity.
Qed.

(** Past the largest C [int] it raises [OverflowError]. *)
Lemma add_months_overflow (d : date) (n : Z) :
  valid_date d = true ->
  target_year d n < INT_MIN \/ INT_MAX < target_year d n ->
  add_months d n = Raise OverflowError.
Proof.
  intros Hv Hy. rewrite (add_months_cases d n Hv).
  replace (fits_c_int (target_year d n)) with false; [reflexivity |].
  symmetry. unfold fits_c_int. apply andb_false_iff.
  destruct Hy as [Hy | Hy]; [left | right]; apply Z.leb_gt; lia.
Qed.

Lemma add_months_zero (d : date) : valid_date d = true -> add_months d 0 = Ok d.
Proof.
  intros Hv. destruct (valid_date_fields d Hv) as (Hyear & Hmonth & Hday).
  assert (Hy : target_year d 0 = year d).
  { unfold target_year. rewrite Z.add_0_r, Z.div_small by lia. lia. }
  assert (Hm : target_month d 0 = month d).
  { unfold target_month. rewrite Z.add_0_r, Z.mod_small by lia. lia. }
  rewrite add_months_in_range by (rewrite ?Hy; lia || assumption).
  rewrite Hy, Hm, Z.min_l by lia. destruct d; reflexivity.
Qed.

Lemma target_year_mono (d : date) (a b : Z) :
  a <= b -> target_year d a <= target_year d b.
Proof.
  intros H. unfold target_year.
  pose proof (Z.div_le_mono (month d - 1 + a) (month d - 1 + b) 12). lia.
Qed.

End MonthArithmetic.

(** C2, as the code has it.  For a date [d] and [n >= 0], [add_months d n]
    adds [n] to the month with year carry and clamps the day to the last
    day of the month reached, as long as the year reached is at most
    [MAXYEAR] = 9999; beyond it the call raises: [ValueError] while the
    year reached is a C [int] (at most 2147483647), [OverflowError] above.
    January 31 plus one month is February 28, or 29 in a leap year, of the
    same year (the month is 2, never 3); plus thirteen months it is
    February 28 or 29 of the next year, when that year is at most 9999. *)
Theorem add_months_clamps (d : date) (n : Z) :
  valid_date d = true -> 0 <= n ->
  (target_year d n <= MAXYEAR ->
   add_months d n =
   Ok (mkdate (target_year d n) (target_month d n)
         (Z.min (day d) (days_in_month (target_year d n) (target_month d n))))) /\
  (MAXYEAR < target_year d n <= INT_MAX -> add_months d n = Raise ValueError) /\
  (INT_MAX < target_year d n -> add_months d n = Raise OverflowError) /\
  (month d = 1 -> day d = 31 -> n = 1 ->
   add_months d n = Ok (mkdate (year d) 2 (if isleap (year d) then 29 else 28))) /\
  (month d = 1 -> day d = 31 -> n = 13 -> year d < MAXYEAR ->
   add_months d n =
   Ok (mkdate (year d + 1) 2 (if isleap (year d + 1) then 29 else 28))).
Proof.
  intros Hv Hn.
  destruct (valid_date_fields d Hv) as (Hyear & Hmonth & Hday).
  split; [| split; [| split; [| split]]].
  - intros Hy. now apply add_months_in_range.
  - now apply add_months_out_of_range.
  - intros Hy. apply add_months_overflow; [exact Hv | now right].
  - intros Hm Hd ->.
    assert (Hy : target_year d 1 = year d)
      by (unfold target_year; rewrite Hm; change ((1 - 1 + 1) / 12) with 0; lia).
    assert (Ht : target_month d 1 = 2)
      by (unfold target_month; rewrite Hm; reflexivity).
    rewrite add_months_in_range by (rewrite ?Hy; lia || assumption).
    rewrite Hy, Ht, Hd. unfold days_in_month. simpl.
    destruct (isleap (year d)); reflexivity.
  - intros Hm Hd -> Hlt.
    assert (Hy : target_year d 13 = year d + 1)
      by (unfold target_year; rewrite Hm; change ((1 - 1 + 13) / 12) with 1; lia).
    assert (Ht : target_month d 13 = 2)
      by (unfold target_month; rewrite Hm; reflexivity).
    rewrite add_months_in_range by (rewrite ?Hy; lia || assumption).
    rewrite Hy, Ht, Hd. unfold days_in_month. simpl.
    destruct (isleap (year d + 1)); reflexivity.
Qed.

(** A run of C2's statement: January 31 of 2023 and of 2024, advanced by
    one and by thirteen months; and the two exceptions past year 9999. *)
Lemma add_months_clamps_witness :
  add_months (mkdate 2023 1 31) 1 = Ok (mkdate 2023 2 28) /\
  add_months (mkdate 2024 1 31) 1 = Ok (mkdate 2024 2 29) /\
  add_months (mkdate 2023 1 31) 13 = Ok (mkdate 2024 2 29) /\
  add_months (mkdate 2024 1 31) 13 = Ok (mkdate 2025 2 28) /\
  add_months (mkdate 2023 8 31) 3 = Ok (mkdate 2023 11 30) /\
  add_months (mkdate 9999 12 31) 1 = Raise ValueError /\
  add_months (mkdate 2025 1 1) (12 * 2 ^ 31) = Raise OverflowError.
Proof.
  pose proof (add_months_clamps (mkdate 2023 1 31) 1 eq_refl ltac:(lia)) as (_ & _ & _ & A & _).
  pose proof (add_months_clamps (mkdate 2024 1 31) 1 eq_refl ltac:(lia)) as (_ & _ & _ & B & _).
  pose proof (add_months_clamps (mkdate 2023 1 31) 13 eq_refl ltac:(lia)) as (_ & _ & _ & _ & C).
  pose proof (add_months_clamps (mkdate 2024 1 31) 13 eq_refl ltac:(lia)) as (_ & _ & _ & _ & D).
  pose proof (add_months_clamps (mkdate 2023 8 31) 3 eq_refl ltac:(lia)) as (E & _).
  pose proof (add_months_clamps (mkdate 9999 12 31) 1 eq_refl ltac:(lia)) as (_ & F & _).
  pose proof (add_months_clamps (mkdate 2025 1 1) (12 * 2 ^ 31) eq_refl ltac:(lia))
    as (_ & _ & G & _).
  exact (conj (A eq_refl eq_refl eq_refl)
          (conj (B eq_refl eq_refl eq_refl)
             (conj (C eq_refl eq_refl eq_refl ltac:(unfold MAXYEAR; simpl; lia))
                (conj (D eq_refl eq_refl eq_refl ltac:(unfold MAXYEAR; simpl; lia))
                   (conj (E ltac:(vm_compute; discriminate))
                      (conj (F ltac:(vm_compute; split; [reflexivity | discriminate]))
                         (G ltac:(vm_compute; reflexivity)))))))).
Defined.

(** C2 as it is stated fails at the end of the calendar: December 31 of
    9999 is a date, and advancing it by one month, or January 31 of 9999 by
    thirteen, raises [ValueError] instead of giving a date. *)
Lemma add_months_past_maxyear :
  valid_date (mkdate 9999 12 31) = true /\
  add_months (mkdate 9999 12 31) 1 = Raise ValueError /\
  valid_date (mkdate 9999 1 31) = true /\
  add_months (mkdate 9999 1 31) 13 = Raise ValueError.
Proof. repeat split; vm_compute; reflexivity. Qed.

(* ===================================================================== *)
(** * The two formulas of DHARMAREDDY.py *)
(* ===================================================================== *)

Section Formulas.

Lemma float_of_int_100 : float_of_int 100 = Ok 100%float.
Proof. vm_compute. reflexivity. Qed.

Lemma gt_int (a b : Z) : Py.gt (PyInt a) (PyInt b) = (b <? a).
Proof. reflexivity. Qed.

(** A percentage that is a float, divided by the int 100. *)
Lemma percent_rate (p : float) :
  Py.truediv (PyFloat p) (PyInt 100) = Ok (PyFloat (p / 100)).
Proof.
  unfold Py.truediv. simpl is_zero. cbv iota. unfold as_float.
  rewrite float_of_int_100. reflexivity.
Qed.

(** The only exceptions of the number operators: a conversion or a
    quotient too large for a float. *)
Lemma float_of_int_raises (z : Z) (e : exn) :
  float_of_int z = Raise e -> e = OverflowError.
Proof.
  unfold float_of_int.
  destruct (binary_normalize prec emax z 0 false); intros H; congruence.
Qed.

Lemma int_truediv_raises (a b : Z) (e : exn) :
  int_truediv a b = Raise e -> e = OverflowError.
Proof.
  unfold int_truediv.
  destruct (SFdiv_core_binary prec emax (Z.abs a) 0 (Z.abs b) 0) as [[q x] l].
  destruct (binary_round_aux prec emax (xorb (a <? 0) (b <? 0)) q x l);
    intros H; congruence.
Qed.

Lemma truediv_nonzero_raises (x y : num) (e : exn) :
  is_zero y = false -> Py.truediv x y = Raise e -> e = OverflowError.
Proof.
  intros Hy. unfold Py.truediv. rewrite Hy.
  destruct x as [a | f], y as [b | g]; simpl.
  - destruct (int_truediv a b) eqn:E; simpl; [discriminate |].
    intros H. injection H as <-. now apply int_truediv_raises in E.
  - destruct (float_of_int a) eqn:E; simpl; [discriminate |].
    intros H. injection H as <-. now apply float_of_int_raises in E.
  - destruct (float_of_int b) eqn:E; simpl; [discriminate |].
    intros H. injection H as <-. now apply float_of_int_raises in E.
  - discriminate.
Qed.



Lemma rbind_raises {A B : Type} (r : result A) (k : A -> result B) (e : exn) :
  rbind r k = Raise e -> r = Raise e \/ exists a, r = Ok a /\ k a = Raise e.
Proof. destruct r as [a | e']; simpl; intros H; [right; eauto | left; congruence]. Qed.

Lemma as_float_raises (x : num) (e : exn) : as_float x = Raise e -> e = OverflowError.
Proof. destruct x; simpl; [apply float_of_int_raises | discriminate]. Qed.

Lemma float_pair_raises (x y : num) (op : float -> float -> float) (e : exn) :
  (let* a := as_float x in let* b := as_float y in Ok (PyFloat (op a b))) = Raise e ->
  e = OverflowError.
Proof.
  intros H. apply rbind_raises in H as [H | (a & _ & H)]; [now apply as_float_raises in H |].
  apply rbind_raises in H as [H | (b & _ & H)]; [now apply as_float_raises in H | discriminate].
Qed.

Lemma mul_raises (x y : num) (e : exn) : Py.mul x y = Raise e -> e = OverflowError.
Proof.
  destruct x as [a | f], y as [b | g]; unfold Py.mul;
    [discriminate | apply float_pair_raises ..].
Qed.

Lemma sub_raises (x y : num) (e : exn) : Py.sub x y = Raise e -> e = OverflowError.
Proof.
  destruct x as [a | f], y as [b | g]; unfold Py.sub;
    [discriminate | apply float_pair_raises ..].
Qed.

Lemma calculate_dividend_raises (x d c : num) (n : Z) (e : exn) :
  calculate_dividend x d c (PyInt n) = Raise e -> e = OverflowError.
Proof.
  unfold calculate_dividend. intros H.
  apply rbind_raises in H as [H | (rate & _ & H)];
    [now apply truediv_nonzero_raises in H |].
  apply rbind_raises in H as [H | (discount & _ & H)]; [now apply mul_raises in H |].
  apply rbind_raises in H as [H | (crate & _ & H)];
    [now apply truediv_nonzero_raises in H |].
  apply rbind_raises in H as [H | (commission & _ & H)]; [now apply mul_raises in H |].
  rewrite gt_int in H. destruct (1 <? n) eqn:Hn; [| discriminate].
  apply Z.ltb_lt in Hn.
  apply rbind_raises in H as [H | (net & _ & H)]; [now apply sub_raises in H |].
  apply rbind_raises in H as [H | (others & Hothers & H)]; [now apply sub_raises in H |].
  simpl in Hothers. injection Hothers as <-.
  apply truediv_nonzero_raises in H; [exact H |].
  simpl. apply Z.eqb_neq. lia.
Qed.

(** The two products come first, then the test of the member count. *)
Lemma calculate_dividend_unfold (x d c n : num) :
  calculate_dividend x d c n =
  let* discount_amount := percent_of x d in
  let* foreman_commission := percent_of x c in
  if Py.gt n (PyInt 1)
  then
    let* net := Py.sub discount_amount foreman_commission in
    let* others := Py.sub n (PyInt 1) in
    Py.truediv net others
  else Ok (PyInt 0).
Proof.
  unfold calculate_dividend, percent_of.
  destruct (Py.truediv d (PyInt 100)) as [dr | e]; [| reflexivity]. simpl.
  destruct (Py.mul x dr) as [da | e]; [| reflexivity]. simpl.
  destruct (Py.truediv c (PyInt 100)) as [cr | e]; reflexivity.
Qed.

End Formulas.

(** C3, as the code has it.  For float arguments [x], [d], [c] and an
    int [n]: [calculate_dividend] returns the int [0] when [n <= 1], and
    [(x * (d / 100) - x * (c / 100)) / (n - 1)] when [n > 1] and [n - 1] is
    small enough for a float; when it is not, the division raises
    [OverflowError].  For any numbers: the two products [x * (d / 100)] and
    [x * (c / 100)] are computed first, and when they can be computed the
    result is [0] for [n <= 1] and their difference divided by [n - 1] for
    [n > 1]; when one of them raises, the call raises the same, whatever
    [n] is.  The only exception is [OverflowError].  The call of the spec,
    [calculate_dividend(100000, 5, 2, 20)], is [(5000 - 2000) / 19], the
    float 157.89473684210526.  A commission above the discount gives the
    negative quotient as it is. *)
Theorem calculate_dividend_formula (x d c : float) (n : Z) :
  (n <= 1 ->
   calculate_dividend (PyFloat x) (PyFloat d) (PyFloat c) (PyInt n) = Ok (PyInt 0)) /\
  (forall m : float,
     1 < n -> float_of_int (n - 1) = Ok m ->
     calculate_dividend (PyFloat x) (PyFloat d) (PyFloat c) (PyInt n) =
       Ok (PyFloat ((x * (d / 100) - x * (c / 100)) / m))) /\
  (1 < n -> float_of_int (n - 1) = Raise OverflowError ->
   calculate_dividend (PyFloat x) (PyFloat d) (PyFloat c) (PyInt n) = Raise OverflowError) /\
  (forall X D C discount_amount foreman_commission : num,
     percent_of X D = Ok discount_amount ->
     percent_of X C = Ok foreman_commission ->
     calculate_dividend X D C (PyInt n) =
       if 1 <? n
       then (let* net := Py.sub discount_amount foreman_commission in
             Py.truediv net (PyInt (n - 1)))
       else Ok (PyInt 0)) /\
  (forall (X D C : num) (e : exn),
     percent_of X D = Raise e \/
     (exists discount_amount, percent_of X D = Ok discount_amount) /\
     percent_of X C = Raise e ->
     calculate_dividend X D C (PyInt n) = Raise e) /\
  (forall (X D C : num) (e : exn),
     calculate_dividend X D C (PyInt n) = Raise e -> e = OverflowError) /\
  calculate_dividend (PyInt 100000) (PyInt 5) (PyInt 2) (PyInt 20) =
    Py.truediv (PyInt (5000 - 2000)) (PyInt 19) /\
  calculate_dividend (PyInt 100000) (PyInt 5) (PyInt 2) (PyInt 20) =
    Ok (PyFloat 157.89473684210526) /\
  calculate_dividend (PyFloat 100000) (PyFloat 2) (PyFloat 5) (PyInt 20) =
    Ok (PyFloat (-157.89473684210526)).
Proof.
  assert (Hrun : forall m : Z,
             calculate_dividend (PyFloat x) (PyFloat d) (PyFloat c) (PyInt m) =
             if 1 <? m
             then Py.truediv (PyFloat (x * (d / 100) - x * (c / 100))) (PyInt (m - 1))
             else Ok (PyInt 0)).
  { intros m. unfold calculate_dividend. rewrite !percent_rate. simpl.
    destruct (1 <? m); reflexivity. }
  assert (Hdiv : forall (net : float) (r : result float),
             1 < n -> float_of_int (n - 1) = r ->
             Py.truediv (PyFloat net) (PyInt (n - 1)) =
             (let* m := r in Ok (PyFloat (net / m)))).
  { intros net r Hn <-. unfold Py.truediv.
    replace (is_zero (PyInt (n - 1))) with false
      by (symmetry; simpl; apply Z.eqb_neq; lia).
    reflexivity. }
  split; [| split; [| split; [| split; [| split; [| split; [| split; [| split]]]]]]].
  - intros Hn. rewrite Hrun. apply Z.ltb_ge in Hn. now rewrite Hn.
  - intros m Hn Hm. rewrite Hrun. rewrite (Hdiv _ _ Hn Hm).
    apply Z.ltb_lt in Hn. now rewrite Hn.
  - intros Hn Hm. rewrite Hrun. rewrite (Hdiv _ _ Hn Hm).
    apply Z.ltb_lt in Hn. now rewrite Hn.
  - intros X D C da fc Hda Hfc. rewrite calculate_dividend_unfold, Hda, Hfc. simpl.
    destruct (1 <? n); [| reflexivity].
    destruct (Py.sub da fc); reflexivity.
  - intros X D C e [Hda | [[da Hda] Hfc]]; rewrite calculate_dividend_unfold.
    + now rewrite Hda.
    + now rewrite Hda, Hfc.
  - intros X D C e. apply calculate_dividend_raises.
  - vm_compute. reflexivity.
  - vm_compute. reflexivity.
  - vm_compute. reflexivity.
Qed.

(** A run of C3 with twenty and with one member. *)
Lemma calculate_dividend_formula_witness :
  calculate_dividend (PyFloat 100000) (PyFloat 5) (PyFloat 2) (PyInt 20) =
    Ok (PyFloat 157.89473684210526) /\
  calculate_dividend (PyFloat 100000) (PyFloat 5) (PyFloat 2) (PyInt 1) = Ok (PyInt 0).
Proof.
  destruct (calculate_dividend_formula 100000 5 2 20) as (_ & A & _).
  destruct (calculate_dividend_formula 100000 5 2 1) as (B & _).
  split.
  - rewrite (A 19%float ltac:(lia) ltac:(vm_compute; reflexivity)). vm_compute. reflexivity.
  - exact (B ltac:(lia)).
Defined.

(** C3 as it is stated fails where a float cannot hold an int.  With
    the int 10^400 as chit value the product [x * (d / 100)] raises
    [OverflowError], and as it is computed before the member count is
    tested, the call with one member raises instead of returning 0.  With
    2^1024 + 1 members the division by [n - 1] raises the same instead of
    returning the quotient. *)
Lemma calculate_dividend_one_member_overflow :
  calculate_dividend (PyInt (10 ^ 400)) (PyFloat 5) (PyFloat 2) (PyInt 1)
    = Raise OverflowError /\
  calculate_dividend (PyFloat 100000) (PyFloat 5) (PyFloat 2) (PyInt (2 ^ 1024 + 1))
    = Raise OverflowError.
Proof. split; vm_compute; reflexivity. Qed.

(** C10, as the code has it.  For every chit value and every int duration:
    a duration of zero or less gives the int [0]; a positive duration gives
    the true division; no duration raises [ZeroDivisionError]; and the only
    exception the function can raise is [OverflowError], for an int operand
    or a quotient too large for a float. *)
Theorem calculate_installment_guard (chit_value : num) (d : Z) :
  (d <= 0 -> calculate_installment chit_value (PyInt d) = Ok (PyInt 0)) /\
  (0 < d -> calculate_installment chit_value (PyInt d) = Py.truediv chit_value (PyInt d)) /\
  calculate_installment chit_value (PyInt d) <> Raise ZeroDivisionError /\
  (forall e, calculate_installment chit_value (PyInt d) = Raise e -> e = OverflowError).
Proof.
  unfold calculate_installment. rewrite gt_int.
  destruct (0 <? d) eqn:Hd.
  - apply Z.ltb_lt in Hd.
    assert (Hnz : is_zero (PyInt d) = false) by (simpl; apply Z.eqb_neq; lia).
    repeat split.
    + lia.
    + intros H. apply truediv_nonzero_raises in H; [discriminate | exact Hnz].
    + intros e. now apply truediv_nonzero_raises.
  - apply Z.ltb_ge in Hd. repeat split; try discriminate. lia.
Qed.

(** A run of C10: durations 0 and -3 give 0, and 100000 over 3 months is
    the float quotient. *)
Lemma calculate_installment_guard_witness :
  calculate_installment (PyInt 100000) (PyInt 0) = Ok (PyInt 0) /\
  calculate_installment (PyFloat 100000) (PyInt (-3)) = Ok (PyInt 0) /\
  calculate_installment (PyInt 100000) (PyInt 3) = Ok (PyFloat 33333.333333333336).
Proof.
  destruct (calculate_installment_guard (PyInt 100000) 0) as (A & _).
  destruct (calculate_installment_guard (PyFloat 100000) (-3)) as (B & _).
  destruct (calculate_installment_guard (PyInt 100000) 3) as (_ & C & _).
  split; [exact (A ltac:(lia)) | split; [exact (B ltac:(lia)) |]].
  rewrite (C ltac:(lia)). vm_compute. reflexivity.
Defined.

(** C10 as it is stated fails for a duration no float can hold: with the
    float 1000.0 and the int 2^1024 the division raises [OverflowError],
    so the function is not total over all integer durations. *)
Lemma calculate_installment_overflow :
  calculate_installment (PyFloat 1000) (PyInt (2 ^ 1024)) = Raise OverflowError.
Proof. vm_compute. reflexivity. Qed.

(* ===================================================================== *)
(** * Running handlers *)
(* ===================================================================== *)

Section Running.

Context {W : Type}.

Lemma bind_ok {A B : Type} (m : Handler.M W A) (k : A -> Handler.M W B) (w w' : W) (a : A) :
  m w = (Ok a, w') -> bind m k w = k a w'.
Proof. intros H. unfold bind. now rewrite H. Qed.

Lemma bind_raise {A B : Type} (m : Handler.M W A) (k : A -> Handler.M W B) (w w' : W) (e : exn) :
  m w = (Raise e, w') -> bind m k w = (Raise e, w').
Proof. intros H. unfold bind. now rewrite H. Qed.

Lemma try_ok {A : Type} (body : Handler.M W A) (h : exn -> Handler.M W A) (w w' : W) (a : A) :
  body w = (Ok a, w') -> try_except_Error body h w = (Ok a, w').
Proof. intros H. unfold try_except_Error. now rewrite H. Qed.

Lemma try_caught {A : Type} (body : Handler.M W A) (h : exn -> Handler.M W A) (w w' : W) (n : Z) :
  body w = (Raise (MySQLError n), w') ->
  try_except_Error body h w = h (MySQLError n) w'.
Proof. intros H. unfold try_except_Error. now rewrite H. Qed.

Lemma try_passes {A : Type} (body : Handler.M W A) (h : exn -> Handler.M W A) (w w' : W) (e : exn) :
  (forall n, e <> MySQLError n) ->
  body w = (Raise e, w') -> try_except_Error body h w = (Raise e, w').
Proof.
  intros Hne H. unfold try_except_Error. rewrite H.
  destruct e; try reflexivity. now destruct (Hne errno).
Qed.

End Running.

(* ===================================================================== *)
(** * The installment schedule *)
(* ===================================================================== *)

Section Schedule.

Variable server_error : database -> statement -> option Z.

Lemma py_range_length (lo hi : Z) :
  lo <= hi -> Z.of_nat (List.length (py_range lo hi)) = hi - lo.
Proof.
  intros H. unfold py_range. rewrite length_map, length_seq. lia.
Qed.

Lemma py_range_nth (lo hi : Z) (k : nat) :
  (Z.of_nat k < hi - lo) -> nth_error (py_range lo hi) k = Some (lo + Z.of_nat k).
Proof.
  intros H. unfold py_range.
  rewrite nth_error_map, nth_error_seq.
  destruct (Nat.ltb_spec k (Z.to_nat (hi - lo))); [reflexivity | lia].
Qed.

Lemma py_range_In (lo hi m : Z) : In m (py_range lo hi) -> lo <= m < hi.
Proof.
  unfold py_range. rewrite in_map_iff. intros (i & <- & Hi).
  apply in_seq in Hi. lia.
Qed.

Lemma installment_values_run (g : uuid) (s : date) (months : list Z) (w : world) :
  (forall m, In m months -> exists dd, add_months s (m - 1) = Ok dd) ->
  exists rows w',
    installment_values g s months w = (Ok rows, w') /\
    same_but_uuids w w' /\
    map i_monthNumber rows = months /\
    Forall (scheduled g s) rows.
Proof.
  revert w. induction months as [| m later IH]; intros w Hdates.
  - exists [], w. repeat split; constructor.
  - destruct (Hdates m (or_introl eq_refl)) as [dd Hdd].
    destruct (IH (set_uuid4_calls (S (uuid4_calls w)) w)) as (rows & w' & Hrun & Hsame & Hmap & Hall).
    { intros m' Hin. apply Hdates. now right. }
    eexists (_ :: rows), w'. split; [| split; [| split]].
    + simpl. erewrite bind_ok by reflexivity.
      erewrite bind_ok by (unfold lift; rewrite Hdd; reflexivity).
      erewrite bind_ok by exact Hrun. reflexivity.
    + destruct Hsame as (H1 & H2 & H3 & H4 & H5). repeat split; assumption.
    + simpl. now rewrite Hmap.
    + constructor; [| exact Hall]. repeat split; simpl; auto.
Qed.

(** The first date that [add_months] rejects stops the loop with the
    exception of that call, before anything is sent to the server. *)
Lemma installment_values_stops (g : uuid) (s : date) (months : list Z) (k : nat) (bad : Z)
  (e : exn) (w : world) :
  nth_error months k = Some bad ->
  add_months s (bad - 1) = Raise e ->
  (forall j m, (j < k)%nat -> nth_error months j = Some m ->
     exists dd, add_months s (m - 1) = Ok dd) ->
  exists w',
    installment_values g s months w = (Raise e, w') /\
    db w' = db w /\ connection w' = connection w /\ screen w' = screen w.
Proof.
  revert k w. induction months as [| m later IH]; intros k w Hk Hbad Hbefore.
  - destruct k; discriminate.
  - simpl. erewrite bind_ok by reflexivity.
    destruct k as [| k].
    + injection Hk as ->.
      erewrite bind_raise by (unfold lift; rewrite Hbad; reflexivity).
      eexists. repeat split.
    + destruct (Hbefore 0%nat m ltac:(lia) eq_refl) as [dd Hm].
      erewrite bind_ok by (unfold lift; rewrite Hm; reflexivity).
      destruct (IH k (set_uuid4_calls (S (uuid4_calls w)) w) Hk Hbad)
        as (w' & Hrun & Hdb & Hconn & Hscr).
      { intros j m' Hj Hm'. apply (Hbefore (S j) m'); [lia | exact Hm']. }
      erewrite bind_raise by exact Hrun. exists w'. repeat split; assumption.
Qed.

(** Month by month the year grows by one at most: a schedule that passes
    year 9999 meets year 10000 first. *)
Lemma first_month_past_maxyear (s : date) (D : Z) :
  valid_date s = true -> 1 <= D -> MAXYEAR < target_year s (D - 1) ->
  exists n, 0 <= n <= D - 1 /\ target_year s n = MAXYEAR + 1 /\
            (forall i, 0 <= i < n -> target_year s i <= MAXYEAR).
Proof.
  intros Hv HD Hpast.
  destruct (valid_date_fields s Hv) as (Hyear & Hmonth & _).
  unfold MINYEAR, MAXYEAR in *.
  exists (12 * (10000 - year s) - (month s - 1)).
  unfold target_year in *.
  replace (month s - 1 + (12 * (10000 - year s) - (month s - 1)))
    with ((10000 - year s) * 12) by lia.
  rewrite Z.div_mul by lia.
  pose proof (Z.mul_div_le (month s - 1 + (D - 1)) 12 ltac:(lia)) as Hle.
  remember ((month s - 1 + (D - 1)) / 12) as q eqn:Hq.
  split; [lia | split; [lia |]].
  intros i Hi.
  assert (Hlt : (month s - 1 + i) / 12 < 10000 - year s)
    by (apply Z.div_lt_upper_bound; lia).
  lia.
Qed.

(** The loop of a schedule that passes year 9999 stops with
    [ValueError], whatever the duration is. *)
Lemma installment_values_past_maxyear (g : uuid) (s : date) (D : Z) (w : world) :
  valid_date s = true -> 1 <= D -> MAXYEAR < target_year s (D - 1) ->
  exists w',
    installment_values g s (py_range 1 (D + 1)) w = (Raise ValueError, w') /\
    db w' = db w /\ connection w' = connection w /\ screen w' = screen w.
Proof.
  intros Hv HD Hpast.
  destruct (first_month_past_maxyear s D Hv HD Hpast) as (n & Hn & Hyear & Hbefore).
  apply (installment_values_stops g s _ (Z.to_nat n) (1 + n)).
  - rewrite py_range_nth by lia. f_equal. lia.
  - replace (1 + n - 1) with n by lia.
    apply add_months_out_of_range; [exact Hv |].
    rewrite Hyear. unfold MAXYEAR, INT_MAX. lia.
  - intros j m Hj Hm. rewrite py_range_nth in Hm by lia.
    assert (Em : m = 1 + Z.of_nat j) by congruence. subst m.
    replace (1 + Z.of_nat j - 1) with (Z.of_nat j) by lia.
    eexists. apply add_months_in_range; [exact Hv | lia | apply Hbefore; lia].
Qed.

End Schedule.

Section Generation.

Variable server_error : database -> statement -> option Z.

Lemma scheduled_filter (g : uuid) (s : date) (rows : list installment_row) :
  Forall (scheduled g s) rows ->
  filter (fun i => (i_groupId i =? g)%N) rows = rows.
Proof.
  induction 1 as [| r rows Hr _ IH]; [reflexivity |].
  simpl. destruct Hr as (-> & _). rewrite N.eqb_refl. now rewrite IH.
Qed.

Lemma count_zero_filter (d : database) (g : uuid) :
  count_installments d g = 0 ->
  filter (fun i => (i_groupId i =? g)%N) (Installments d) = [].
Proof.
  unfold count_installments. intros H.
  destruct (filter _ (Installments d)); [reflexivity | simpl in H; lia].
Qed.

(** C1, as the code has it.  In a world with a connection, for a group
    [g] without installments, a start date [s], a duration [D >= 1] whose
    last due month is not after year 9999, and a server that takes the two
    statements: the call returns [True] and appends exactly [D] rows for
    [g]; the row at position [k] (from 0) has month number [k + 1], is due
    [k] months after [s] by [add_months], and has both flags false; the
    first row is due on [s] itself.  The other tables are as before. *)
Theorem generate_installments_schedule (w : world) (g : uuid) (s : date) (D : Z) :
  connection w = true ->
  valid_date s = true ->
  1 <= D ->
  target_year s (D - 1) <= MAXYEAR ->
  count_installments (db w) g = 0 ->
  server_error (db w) (CountInstallments g) = None ->
  (forall rows, server_error (db w) (InsertInstallments rows) = None) ->
  exists rows w',
    generate_installments_for_group server_error g s D w = (Ok true, w') /\
    Installments (db w') = Installments (db w) ++ rows /\
    filter (fun i => (i_groupId i =? g)%N) (Installments (db w')) = rows /\
    Z.of_nat (List.length rows) = D /\
    (forall k r, nth_error rows k = Some r ->
       i_monthNumber r = Z.of_nat k + 1 /\
       add_months s (Z.of_nat k) = Ok (i_dueDate r) /\
       i_isAuctionConducted r = false /\ i_isCompleted r = false) /\
    (exists first, nth_error rows 0 = Some first /\ i_dueDate first = s) /\
    ChitGroups (db w') = ChitGroups (db w) /\
    Subscribers (db w') = Subscribers (db w) /\
    Enrollments (db w') = Enrollments (db w) /\
    InstallmentPayments (db w') = InstallmentPayments (db w).
Proof.
  intros Hconn Hvalid HD Hyear Hnone Hcount Hinsert.
  destruct w as [conn d t src calls scr cerr]. simpl in *. subst conn.
  destruct (installment_values_run g s (py_range 1 (D + 1))
              (mkworld true d t src calls scr cerr)) as (rows & w1 & Hrun & Hsame & Hmap & Hall).
  { intros m Hm. apply py_range_In in Hm. eexists.
    apply add_months_in_range; [assumption | lia |].
    etransitivity; [apply (target_year_mono s (m - 1) (D - 1)); lia | exact Hyear]. }
  assert (Hlen : Z.of_nat (List.length rows) = D).
  { rewrite <- (length_map i_monthNumber), Hmap, py_range_length; lia. }
  destruct w1 as [conn1 d1 t1 src1 calls1 scr1 cerr1].
  destruct Hsame as (Hc1 & Hd1 & Ht1 & Hs1 & Hsrc1). simpl in *. subst conn1 d1 t1 scr1 src1.
  assert (Hne : rows <> []) by (intros ->; simpl in Hlen; lia).
  exists rows. eexists. split; [| split; [| split; [| split; [| split; [| split]]]]].
  - unfold generate_installments_for_group.
    erewrite bind_ok by reflexivity.
    cbn [negb].
    apply try_ok.
    erewrite bind_ok by (unfold execute; simpl; rewrite Hcount; reflexivity).
    erewrite bind_ok by reflexivity.
    simpl. rewrite Hnone. simpl.
    erewrite bind_ok by exact Hrun.
    erewrite bind_ok.
    2:{ unfold executemany. destruct rows; [congruence |].
        unfold execute. simpl. rewrite Hinsert. reflexivity. }
    reflexivity.
  - reflexivity.
  - simpl. rewrite filter_app, (count_zero_filter _ _ Hnone), (scheduled_filter _ _ _ Hall).
    reflexivity.
  - exact Hlen.
  - intros k r Hk.
    assert (Hmonth : i_monthNumber r = Z.of_nat k + 1).
    { pose proof (map_nth_error i_monthNumber _ _ Hk) as Hm.
      assert (Hlt : (k < List.length rows)%nat) by (apply nth_error_Some; congruence).
      rewrite Hmap, py_range_nth in Hm by lia.
      assert (1 + Z.of_nat k = i_monthNumber r) by congruence. lia. }
    apply nth_error_In in Hk.
    rewrite Forall_forall in Hall. destruct (Hall r Hk) as (_ & Hdue & Ha & Hc & _).
    rewrite Hmonth in Hdue. replace (Z.of_nat k + 1 - 1) with (Z.of_nat k) in Hdue by lia.
    repeat split; assumption.
  - destruct rows as [| first rest]; [congruence |].
    exists first. split; [reflexivity |].
    rewrite Forall_forall in Hall. destruct (Hall first (or_introl eq_refl)) as (_ & Hdue & _).
    simpl in Hmap.
    assert (Hone : i_monthNumber first = 1).
    { pose proof (py_range_nth 1 (D + 1) 0 ltac:(lia)) as H0.
      rewrite <- Hmap in H0. simpl nth_error in H0.
      assert (i_monthNumber first = 1 + Z.of_nat 0) by congruence. lia. }
    rewrite Hone in Hdue. change (1 - 1) with 0 in Hdue.
    rewrite add_months_zero in Hdue by assumption. congruence.
  - repeat split.
Qed.


(** Past the last year of the calendar nothing is generated: the loop
    stops with the [ValueError] of [add_months], which is no
    [mysql.connector.Error] and so leaves the function. *)
Lemma generate_installments_out_of_range (w : world) (g : uuid) (s : date) (D : Z) :
  connection w = true ->
  valid_date s = true ->
  1 <= D ->
  MAXYEAR < target_year s (D - 1) ->
  count_installments (db w) g = 0 ->
  server_error (db w) (CountInstallments g) = None ->
  exists w',
    generate_installments_for_group server_error g s D w = (Raise ValueError, w') /\
    db w' = db w.
Proof.
  intros Hconn Hvalid HD Hyear Hnone Hcount.
  destruct w as [conn d t src calls scr cerr]. simpl in *. subst conn.
  destruct (installment_values_past_maxyear g s D (mkworld true d t src calls scr cerr)
              Hvalid HD Hyear) as (w' & Hrun & Hdb & _).
  exists w'. split; [| exact Hdb].
  unfold generate_installments_for_group.
  erewrite bind_ok by reflexivity. cbn [negb].
  apply try_passes; [discriminate |].
  erewrite bind_ok by (unfold execute; simpl; rewrite Hcount; reflexivity).
  erewrite bind_ok by reflexivity.
  simpl. rewrite Hnone. simpl.
  erewrite bind_raise by exact Hrun. reflexivity.
Qed.

(** C4.  When the group already has an installment, the call fails in
    every world: it returns [False], shows one message (the warning
    "Installments already exist for this group. Cannot regenerate." when
    the count could be read), and the tables are exactly as before: no row
    is added and none is changed. *)
Theorem generate_installments_rejected (w : world) (g : uuid) (s : date) (D : Z) :
  0 < count_installments (db w) g ->
  exists note,
    generate_installments_for_group server_error g s D w =
      (Ok false, set_screen (screen w ++ [note]) w) /\
    db (set_screen (screen w ++ [note]) w) = db w /\
    (connection w = true -> server_error (db w) (CountInstallments g) = None ->
     note = (Warning, [Txt "Installments already exist for this group. Cannot regenerate."])).
Proof.
  intros Hsome. destruct w as [conn d t src calls scr cerr]. simpl in *.
  unfold generate_installments_for_group.
  destruct conn.
  - erewrite bind_ok by reflexivity. cbn [negb].
    destruct (server_error d (CountInstallments g)) as [errno |] eqn:Hcount.
    + eexists. split; [| split; [reflexivity | discriminate]].
      erewrite try_caught.
      2:{ erewrite bind_raise; [reflexivity |].
          unfold execute. simpl. rewrite Hcount. reflexivity. }
      reflexivity.
    + eexists. split; [| split; [reflexivity | reflexivity]].
      apply try_ok.
      erewrite bind_ok by (unfold execute; simpl; rewrite Hcount; reflexivity).
      erewrite bind_ok by reflexivity.
      simpl. apply Z.ltb_lt in Hsome. rewrite Hsome. reflexivity.
  - eexists. split; [| split; [reflexivity | discriminate]].
    erewrite bind_ok by reflexivity. reflexivity.
Qed.

End Generation.

(* ===================================================================== *)
(** * The status query *)
(* ===================================================================== *)

Section StatusQuery.

Lemma status_key_eqb_eq (a b : status_key) : status_key_eqb a b = true <-> a = b.
Proof.
  destruct a as [[[ae asub] an] ac], b as [[[be bsub] bn] bc]. simpl.
  rewrite !andb_true_iff, !N.eqb_eq, String.eqb_eq, Z.eqb_eq.
  split.
  - intros (((-> & ->) & ->) & ->). reflexivity.
  - intros H. injection H as -> -> -> ->. auto.
Qed.

Lemma status_key_eqb_refl (a : status_key) : status_key_eqb a a = true.
Proof. now apply status_key_eqb_eq. Qed.

Lemma status_key_eqb_neq (a b : status_key) : status_key_eqb a b = false <-> a <> b.
Proof.
  rewrite <- status_key_eqb_eq. destruct (status_key_eqb a b); split; congruence.
Qed.

Lemma distinct_In (k : status_key) (ks : list status_key) :
  In k (distinct ks) <-> In k ks.
Proof.
  induction ks as [| k0 ks IH]; simpl; [tauto |].
  rewrite filter_In, IH, negb_true_iff, status_key_eqb_neq.
  destruct (status_key_eqb k0 k) eqn:E.
  - apply status_key_eqb_eq in E. subst. tauto.
  - apply status_key_eqb_neq in E. tauto.
Qed.

Lemma insert_by_chit_number_In (r x : status_key * option float)
  (l : list (status_key * option float)) :
  In x (insert_by_chit_number r l) <-> x = r \/ In x l.
Proof.
  induction l as [| y l IH]; simpl.
  - intuition congruence.
  - destruct (chit_number_of y <? chit_number_of r); simpl; rewrite ?IH;
      intuition congruence.
Qed.

Lemma order_by_chit_number_In (x : status_key * option float)
  (l : list (status_key * option float)) :
  In x (order_by_chit_number l) <-> In x l.
Proof.
  unfold order_by_chit_number. induction l as [| y l IH]; simpl; [tauto |].
  rewrite insert_by_chit_number_In, IH. intuition congruence.
Qed.

Lemma status_grouped_In (k : status_key) (v : option float)
  (rows : list (status_key * option float)) :
  In (k, v) (status_grouped rows) <->
  In k (map fst rows) /\
  v = sql_sum (map snd (filter (fun r => status_key_eqb k (fst r)) rows)).
Proof.
  unfold status_grouped. rewrite in_map_iff. split.
  - intros (k' & Heq & Hin). injection Heq as -> <-.
    rewrite distinct_In in Hin. now split.
  - intros (Hin & ->). exists k. split; [reflexivity | now rewrite distinct_In].
Qed.

(** [SUM] over the join rows of one enrollment is the sum of that
    subscriber's payments, NULL when there is none. *)
Lemma sql_sum_joined_for (d : database) (inst : uuid) (e : enrollment_row) (s : subscriber_row) :
  match sql_sum (map snd (joined_for d inst e s)) with
  | Some f => PyFloat f
  | None => PyInt 0
  end = total_paid_for d inst (e_subscriberId e).
Proof.
  unfold joined_for, total_paid_for.
  destruct (payments_of d inst (e_subscriberId e)) as [| p ps]; [reflexivity |].
  unfold sql_sum. rewrite map_map. simpl. f_equal. f_equal.
  induction ps as [| q ps IH]; simpl; [reflexivity | now rewrite IH].
Qed.

Lemma joined_for_keys (d : database) (inst : uuid) (e : enrollment_row) (s : subscriber_row)
  (r : status_key * option float) :
  In r (joined_for d inst e s) -> fst r = key_of e s.
Proof.
  unfold joined_for. destruct (payments_of d inst (e_subscriberId e)) as [| p ps].
  - intros [<- | []]. reflexivity.
  - rewrite in_map_iff. intros (ip & <- & _). reflexivity.
Qed.

Lemma joined_for_nonempty (d : database) (inst : uuid) (e : enrollment_row) (s : subscriber_row) :
  joined_for d inst e s <> [].
Proof.
  unfold joined_for. destruct (payments_of d inst (e_subscriberId e)); discriminate.
Qed.

Lemma status_joined_unfold (d : database) (inst g : uuid) :
  status_joined d inst g =
  flat_map (fun e =>
    flat_map (joined_for d inst e)
      (filter (fun s => (e_subscriberId e =? s_id s)%N) (Subscribers d)))
    (filter (fun e => (e_groupId e =? g)%N) (Enrollments d)).
Proof. reflexivity. Qed.

Lemma status_joined_In (d : database) (inst g : uuid) (r : status_key * option float) :
  In r (status_joined d inst g) <->
  exists e s,
    In e (Enrollments d) /\ e_groupId e = g /\
    In s (Subscribers d) /\ e_subscriberId e = s_id s /\
    In r (joined_for d inst e s).
Proof.
  rewrite status_joined_unfold, in_flat_map. split.
  - intros (e & He & Hr). apply filter_In in He as [He Hg]. apply N.eqb_eq in Hg.
    apply in_flat_map in Hr as (s & Hs & Hr). apply filter_In in Hs as [Hs Hid].
    apply N.eqb_eq in Hid. exists e, s. auto.
  - intros (e & s & He & Hg & Hs & Hid & Hr). exists e. split.
    + apply filter_In. split; [assumption | now apply N.eqb_eq].
    + apply in_flat_map. exists s. split; [| assumption].
      apply filter_In. split; [assumption | now apply N.eqb_eq].
Qed.

(** With a key column that has no duplicates, the rows of a [flat_map]
    that carry the key of [x] are the rows made from [x]. *)
Lemma filter_flat_map_unique {A K : Type} (id : A -> K) (rows : A -> list (status_key * option float))
  (k : status_key) (x : A) (l : list A) :
  NoDup (map id l) -> In x l ->
  (forall r, In r (rows x) -> fst r = k) ->
  (forall y r, In y l -> id y <> id x -> In r (rows y) -> fst r <> k) ->
  filter (fun r => status_key_eqb k (fst r)) (flat_map rows l) = rows x.
Proof.
  intros Hnd Hin Hx Hother.
  assert (Hall : forall rs : list (status_key * option float),
             (forall r, In r rs -> fst r = k) ->
             filter (fun r => status_key_eqb k (fst r)) rs = rs).
  { induction rs as [| r rs IHrs]; intros Hk; [reflexivity |]. simpl.
    rewrite (Hk r (or_introl eq_refl)), status_key_eqb_refl.
    f_equal. apply IHrs. intros r' Hr'. apply Hk. now right. }
  assert (Hnone : forall rs : list (status_key * option float),
             (forall r, In r rs -> fst r <> k) ->
             filter (fun r => status_key_eqb k (fst r)) rs = []).
  { induction rs as [| r rs IHrs]; intros Hk; [reflexivity |]. simpl.
    replace (status_key_eqb k (fst r)) with false.
    - apply IHrs. intros r' Hr'. apply Hk. now right.
    - symmetry. apply status_key_eqb_neq. intros E. apply (Hk r (or_introl eq_refl)). now symmetry. }
  induction l as [| y l IH]; [destruct Hin |].
  simpl in *. rewrite filter_app. inversion Hnd as [| ? ? Hnotin Hnd']; subst.
  destruct Hin as [-> | Hin].
  - rewrite (Hall _ Hx).
    replace (filter _ (flat_map rows l)) with (@nil (status_key * option float)).
    + apply app_nil_r.
    + symmetry. apply Hnone. intros r Hr. apply in_flat_map in Hr as (z & Hz & Hr).
      apply (Hother z r); [now right | | assumption].
      intros E. apply Hnotin. rewrite <- E. now apply in_map.
  - rewrite (Hnone (rows y)).
    + simpl. apply IH; auto.
      intros z r Hz. apply Hother. now right.
    + intros r Hr. apply (Hother y r); [now left | | assumption].
      intros E. apply Hnotin. rewrite E. now apply in_map.
Qed.

Lemma filter_key_unique {A : Type} (f : A -> N) (l : list A) (x : A) :
  NoDup (map f l) -> In x l -> filter (fun y => (f x =? f y)%N) l = [x].
Proof.
  induction l as [| y l IH]; intros Hnd Hin; [destruct Hin |].
  simpl in Hnd. inversion Hnd as [| ? ? Hnotin Hnd']; subst. simpl.
  assert (Hrest : forall z, ~ In (f z) (map f l) ->
                            filter (fun y0 => (f z =? f y0)%N) l = []).
  { intros z Hz. clear - Hz. induction l as [| u l IHl]; [reflexivity |]. simpl in *.
    destruct (N.eqb_spec (f z) (f u)) as [E | E].
    - exfalso. apply Hz. left. now symmetry.
    - apply IHl. tauto. }
  destruct Hin as [-> | Hin].
  - rewrite N.eqb_refl, Hrest by assumption. reflexivity.
  - destruct (N.eqb_spec (f x) (f y)) as [E | E].
    + exfalso. apply Hnotin. rewrite <- E. now apply in_map.
    + now apply IH.
Qed.

Lemma NoDup_map_filter {A : Type} (f : A -> N) (p : A -> bool) (l : list A) :
  NoDup (map f l) -> NoDup (map f (filter p l)).
Proof.
  induction l as [| y l IH]; intros Hnd; [constructor |].
  simpl in Hnd. inversion Hnd as [| ? ? Hnotin Hnd']; subst. simpl.
  destruct (p y); [| now apply IH].
  simpl. constructor; [| now apply IH].
  intros Hin. apply Hnotin. apply in_map_iff in Hin as (z & <- & Hz).
  apply in_map. now apply filter_In in Hz as [Hz _].
Qed.

(** With identifiers that are keys of their tables, the group of the
    status query that carries the key of an enrollment holds exactly the
    join rows of that enrollment. *)
Lemma status_group_of (d : database) (inst g : uuid) (e : enrollment_row) (s : subscriber_row) :
  NoDup (map e_id (Enrollments d)) ->
  NoDup (map s_id (Subscribers d)) ->
  In e (Enrollments d) -> e_groupId e = g ->
  In s (Subscribers d) -> e_subscriberId e = s_id s ->
  filter (fun r => status_key_eqb (key_of e s) (fst r)) (status_joined d inst g)
  = joined_for d inst e s.
Proof.
  intros Hne Hns He Hg Hs Hid.
  assert (Hsubs : forall e', e_subscriberId e' = s_id s ->
            filter (fun s' => (e_subscriberId e' =? s_id s')%N) (Subscribers d) = [s]).
  { intros e' E. rewrite E. now apply (filter_key_unique s_id). }
  rewrite status_joined_unfold.
  rewrite (filter_flat_map_unique e_id _ (key_of e s) e).
  - rewrite (Hsubs e Hid). simpl. apply app_nil_r.
  - now apply NoDup_map_filter.
  - apply filter_In. split; [assumption | now apply N.eqb_eq].
  - intros r Hr. rewrite (Hsubs e Hid) in Hr. simpl in Hr. rewrite app_nil_r in Hr.
    now apply joined_for_keys in Hr.
  - intros y r Hy Hne' Hr. apply in_flat_map in Hr as (s' & _ & Hr).
    apply joined_for_keys in Hr. rewrite Hr. unfold key_of. congruence.
Qed.

End StatusQuery.

Section PaymentStatus.

Variable server_error : database -> statement -> option Z.

Lemma status_entry_of (d : database) (inst g : uuid) (e : enrollment_row) (s : subscriber_row) :
  NoDup (map e_id (Enrollments d)) ->
  NoDup (map s_id (Subscribers d)) ->
  In e (Enrollments d) -> e_groupId e = g ->
  In s (Subscribers d) -> e_subscriberId e = s_id s ->
  let total := total_paid_for d inst (e_subscriberId e) in
  In (mkstatus (s_name s) (e_assignedChitNumber e)
        (if Py.gt total (PyInt 0) then "Paid"%string else "Due"%string) total)
     (map status_of_row (select_payment_status d inst g)).
Proof.
  intros Hne Hns He Hg Hs Hid total.
  apply in_map_iff.
  exists (key_of e s, sql_sum (map snd (joined_for d inst e s))). split.
  - unfold status_of_row. simpl fst. simpl snd. unfold key_of.
    rewrite (sql_sum_joined_for d inst e s). reflexivity.
  - unfold select_payment_status. apply order_by_chit_number_In.
    apply status_grouped_In. split.
    + destruct (joined_for d inst e s) as [| r rs] eqn:Hj.
      * now apply joined_for_nonempty in Hj.
      * apply in_map_iff. exists r. split.
        -- apply (joined_for_keys d inst e s). rewrite Hj. now left.
        -- apply status_joined_In. exists e, s. rewrite Hj. simpl. auto 10.
    + now rewrite (status_group_of d inst g e s).
Qed.

Lemma status_entry_inv (d : database) (inst g : uuid) (en : status_entry) :
  NoDup (map e_id (Enrollments d)) ->
  NoDup (map s_id (Subscribers d)) ->
  In en (map status_of_row (select_payment_status d inst g)) ->
  exists e s,
    In e (Enrollments d) /\ e_groupId e = g /\
    In s (Subscribers d) /\ e_subscriberId e = s_id s /\
    en = mkstatus (s_name s) (e_assignedChitNumber e)
           (if Py.gt (total_paid_for d inst (e_subscriberId e)) (PyInt 0)
            then "Paid"%string else "Due"%string)
           (total_paid_for d inst (e_subscriberId e)).
Proof.
  intros Hne Hns Hin.
  apply in_map_iff in Hin as ([k v] & <- & Hrow).
  unfold select_payment_status in Hrow.
  apply order_by_chit_number_In, status_grouped_In in Hrow as [Hk ->].
  apply in_map_iff in Hk as (r & <- & Hr).
  apply status_joined_In in Hr as (e & s & He & Hg & Hs & Hid & Hr).
  exists e, s. repeat (split; [assumption |]).
  rewrite (joined_for_keys d inst e s r Hr).
  rewrite (status_group_of d inst g e s) by assumption.
  unfold status_of_row. simpl fst. simpl snd. unfold key_of.
  rewrite (sql_sum_joined_for d inst e s). reflexivity.
Qed.

(** C5.  In a world with a connection, where the month [m] of group [g]
    has the one installment [inst], the server answers both queries, and
    the identifiers of enrollments and subscribers are keys: the call
    returns a list in which every entry belongs to an enrolled subscriber
    of [g] and every enrolled subscriber has an entry; the entry's total
    is the sum of that subscriber's payments for [inst], [0] when there is
    none; its status is "Paid" exactly when that total is greater than 0
    and "Due" otherwise.  The list is the same whatever the table of
    groups holds, so no expected amount enters the status. *)
Theorem payment_status_binary (w : world) (g : uuid) (m : Z) (inst : uuid) :
  connection w = true ->
  server_error (db w) (SelectInstallmentId g m) = None ->
  select_installment_id (db w) g m = [inst] ->
  server_error (db w) (SelectPaymentStatus inst g) = None ->
  NoDup (map e_id (Enrollments (db w))) ->
  NoDup (map s_id (Subscribers (db w))) ->
  exists entries w',
    get_payment_status_for_installment server_error g m w = (Ok entries, w') /\
    db w' = db w /\
    (forall en, In en entries ->
       (Status en = "Paid"%string <-> Py.gt (Total_Paid en) (PyInt 0) = true) /\
       (Status en = "Due"%string <-> Py.gt (Total_Paid en) (PyInt 0) = false) /\
       exists e s,
         In e (Enrollments (db w)) /\ e_groupId e = g /\
         In s (Subscribers (db w)) /\ e_subscriberId e = s_id s /\
         Subscriber_Name en = s_name s /\
         Chit_Number en = e_assignedChitNumber e /\
         Total_Paid en = total_paid_for (db w) inst (e_subscriberId e)) /\
    (forall e s,
       In e (Enrollments (db w)) -> e_groupId e = g ->
       In s (Subscribers (db w)) -> e_subscriberId e = s_id s ->
       exists en,
         In en entries /\
         Subscriber_Name en = s_name s /\
         Chit_Number en = e_assignedChitNumber e /\
         Total_Paid en = total_paid_for (db w) inst (e_subscriberId e)) /\
    (forall gs,
       map status_of_row (select_payment_status (with_groups gs (db w)) inst g) = entries).
Proof.
  intros Hconn Hsel Hone Hstat Hne Hns.
  destruct w as [conn d t src calls scr cerr]. simpl in *. subst conn.
  exists (map status_of_row (select_payment_status d inst g)). eexists.
  split; [| split; [| split; [| split]]].
  - unfold get_payment_status_for_installment.
    erewrite bind_ok by reflexivity. cbn [negb].
    apply try_ok.
    erewrite bind_ok by (unfold execute; simpl; rewrite Hsel; reflexivity).
    erewrite bind_ok by reflexivity.
    simpl. rewrite Hone.
    erewrite bind_ok by (unfold execute; simpl; rewrite Hstat; reflexivity).
    erewrite bind_ok by reflexivity.
    reflexivity.
  - reflexivity.
  - intros en Hen.
    destruct (status_entry_inv d inst g en Hne Hns Hen)
      as (e & s & He & Hg & Hs & Hid & ->).
    simpl. split; [| split].
    + destruct (Py.gt _ _); split; congruence.
    + destruct (Py.gt _ _); split; congruence.
    + exists e, s. auto 10.
  - intros e s He Hg Hs Hid.
    eexists. split; [exact (status_entry_of d inst g e s Hne Hns He Hg Hs Hid) |].
    simpl. auto.
  - intros gs. reflexivity.
Qed.

End PaymentStatus.

(* ===================================================================== *)
(** * Runs of the schedule *)
(* ===================================================================== *)

(** Three installments from January 31: the due dates follow the ends of
    the months. *)
Example generate_from_january_31 :
  map (fun r => (i_monthNumber r, i_dueDate r))
    (Installments (db (snd (generate_installments_for_group willing_server 7
                              (mkdate 2025 1 31) 3 fresh_world)))) =
  [(1, mkdate 2025 1 31); (2, mkdate 2025 2 28); (3, mkdate 2025 3 31)].
Proof. vm_compute. reflexivity. Qed.

(** A run of C1 in [fresh_world]. *)
Lemma generate_installments_schedule_witness :
  exists rows w',
    generate_installments_for_group willing_server 7 (mkdate 2025 1 31) 3 fresh_world
      = (Ok true, w') /\
    Installments (db w') = rows /\
    Z.of_nat (List.length rows) = 3 /\
    (exists first, nth_error rows 0 = Some first /\ i_dueDate first = mkdate 2025 1 31).
Proof.
  destruct (generate_installments_schedule willing_server fresh_world 7 (mkdate 2025 1 31) 3
              eq_refl eq_refl ltac:(lia) ltac:(vm_compute; discriminate)
              eq_refl eq_refl (fun _ => eq_refl))
    as (rows & w' & Hrun & Hrows & _ & Hlen & _ & Hfirst & _).
  exists rows, w'. auto.
Defined.

(** C1 as it is stated fails at the end of the calendar: for the start
    date December 1 of 9999 and a duration of 2, in a world where the
    group has no installment, the call raises [ValueError] at the second
    month and no row is written. *)
Lemma generate_installments_past_maxyear :
  valid_date (mkdate 9999 12 1) = true /\
  count_installments (db fresh_world) 7 = 0 /\
  fst (generate_installments_for_group willing_server 7 (mkdate 9999 12 1) 2 fresh_world)
    = Raise ValueError /\
  Installments (db (snd (generate_installments_for_group willing_server 7
                           (mkdate 9999 12 1) 2 fresh_world))) = [].
Proof. repeat split; vm_compute; reflexivity. Qed.

(** A run of C4: the second call on the same group. *)
Lemma generate_installments_rejected_witness :
  let once := snd (generate_installments_for_group willing_server 7
                     (mkdate 2025 1 31) 3 fresh_world) in
  exists note,
    generate_installments_for_group willing_server 7 (mkdate 2025 1 31) 3 once
      = (Ok false, set_screen (screen once ++ [note]) once) /\
    db (set_screen (screen once ++ [note]) once) = db once.
Proof.
  intros once.
  destruct (generate_installments_rejected willing_server once 7 (mkdate 2025 1 31) 3
              ltac:(vm_compute; reflexivity)) as (note & Hrun & Hdb & _).
  exists note. auto.
Defined.

(* ===================================================================== *)
(** * Recording a payment *)
(* ===================================================================== *)

Section Payments.

Variable server_error : database -> statement -> option Z.

Lemma le_zero_not_gt (a : float) :
  Py.le (PyFloat a) (PyInt 0) = true -> Py.gt (PyFloat a) (PyInt 0) = false.
Proof.
  unfold Py.le, Py.gt.
  destruct (compare_float_int a 0) as [[| |] |]; congruence.
Qed.

Lemma insert_payment_run (w : world) (inst sub : uuid) (amount : float) (notes : string) :
  connection w = true ->
  (forall r, server_error (db w) (InsertPayment r) = None) ->
  exists w',
    insert_payment server_error inst sub amount notes w = (Ok true, w') /\
    InstallmentPayments (db w') =
      InstallmentPayments (db w) ++
      [mkpayment (uuid4_source w (uuid4_calls w)) inst sub (now w) amount notes] /\
    ChitGroups (db w') = ChitGroups (db w) /\
    Subscribers (db w') = Subscribers (db w) /\
    Enrollments (db w') = Enrollments (db w) /\
    Installments (db w') = Installments (db w).
Proof.
  intros Hconn Hsrv. destruct w as [conn d t src calls scr cerr]. simpl in *. subst conn.
  eexists. split.
  - unfold insert_payment.
    erewrite bind_ok by reflexivity. cbn [negb].
    apply try_ok.
    erewrite bind_ok by reflexivity.
    erewrite bind_ok by reflexivity.
    erewrite bind_ok by (unfold execute; simpl; rewrite Hsrv; reflexivity).
    reflexivity.
  - repeat split.
Qed.

(** C7.  With the button pressed: an amount of zero or less gives the
    warning "Amount Paid must be greater than zero." and leaves the world
    otherwise as it was, so no payment row is appended; an amount greater
    than zero, in a world with a connection whose server takes the
    statement, appends one new row with that amount, whatever rows the
    table already holds for the same installment and subscriber and
    whatever the group's installment amount is. *)
Theorem record_payment_validation (w : world) (inst sub : uuid)
  (amount : float) (notes : string) :
  (Py.le (PyFloat amount) (PyInt 0) = true ->
   record_payment_form server_error inst sub amount notes true w =
     (Ok tt, set_screen (screen w ++ [(Warning, [Txt "Amount Paid must be greater than zero."])]) w)) /\
  (Py.gt (PyFloat amount) (PyInt 0) = true ->
   connection w = true ->
   (forall r, server_error (db w) (InsertPayment r) = None) ->
   exists w',
     record_payment_form server_error inst sub amount notes true w = (Ok tt, w') /\
     InstallmentPayments (db w') =
       InstallmentPayments (db w) ++
       [mkpayment (uuid4_source w (uuid4_calls w)) inst sub (now w) amount notes] /\
     ChitGroups (db w') = ChitGroups (db w) /\
     Subscribers (db w') = Subscribers (db w) /\
     Enrollments (db w') = Enrollments (db w) /\
     Installments (db w') = Installments (db w)).
Proof.
  split.
  - intros Hle. unfold record_payment_form.
    rewrite (le_zero_not_gt amount Hle). reflexivity.
  - intros Hgt Hconn Hsrv. unfold record_payment_form. rewrite Hgt.
    destruct (insert_payment_run w inst sub amount notes Hconn Hsrv)
      as (w' & Hrun & Hrows).
    exists w'. split; [| exact Hrows].
    erewrite bind_ok by exact Hrun. reflexivity.
Qed.

End Payments.

(** A run of C7: 0 and -5 are refused; 0.01, then 5000, then 999999 for the
    same installment and subscriber, whose group has installments of 5000,
    are all appended after the payment of 100 already there. *)
Lemma record_payment_validation_witness :
  record_payment_form willing_server 30 10 0 EmptyString true underpaid_world =
    (Ok tt, set_screen [(Warning, [Txt "Amount Paid must be greater than zero."])] underpaid_world) /\
  db (snd (record_payment_form willing_server 30 10 (-5) EmptyString true underpaid_world))
    = underpaid_db /\
  (exists w',
     record_payment_form willing_server 30 10 0.01 EmptyString true underpaid_world = (Ok tt, w') /\
     map p_amountPaid (InstallmentPayments (db w')) = [100; 0.01]%float) /\
  map p_amountPaid
    (InstallmentPayments
       (db (snd (record_payment_form willing_server 30 10 999999 EmptyString true
                   (snd (record_payment_form willing_server 30 10 5000 EmptyString true
                           (snd (record_payment_form willing_server 30 10 0.01 EmptyString true
                                   underpaid_world))))))))
    = [100; 0.01; 5000; 999999]%float.
Proof.
  destruct (record_payment_validation willing_server underpaid_world 30 10 0 EmptyString)
    as (Hzero & _).
  destruct (record_payment_validation willing_server underpaid_world 30 10 (-5) EmptyString)
    as (Hneg & _).
  destruct (record_payment_validation willing_server underpaid_world 30 10 0.01 EmptyString)
    as (_ & Hcent).
  destruct (Hcent eq_refl eq_refl (fun _ => eq_refl)) as (w' & Hrun & Hrows & _).
  split; [exact (Hzero eq_refl) | split; [| split]].
  - rewrite (Hneg eq_refl). reflexivity.
  - exists w'. split; [exact Hrun |]. rewrite Hrows. reflexivity.
  - vm_compute. reflexivity.
Defined.

(* ===================================================================== *)
(** * Creating a group *)
(* ===================================================================== *)

Section Groups.

Variable server_error : database -> statement -> option Z.
Variable float_of_str : string -> result float.

(** [float] of a string raises nothing but [ValueError]. *)
Hypothesis float_of_str_raises :
  forall s e, float_of_str s = Raise e -> e = ValueError.

Lemma read_commission_run (commission_str : string) (w : world) :
  read_commission float_of_str commission_str w =
  (Ok (parsed_commission float_of_str commission_str),
   set_screen (screen w ++ commission_notes float_of_str commission_str) w).
Proof.
  destruct w as [conn d t src calls scr cerr].
  unfold read_commission, parsed_commission, commission_notes, set_screen. simpl.
  destruct commission_str as [| c rest]; [now rewrite app_nil_r |].
  destruct (float_of_str (String c rest)) as [f | e] eqn:E.
  - now rewrite app_nil_r.
  - rewrite (float_of_str_raises _ _ E). reflexivity.
Qed.

Lemma insert_group_run (w : world) (name : string) (value : float) (subs dur : Z)
  (start : date) (commission : option float) :
  connection w = true ->
  (forall r, server_error (db w) (InsertChitGroup r) = None) ->
  exists w',
    insert_group server_error name value subs dur start commission w = (Ok true, w') /\
    ChitGroups (db w') =
      ChitGroups (db w) ++
      [mkgroup (uuid4_source w (uuid4_calls w)) name value subs dur start commission true] /\
    uuid4_calls w' = S (uuid4_calls w) /\
    Subscribers (db w') = Subscribers (db w) /\
    Enrollments (db w') = Enrollments (db w) /\
    Installments (db w') = Installments (db w) /\
    InstallmentPayments (db w') = InstallmentPayments (db w).
Proof.
  intros Hconn Hsrv. destruct w as [conn d t src calls scr cerr]. simpl in *. subst conn.
  eexists. split.
  - unfold insert_group.
    erewrite bind_ok by reflexivity. cbn [negb].
    apply try_ok.
    erewrite bind_ok by reflexivity.
    erewrite bind_ok by (unfold execute; simpl; rewrite Hsrv; reflexivity).
    reflexivity.
  - repeat split.
Qed.

(** C6, as the code has it.  With the button pressed:
    - an empty name, a value of zero or less, a subscriber count or a
      duration of zero or less give the warning "Please fill all required
      fields ..." and leave the tables and the identifiers as they were;
    - otherwise, in a world with a connection whose server takes the
      statement, one row is appended to [ChitGroups]: its identifier is
      the next [uuid4] draw, it is active, and its commission is what the
      text parsed to, without any test of its range;
    - [insert_group] returns [True] then, not the identifier;
    - when the identifiers come from an injective source and those of the
      table were drawn earlier, the new identifier is not in the table. *)
Theorem add_group_form_validation (w : world) (name : string) (value : float)
  (subs dur : Z) (start : date) (commission_str : string) :
  (name = EmptyString \/ Py.le (PyFloat value) (PyInt 0) = true \/ subs <= 0 \/ dur <= 0 ->
   add_group_form server_error float_of_str name value subs dur start commission_str true w =
     (Ok tt,
      set_screen (screen w ++ commission_notes float_of_str commission_str
                    ++ [fill_fields_warning]) w)) /\
  (name <> EmptyString -> Py.gt (PyFloat value) (PyInt 0) = true -> 0 < subs -> 0 < dur ->
   connection w = true ->
   (forall d r, server_error d (InsertChitGroup r) = None) ->
   exists w',
     add_group_form server_error float_of_str name value subs dur start commission_str true w =
       (Ok tt, w') /\
     ChitGroups (db w') =
       ChitGroups (db w) ++
       [mkgroup (uuid4_source w (uuid4_calls w)) name value subs dur start
          (parsed_commission float_of_str commission_str) true] /\
     uuid4_calls w' = S (uuid4_calls w)) /\
  (connection w = true ->
   (forall d r, server_error d (InsertChitGroup r) = None) ->
   forall commission,
     fst (insert_group server_error name value subs dur start commission w) = Ok true) /\
  ((forall i j, uuid4_source w i = uuid4_source w j -> i = j) ->
   (forall r, In r (ChitGroups (db w)) ->
      exists i, (i < uuid4_calls w)%nat /\ g_id r = uuid4_source w i) ->
   ~ In (uuid4_source w (uuid4_calls w)) (map g_id (ChitGroups (db w)))).
Proof.
  split; [| split; [| split]].
  - intros Hbad. unfold add_group_form.
    erewrite bind_ok by apply read_commission_run.
    assert (Htest : negb (String.eqb name EmptyString)
                    && Py.gt (PyFloat value) (PyInt 0) && (0 <? subs) && (0 <? dur) = false).
    { destruct Hbad as [-> | [Hv | [Hs | Hd]]].
      - reflexivity.
      - rewrite (le_zero_not_gt value Hv). now rewrite andb_false_r.
      - apply Z.ltb_ge in Hs. rewrite Hs. now rewrite andb_false_r.
      - apply Z.ltb_ge in Hd. rewrite Hd. now rewrite andb_false_r. }
    rewrite Htest. destruct w as [conn d t src calls scr cerr].
    unfold show, set_screen. simpl. now rewrite app_assoc.
  - intros Hname Hvalue Hsubs Hdur Hconn Hsrv. unfold add_group_form.
    erewrite bind_ok by apply read_commission_run.
    apply String.eqb_neq in Hname. apply Z.ltb_lt in Hsubs. apply Z.ltb_lt in Hdur.
    rewrite Hname, Hvalue, Hsubs, Hdur. simpl.
    destruct (insert_group_run
                (set_screen (screen w ++ commission_notes float_of_str commission_str) w)
                name value subs dur start (parsed_commission float_of_str commission_str))
      as (w' & Hrun & Hrows & Hcalls & _).
    { destruct w; exact Hconn. }
    { intros r. apply Hsrv. }
    exists w'. split; [| split].
    + erewrite bind_ok by exact Hrun. reflexivity.
    + rewrite Hrows. destruct w; reflexivity.
    + rewrite Hcalls. destruct w; reflexivity.
  - intros Hconn Hsrv commission.
    destruct (insert_group_run w name value subs dur start commission Hconn (Hsrv (db w)))
      as (w' & Hrun & _).
    now rewrite Hrun.
  - intros Hinj Hdrawn Hin. apply in_map_iff in Hin as (r & Hid & Hr).
    destruct (Hdrawn r Hr) as (i & Hlt & Hi).
    rewrite Hi in Hid. apply Hinj in Hid. lia.
Qed.

End Groups.

Lemma small_float_of_str_raises (s : string) (e : exn) :
  small_float_of_str s = Raise e -> e = ValueError.
Proof.
  unfold small_float_of_str.
  destruct (String.eqb s "5"); [discriminate |].
  destruct (String.eqb s "50"); [discriminate |].
  congruence.
Qed.

(** A run of C6: a group without a name is refused; a group with the
    commission text "5" is stored with that commission, the identifier
    4096 and the active flag. *)
Lemma add_group_form_validation_witness :
  add_group_form willing_server small_float_of_str EmptyString 100000 20 20
    (mkdate 2025 1 31) "5" true fresh_world =
    (Ok tt, set_screen [fill_fields_warning] fresh_world) /\
  (exists w',
     add_group_form willing_server small_float_of_str "Group A" 100000 20 20
       (mkdate 2025 1 31) "5" true fresh_world = (Ok tt, w') /\
     ChitGroups (db w') =
       [mkgroup 4096 "Group A" 100000 20 20 (mkdate 2025 1 31) (Some 5%float) true]).
Proof.
  destruct (add_group_form_validation willing_server small_float_of_str
              small_float_of_str_raises fresh_world EmptyString 100000 20 20
              (mkdate 2025 1 31) "5") as (Hrefused & _).
  destruct (add_group_form_validation willing_server small_float_of_str
              small_float_of_str_raises fresh_world "Group A" 100000 20 20
              (mkdate 2025 1 31) "5") as (_ & Htaken & _).
  destruct (Htaken ltac:(discriminate) eq_refl ltac:(lia) ltac:(lia) eq_refl
              (fun _ _ => eq_refl)) as (w' & Hrun & Hrows & _).
  split; [exact (Hrefused (or_introl eq_refl)) |].
  exists w'. split; [exact Hrun | exact Hrows].
Defined.

(** C6 as it is stated fails twice.  A commission of 50, outside [0,7],
    is not refused: the group is stored with it.  And what the call
    returns on success is [True], not the identifier 4096 it generated. *)
Lemma add_group_form_takes_commission_50 :
  map (fun r => (g_id r, g_foremanCommissionPercentage r, g_isActive r))
    (ChitGroups (db (snd (add_group_form willing_server small_float_of_str
                            "Group A" 100000 20 20 (mkdate 2025 1 31) "50" true
                            fresh_world))))
    = [(4096%N, Some 50%float, true)] /\
  fst (insert_group willing_server "Group A" 100000 20 20 (mkdate 2025 1 31)
         (Some 50%float) fresh_world) = Ok true.
Proof. split; vm_compute; reflexivity. Qed.

(* ===================================================================== *)
(** * The wall clock *)
(* ===================================================================== *)

Create HintDb clock.

Section Clock.

Variable server_error : database -> statement -> option Z.

Lemma blind_ret {A : Type} (a : A) : clock_blind (ret a).
Proof. intros t w. reflexivity. Qed.

Lemma blind_raise {A : Type} (e : exn) : clock_blind (raise (A := A) e).
Proof. intros t w. reflexivity. Qed.

Lemma blind_lift {A : Type} (r : result A) : clock_blind (lift r).
Proof. intros t w. reflexivity. Qed.

Lemma blind_bind {A B : Type} (m : Foremen.M A) (k : A -> Foremen.M B) :
  clock_blind m -> (forall a, clock_blind (k a)) -> clock_blind (bind m k).
Proof.
  intros Hm Hk t w. unfold bind. rewrite Hm.
  destruct (m w) as [[a | e] w1]; simpl; [apply Hk | reflexivity].
Qed.

Lemma blind_try {A : Type} (body : Foremen.M A) (h : exn -> Foremen.M A) :
  clock_blind body -> (forall e, clock_blind (h e)) -> clock_blind (try_except_Error body h).
Proof.
  intros Hb Hh t w. unfold try_except_Error. rewrite Hb.
  destruct (body w) as [[a | e] w1]; simpl; [reflexivity |].
  destruct e; try reflexivity. apply Hh.
Qed.

Lemma blind_show (l : level) (text : list piece) : clock_blind (show l text).
Proof. intros t w. reflexivity. Qed.

Lemma blind_uuid4 : clock_blind uuid4.
Proof. intros t w. reflexivity. Qed.

Lemma blind_connection : clock_blind get_db_connection.
Proof. intros t w. unfold get_db_connection. simpl. now destruct (connection w). Qed.

Lemma blind_execute (st : statement) : clock_blind (execute server_error st).
Proof.
  intros t w. unfold execute. simpl.
  now destruct (server_error (db w) st).
Qed.

Lemma blind_executemany (rows : list installment_row) :
  clock_blind (executemany server_error rows).
Proof. destruct rows; [apply blind_ret | apply blind_execute]. Qed.

Lemma blind_fetch {A : Type} (q : database -> A) : clock_blind (fetch q).
Proof. intros t w. reflexivity. Qed.

Lemma blind_commit : clock_blind commit.
Proof. apply blind_ret. Qed.

Lemma blind_rollback : clock_blind rollback.
Proof. apply blind_ret. Qed.

Lemma blind_if {A : Type} (b : bool) (m1 m2 : Foremen.M A) :
  clock_blind m1 -> clock_blind m2 -> clock_blind (if b then m1 else m2).
Proof. now destruct b. Qed.

Hint Resolve blind_ret blind_raise blind_lift blind_show blind_uuid4
  blind_connection blind_execute blind_executemany blind_fetch blind_commit
  blind_rollback : clock.

Ltac blind :=
  repeat first
    [ apply blind_bind; [| intros ?]
    | apply blind_try; [| intros ?]
    | apply blind_if
    | solve [auto with clock]
    | match goal with
      | |- clock_blind (match ?x with _ => _ end) => destruct x
      end ].

Lemma blind_insert_group (name : string) (value : float) (subs dur : Z) (start : date)
  (commission : option float) :
  clock_blind (insert_group server_error name value subs dur start commission).
Proof. unfold insert_group. blind. Qed.

Lemma blind_insert_enrollment (sub g : uuid) (n : Z) (join : date) :
  clock_blind (insert_enrollment server_error sub g n join).
Proof. unfold insert_enrollment. blind. Qed.

Lemma blind_installment_values (g : uuid) (s : date) (months : list Z) :
  clock_blind (installment_values g s months).
Proof. induction months as [| m later IH]; simpl; blind. Qed.

Lemma blind_generate (g : uuid) (s : date) (D : Z) :
  clock_blind (generate_installments_for_group server_error g s D).
Proof.
  unfold generate_installments_for_group.
  pose proof (blind_installment_values g s (py_range 1 (D + 1))).
  blind.
Qed.

Lemma blind_db {A : Type} (m : Foremen.M A) (t : datetime) (w : world) :
  clock_blind m -> db (snd (m (set_now t w))) = db (snd (m w)).
Proof. intros H. rewrite H. reflexivity. Qed.

Lemma insert_subscriber_run (w : world) (name phone address : string) :
  connection w = true ->
  (forall r, server_error (db w) (InsertSubscriber r) = None) ->
  exists w',
    insert_subscriber server_error name phone address w = (Ok true, w') /\
    Subscribers (db w') =
      Subscribers (db w) ++
      [mksubscriber (uuid4_source w (uuid4_calls w)) name phone address (now w) true].
Proof.
  intros Hconn Hsrv. destruct w as [conn d t src calls scr cerr]. simpl in *. subst conn.
  eexists. split.
  - unfold insert_subscriber.
    erewrite bind_ok by reflexivity. cbn [negb].
    apply try_ok.
    erewrite bind_ok by reflexivity.
    erewrite bind_ok by reflexivity.
    erewrite bind_ok by (unfold execute; simpl; rewrite Hsrv; reflexivity).
    reflexivity.
  - reflexivity.
Qed.

End Clock.

(* ===================================================================== *)
(** * The chit table of DHARMAREDDY.py *)
(* ===================================================================== *)

Section Chits.

Variable server_error : list chit_row -> list dividend_row ->
                        Dharmareddy.statement -> option Z.

Lemma execute_query_run (st : Dharmareddy.statement) (s : store) :
  exists b s',
    execute_query server_error st s = (Ok b, s') /\
    clock s' = clock s /\
    ((b = true /\ Chits s' = Chits (Dharmareddy.apply_statement st s) /\
      Dividends s' = Dividends (Dharmareddy.apply_statement st s)) \/
     (b = false /\ Chits s' = Chits s /\ Dividends s' = Dividends s)).
Proof.
  destruct s as [conn cs ds t pg]. unfold execute_query, bind, look. simpl.
  destruct conn; simpl.
  - destruct (server_error cs ds st); simpl; eexists _, _;
      (split; [reflexivity | split; [| auto]]); destruct st; reflexivity.
  - eexists _, _. split; [reflexivity | split; [reflexivity | auto]].
Qed.

Lemma tell_run (l : level) (text : list piece) (s : store) :
  exists s', tell l text s = (Ok tt, s') /\
             Chits s' = Chits s /\ Dividends s' = Dividends s /\ clock s' = clock s.
Proof. eexists. split; [reflexivity | auto]. Qed.

Lemma calculate_installment_positive (v d : Z) :
  0 < d -> calculate_installment (PyInt v) (PyInt d) = Py.truediv (PyInt v) (PyInt d).
Proof.
  intros Hd. unfold calculate_installment. simpl Py.gt.
  apply Z.ltb_lt in Hd. now rewrite Hd.
Qed.

Lemma update_row_invariant (v d : Z) (c : float) (sd : date) (inst : num) (id : string)
  (r : chit_row) :
  Py.truediv (PyInt v) (PyInt d) = Ok inst ->
  installment_invariant r -> installment_invariant (update_row v d c sd inst id r).
Proof.
  intros Hinst Hr. unfold update_row.
  destruct (String.eqb (chit_id r) id); [exact Hinst | exact Hr].
Qed.

Lemma new_chit_form_invariant (s : store) (id : string) (v d : Z) (c : float) (sd : date)
  (submitted : bool) :
  chits_invariant s ->
  chits_invariant (snd (new_chit_form server_error id v d c sd submitted s)).
Proof.
  intros Hs. unfold new_chit_form.
  destruct submitted; [| exact Hs].
  destruct (negb (String.eqb id EmptyString) && (0 <? v) && (0 <? d)) eqn:Htest.
  - apply andb_prop in Htest as [_ Hd]. apply Z.ltb_lt in Hd.
    rewrite (calculate_installment_positive v d Hd).
    destruct (Py.truediv (PyInt v) (PyInt d)) as [inst | e] eqn:Hdiv.
    + erewrite bind_ok by reflexivity.
      destruct (execute_query_run (InsertChit (mkchit id v d c sd inst)) s)
        as (b & s1 & Hrun & _ & Hcases).
      erewrite bind_ok by exact Hrun.
      destruct (tell_run Success [Txt "Chit Fund '"; Txt id; Txt "' created successfully!"] s1)
        as (s2 & Htell & Hchits & _).
      rewrite Htell. unfold chits_invariant. simpl. rewrite Hchits.
      destruct Hcases as [(_ & -> & _) | (_ & -> & _)]; [| exact Hs].
      simpl. apply Forall_app. split; [exact Hs |].
      constructor; [exact Hdiv | constructor].
    + erewrite bind_raise by reflexivity. exact Hs.
  - exact Hs.
Qed.

Lemma edit_chit_form_submit_invariant (s : store) (id : string) (v d : Z) (c : float)
  (sd : date) :
  1 <= d ->
  chits_invariant s ->
  chits_invariant (snd (edit_chit_form_submit server_error id v d c sd s)).
Proof.
  intros Hd Hs. unfold edit_chit_form_submit.
  rewrite (calculate_installment_positive v d) by lia.
  destruct (Py.truediv (PyInt v) (PyInt d)) as [inst | e] eqn:Hdiv.
  - erewrite bind_ok by reflexivity.
    destruct (execute_query_run (UpdateChit v d c sd inst id) s)
      as (b & s1 & Hrun & _ & Hcases).
    erewrite bind_ok by exact Hrun.
    destruct (tell_run Success [Txt "Chit Fund '"; Txt id; Txt "' updated successfully!"] s1)
      as (s2 & Htell & Hchits & _).
    rewrite Htell. unfold chits_invariant. simpl. rewrite Hchits.
    destruct Hcases as [(_ & -> & _) | (_ & -> & _)]; [| exact Hs].
    simpl. apply Forall_map. unfold chits_invariant in Hs.
    eapply Forall_impl; [| exact Hs].
    intros r Hr. now apply update_row_invariant.
  - erewrite bind_raise by reflexivity. exact Hs.
Qed.

Lemma fetch_chit_run (id : string) (s : store) :
  exists rows s', fetch_chit server_error id s = (Ok rows, s') /\ Chits s' = Chits s.
Proof.
  destruct s as [conn cs ds t pg]. unfold fetch_chit, bind, look. simpl.
  destruct conn; simpl.
  - destruct (server_error cs ds (SelectChit id)); simpl; eexists _, _; split; reflexivity.
  - eexists _, _. split; reflexivity.
Qed.

(** The expander as it is written changes no row: it stops with
    [TypeError] as soon as the selected chit exists. *)
Lemma edit_chit_expander_run (s : store) (id : string) (v d : Z) (c : float) (sd : date)
  (submitted : bool) :
  Chits (snd (edit_chit_expander server_error id v d c sd submitted s)) = Chits s /\
  (forall r s', edit_chit_expander server_error id v d c sd submitted s = (r, s') ->
     r = Ok tt \/ r = Raise TypeError).
Proof.
  unfold edit_chit_expander.
  destruct (negb (String.eqb id EmptyString)); [| split; [reflexivity | intros ? ? [= <- _]; auto]].
  destruct (fetch_chit_run id s) as (rows & s1 & Hrun & Hchits).
  erewrite bind_ok by exact Hrun.
  destruct rows as [| row rows].
  - split; [exact Hchits | intros ? ? [= <- _]; auto].
  - erewrite bind_raise by reflexivity.
    split; [exact Hchits | intros ? ? [= <- _]; auto].
Qed.

Lemma delete_chit_invariant (s : store) (id : string) :
  chits_invariant s -> chits_invariant (snd (delete_chit server_error id s)).
Proof.
  intros Hs. unfold delete_chit.
  destruct (execute_query_run (DeleteChit id) s) as (b & s1 & Hrun & _ & Hcases).
  erewrite bind_ok by exact Hrun.
  destruct (tell_run Success [Txt "Chit Fund '"; Txt id; Txt "' deleted successfully!"] s1)
    as (s2 & Htell & Hchits & _).
  erewrite bind_ok by exact Htell.
  unfold chits_invariant, Dharmareddy.rerun. simpl. rewrite Hchits.
  destruct Hcases as [(_ & -> & _) | (_ & -> & _)]; [| exact Hs].
  simpl. unfold chits_invariant in Hs. rewrite Forall_forall in *.
  intros r Hr. apply filter_In in Hr as [Hr _]. now apply Hs.
Qed.

(** C8.  Every step of the page "Chit Setup" keeps the invariant: when
    each stored installment amount is the row's value divided by its
    duration before the step, it is so after it.  A creation stores the
    quotient with the new row; an edit stores the quotient of the new
    value and the new duration with them; a deletion only removes rows. *)
Theorem installment_amount_invariant (s s' : store) :
  chit_step server_error s s' -> chits_invariant s -> chits_invariant s'.
Proof.
  intros Hstep Hs. destruct Hstep as [s id v d c sd sub Hv Hd | s id v d c sd Hv Hd
                                      | s id v d c sd sub | s id].
  - now apply new_chit_form_invariant.
  - now apply edit_chit_form_submit_invariant.
  - unfold chits_invariant.
    now rewrite (proj1 (edit_chit_expander_run s id v d c sd sub)).
  - now apply delete_chit_invariant.
Qed.

End Chits.

(** The rows that creation and two edits store. *)
Example chit_rows_after_edits :
  map (fun r => (chit_value r, duration r, installment_amount r)) (Chits one_chit)
    = [(100000, 20, PyFloat 5000)] /\
  map (fun r => (chit_value r, duration r, installment_amount r))
    (Chits (snd (edit_chit_form_submit willing_chit_server "DR-01" 100000 3 5
                   (mkdate 2025 6 1) one_chit)))
    = [(100000, 3, PyFloat 33333.333333333336)] /\
  edit_chit_expander willing_chit_server "DR-01" 100000 3 5 (mkdate 2025 6 1) true one_chit
    = (Raise TypeError, one_chit).
Proof. repeat split; vm_compute; reflexivity. Qed.

(** A run of C8: the chit "DR-01" is created, then edited to 100000 over
    3 months. *)
Lemma installment_amount_invariant_witness :
  chits_invariant
    (snd (edit_chit_form_submit willing_chit_server "DR-01" 100000 3 5 (mkdate 2025 6 1) one_chit)).
Proof.
  apply (installment_amount_invariant willing_chit_server one_chit).
  - apply step_edit; lia.
  - apply (installment_amount_invariant willing_chit_server empty_store).
    + exact (step_new willing_chit_server empty_store "DR-01" 100000 20 5 (mkdate 2025 6 1) true
               ltac:(lia) ltac:(lia)).
    + constructor.
Defined.

(* ===================================================================== *)
(** * Which stored dates come from the clock *)
(* ===================================================================== *)

Section StoredDates.

Variable server_error : database -> Foremen.statement -> option Z.
Variable chit_server_error : list chit_row -> list dividend_row ->
                             Dharmareddy.statement -> option Z.

(** The dividends the loop writes carry the day of the clock. *)
Lemma record_dividends_run (chit : string) (members : list Z) (winner : Z)
  (auction_date : date) (amount : num) (s : store) :
  exists new s',
    record_dividends chit_server_error chit members winner auction_date amount s = (Ok tt, s') /\
    Dividends s' = Dividends s ++ new /\
    clock s' = clock s /\
    Forall (fun r => dv_distribution_date r = dt_date (clock s) /\
                     dv_auction_date r = auction_date /\
                     dv_dividend_amount r = amount /\
                     dv_member_id r <> winner) new.
Proof.
  revert s. induction members as [| member others IH]; intros s.
  - exists [], s. repeat split; [now rewrite app_nil_r | constructor].
  - simpl. destruct (Z.eqb_spec member winner) as [E | E]; simpl.
    + erewrite bind_ok by reflexivity.
      destruct (IH s) as (new & s' & Hrun & Hdiv & Hclock & Hall).
      exists new, s'. auto.
    + destruct (execute_query_run chit_server_error
                  (InsertDividend (mkdividend chit member auction_date amount
                                     (dt_date (clock s)))) s)
        as (b & s1 & Hrun & Hclock & Hcases).
      erewrite bind_ok.
      2:{ erewrite bind_ok by reflexivity.
          erewrite bind_ok by exact Hrun. reflexivity. }
      destruct (IH s1) as (new & s' & Hrest & Hdiv & Hclock' & Hall).
      rewrite Hclock in Hall.
      destruct Hcases as [(_ & _ & Hd) | (_ & _ & Hd)]; simpl in Hd.
      * exists (mkdividend chit member auction_date amount (dt_date (clock s)) :: new), s'.
        split; [exact Hrest | split; [| split]].
        -- rewrite Hdiv, Hd, <- app_assoc. reflexivity.
        -- congruence.
        -- constructor; [simpl; auto | exact Hall].
      * exists new, s'.
        split; [exact Hrest | split; [| split]]; [congruence | congruence | exact Hall].
Qed.

(** C9, as the code has it.  Whatever the clock reads, [insert_group],
    [insert_enrollment] and [generate_installments_for_group] leave the
    same tables, so start, join and due dates are the caller's or
    computed from the caller's.  The clock is what [insert_payment]
    stores as [paymentDate], what [insert_subscriber] stores as
    [createdDate], and its day is what the dividend loop stores as
    [distribution_date]. *)
Theorem stored_dates_and_clock (w : world) (t : datetime) :
  (forall name value subs dur start commission,
     db (snd (insert_group server_error name value subs dur start commission (set_now t w)))
     = db (snd (insert_group server_error name value subs dur start commission w))) /\
  (forall sub g n join,
     db (snd (insert_enrollment server_error sub g n join (set_now t w)))
     = db (snd (insert_enrollment server_error sub g n join w))) /\
  (forall g s D,
     db (snd (generate_installments_for_group server_error g s D (set_now t w)))
     = db (snd (generate_installments_for_group server_error g s D w))) /\
  (forall inst sub amount notes,
     connection w = true ->
     (forall r, server_error (db w) (InsertPayment r) = None) ->
     exists w',
       insert_payment server_error inst sub amount notes (set_now t w) = (Ok true, w') /\
       InstallmentPayments (db w') =
         InstallmentPayments (db w) ++
         [mkpayment (uuid4_source w (uuid4_calls w)) inst sub t amount notes]) /\
  (forall name phone address,
     connection w = true ->
     (forall r, server_error (db w) (InsertSubscriber r) = None) ->
     exists w',
       insert_subscriber server_error name phone address (set_now t w) = (Ok true, w') /\
       Subscribers (db w') =
         Subscribers (db w) ++
         [mksubscriber (uuid4_source w (uuid4_calls w)) name phone address t true]) /\
  (forall chit members winner auction_date amount s,
     exists new s',
       record_dividends chit_server_error chit members winner auction_date amount
         (set_clock t s) = (Ok tt, s') /\
       Dividends s' = Dividends s ++ new /\
       Forall (fun r => dv_distribution_date r = dt_date t /\
                        dv_auction_date r = auction_date) new).
Proof.
  split; [| split; [| split; [| split; [| split]]]].
  - intros. apply blind_db, blind_insert_group.
  - intros. apply blind_db, blind_insert_enrollment.
  - intros. apply blind_db, blind_generate.
  - intros inst sub amount notes Hconn Hsrv.
    destruct (insert_payment_run server_error (set_now t w) inst sub amount notes)
      as (w' & Hrun & Hrows & _); [destruct w; exact Hconn | destruct w; exact Hsrv |].
    exists w'. split; [exact Hrun |]. rewrite Hrows. destruct w; reflexivity.
  - intros name phone address Hconn Hsrv.
    destruct (insert_subscriber_run server_error (set_now t w) name phone address)
      as (w' & Hrun & Hrows); [destruct w; exact Hconn | destruct w; exact Hsrv |].
    exists w'. split; [exact Hrun |]. rewrite Hrows. destruct w; reflexivity.
  - intros chit members winner auction_date amount s.
    destruct (record_dividends_run chit members winner auction_date amount (set_clock t s))
      as (new & s' & Hrun & Hdiv & _ & Hall).
    exists new, s'. split; [exact Hrun | split; [exact Hdiv |]].
    eapply Forall_impl; [| exact Hall]. simpl. intros r (H1 & H2 & _). auto.
Qed.

End StoredDates.

(** A run of C9: a payment recorded when the clock reads midnight is
    stored with midnight, after the one stored at noon; the installments
    generated at noon and at midnight are the same rows. *)
Lemma stored_dates_and_clock_witness :
  (exists w',
     insert_payment willing_server 30 10 5000 EmptyString (set_now midnight underpaid_world)
       = (Ok true, w') /\
     map p_paymentDate (InstallmentPayments (db w')) = [noon; midnight]) /\
  db (snd (generate_installments_for_group willing_server 7 (mkdate 2025 1 31) 3
             (set_now midnight fresh_world)))
  = db (snd (generate_installments_for_group willing_server 7 (mkdate 2025 1 31) 3
               fresh_world)).
Proof.
  destruct (stored_dates_and_clock willing_server willing_chit_server underpaid_world midnight)
    as (_ & _ & _ & Hpay & _).
  destruct (stored_dates_and_clock willing_server willing_chit_server fresh_world midnight)
    as (_ & _ & Hgen & _).
  destruct (Hpay 30%N 10%N 5000%float EmptyString eq_refl (fun _ => eq_refl))
    as (w' & Hrun & Hrows).
  split; [| apply Hgen].
  exists w'. split; [exact Hrun |]. rewrite Hrows. reflexivity.
Defined.

(** C9 as it is stated fails for the payment date: the same payment,
    recorded through the same form with the same inputs, is stored with
    noon of May 15 when the clock reads that and with midnight of May 16
    when it reads that.  The caller supplies no date. *)
Lemma payment_date_is_the_clock :
  map p_paymentDate
    (InstallmentPayments
       (db (snd (record_payment_form willing_server 30 10 5000 EmptyString true fresh_world))))
    = [noon] /\
  map p_paymentDate
    (InstallmentPayments
       (db (snd (record_payment_form willing_server 30 10 5000 EmptyString true
                   (set_now midnight fresh_world)))))
    = [midnight] /\
  noon <> midnight.
Proof. repeat split; try (vm_compute; reflexivity). discriminate. Qed.

(** A run of C5 in [underpaid_world], where the installment expected from
    each member is 5000: Asha, who paid 100, is "Paid"; Ravi, who paid
    nothing, is "Due". *)
Lemma payment_status_binary_witness :
  exists entries w',
    get_payment_status_for_installment willing_server 1 1 underpaid_world = (Ok entries, w') /\
    entries = [mkstatus "Asha" 1 "Paid" (PyFloat 100); mkstatus "Ravi" 2 "Due" (PyInt 0)].
Proof.
  assert (Henr : NoDup (map e_id (Enrollments (db underpaid_world)))).
  { simpl. repeat constructor; simpl; intuition discriminate. }
  assert (Hsub : NoDup (map s_id (Subscribers (db underpaid_world)))).
  { simpl. repeat constructor; simpl; intuition discriminate. }
  destruct (payment_status_binary willing_server underpaid_world 1 1 30
              eq_refl eq_refl eq_refl eq_refl Henr Hsub)
    as (entries & w' & Hrun & _).
  exists entries, w'. split; [exact Hrun |].
  vm_compute in Hrun. congruence.
Defined.

(* ===================================================================== *)
(** * Months forwards and backwards *)
(* ===================================================================== *)

Import Pages.

Section MonthsBothWays.

(** Counted in months since year 0, [add_months] adds exactly [n]. *)
Lemma target_month_index (d : date) (n : Z) :
  12 * target_year d n + target_month d n = month_index d + n.
Proof.
  unfold target_year, target_month, month_index.
  pose proof (Z.div_mod (month d - 1 + n) 12 ltac:(lia)) as H.
  remember ((month d - 1 + n) / 12) as q. remember ((month d - 1 + n) mod 12) as r.
  lia.
Qed.

Lemma add_months_reaches (d : date) (n : Z) :
  valid_date d = true ->
  MINYEAR <= target_year d n <= MAXYEAR ->
  add_months d n = Ok (months_later d n) /\ valid_date (months_later d n) = true.
Proof.
  intros Hv Hy. rewrite (add_months_cases d n Hv). unfold months_later, valid_date.
  destruct (valid_date_fields d Hv) as (Hyear & Hmonth & Hday).
  pose proof (target_month_range d n) as Hm.
  pose proof (days_in_month_bounds (target_year d n) _ Hm) as Hb.
  rewrite fits_c_int_intro by (unfold INT_MIN, INT_MAX, MINYEAR, MAXYEAR in *; lia).
  replace (MINYEAR <=? target_year d n) with true by (symmetry; apply Z.leb_le; lia).
  replace (target_year d n <=? MAXYEAR) with true by (symmetry; apply Z.leb_le; lia).
  simpl. rewrite date_fields_ok_intro; [split; reflexivity | lia | lia | lia].
Qed.

(** Outside the calendar, and as long as the year reached is a C [int],
    the constructor raises [ValueError]. *)
Lemma add_months_outside (d : date) (n : Z) :
  valid_date d = true ->
  INT_MIN <= target_year d n < MINYEAR \/ MAXYEAR < target_year d n <= INT_MAX ->
  add_months d n = Raise ValueError.
Proof.
  intros Hv Hy. rewrite (add_months_cases d n Hv).
  rewrite fits_c_int_intro by (unfold INT_MIN, INT_MAX, MINYEAR, MAXYEAR in *; lia).
  destruct Hy as [Hy | Hy].
  - replace (MINYEAR <=? target_year d n) with false by (symmetry; apply Z.leb_gt; lia).
    reflexivity.
  - replace (target_year d n <=? MAXYEAR) with false by (symmetry; apply Z.leb_gt; lia).
    rewrite andb_false_r. reflexivity.
Qed.

(** [add_months] returns a date, or raises one of two exceptions. *)
Lemma add_months_total (s : date) (n : Z) :
  add_months s n = Raise ValueError \/ add_months s n = Raise OverflowError \/
  exists dd, add_months s n = Ok dd.
Proof.
  rewrite add_months_unfold. unfold datetime_date.
  destruct (_ && _); [| auto].
  destruct (date_fields_ok _ _ _); [right; right; eexists; reflexivity | now left].
Qed.

Lemma add_months_ok_inv (d r : date) (n : Z) :
  valid_date d = true ->
  add_months d n = Ok r ->
  r = months_later d n /\ MINYEAR <= target_year d n <= MAXYEAR /\ valid_date r = true.
Proof.
  intros Hv Hrun.
  assert (Hy : MINYEAR <= target_year d n <= MAXYEAR).
  { rewrite (add_months_cases d n Hv) in Hrun.
    destruct (fits_c_int _); [| discriminate].
    destruct (_ && _) eqn:Hrange; [| discriminate].
    apply andb_prop in Hrange as [H1 H2]. apply Z.leb_le in H1. apply Z.leb_le in H2. lia. }
  destruct (add_months_reaches d n Hv Hy) as [Hok Hvalid].
  rewrite Hok in Hrun. injection Hrun as <-. repeat split; try assumption; lia.
Qed.

Lemma month_index_months_later (d : date) (n : Z) :
  month_index (months_later d n) = month_index d + n.
Proof. unfold months_later, month_index at 1. simpl. apply target_month_index. Qed.

(** A year and a month are determined by the months since year 0. *)
Lemma month_index_inj (y1 m1 y2 m2 : Z) :
  1 <= m1 <= 12 -> 1 <= m2 <= 12 -> 12 * y1 + m1 = 12 * y2 + m2 -> y1 = y2 /\ m1 = m2.
Proof. lia. Qed.

End MonthsBothWays.

(** X1.  [add_months] for any whole number of months, negative ones
    included, from a date [d]: when the year reached lies in 1..9999 the
    result is the date of the month reached with the day of [d], or the
    last day of that month when it is shorter; otherwise the call raises,
    [ValueError] while the year reached is a C [int] (from -2147483648 to
    2147483647) and [OverflowError] beyond.  It never raises
    [IllegalMonthError].  Whatever it returns is a date that
    [datetime.date] holds, exactly [n] months from [d] when counted in
    months since year 0, and never on a later day of the month than [d]. *)
Theorem add_months_any_direction (d : date) (n : Z) :
  valid_date d = true ->
  (MINYEAR <= target_year d n <= MAXYEAR -> add_months d n = Ok (months_later d n)) /\
  (INT_MIN <= target_year d n < MINYEAR \/ MAXYEAR < target_year d n <= INT_MAX ->
   add_months d n = Raise ValueError) /\
  (target_year d n < INT_MIN \/ INT_MAX < target_year d n ->
   add_months d n = Raise OverflowError) /\
  add_months d n <> Raise IllegalMonthError /\
  (forall r, add_months d n = Ok r ->
     valid_date r = true /\
     month_index r = month_index d + n /\
     day r = Z.min (day d) (days_in_month (year r) (month r)) /\
     day r <= day d).
Proof.
  intros Hv. split; [| split; [| split; [| split]]].
  - intros Hy. now apply add_months_reaches.
  - now apply add_months_outside.
  - now apply add_months_overflow.
  - destruct (add_months_total d n) as [-> | [-> | [dd ->]]]; discriminate.
  - intros r Hrun. destruct (add_months_ok_inv d r n Hv Hrun) as (-> & Hy & Hvalid).
    split; [exact Hvalid | split; [apply month_index_months_later | split]].
    + reflexivity.
    + simpl. lia.
Qed.

(** A run of X1: one month back from March 31 and from January 15, and
    one month back from the first day of the calendar. *)
Lemma add_months_any_direction_witness :
  add_months (mkdate 2025 3 31) (-1) = Ok (mkdate 2025 2 28) /\
  add_months (mkdate 2025 1 15) (-1) = Ok (mkdate 2024 12 15) /\
  add_months (mkdate 1 1 1) (-1) = Raise ValueError /\
  add_months (mkdate 2025 1 1) (-12 * 2 ^ 32) = Raise OverflowError.
Proof.
  destruct (add_months_any_direction (mkdate 2025 3 31) (-1) eq_refl) as (A & _).
  destruct (add_months_any_direction (mkdate 2025 1 15) (-1) eq_refl) as (B & _).
  destruct (add_months_any_direction (mkdate 1 1 1) (-1) eq_refl) as (_ & C & _).
  destruct (add_months_any_direction (mkdate 2025 1 1) (-12 * 2 ^ 32) eq_refl)
    as (_ & _ & D & _).
  exact (conj (A ltac:(vm_compute; split; discriminate))
          (conj (B ltac:(vm_compute; split; discriminate))
             (conj (C ltac:(left; vm_compute; split; [discriminate | reflexivity]))
                (D ltac:(left; vm_compute; reflexivity))))).
Defined.

(** X2.  Advancing a date in two steps reaches the same month and year
    as advancing it once by the sum, on a day that is never later; when
    the day of the start date is at most 28 the two dates are the same.
    So a schedule computed step by step from the previous due date could
    only lose days against one computed from the start date, as
    [generate_installments_for_group] does it. *)
Theorem add_months_in_two_steps (d d1 d2 : date) (a b : Z) :
  valid_date d = true ->
  add_months d a = Ok d1 ->
  add_months d1 b = Ok d2 ->
  exists d3,
    add_months d (a + b) = Ok d3 /\
    year d3 = year d2 /\ month d3 = month d2 /\
    day d2 <= day d3 /\
    (day d <= 28 -> d3 = d2).
Proof.
  intros Hv H1 H2.
  destruct (add_months_ok_inv d d1 a Hv H1) as (-> & Hy1 & Hv1).
  destruct (add_months_ok_inv _ d2 b Hv1 H2) as (-> & Hy2 & Hv2).
  pose proof (month_index_months_later d a) as Ha.
  pose proof (target_month_index (months_later d a) b) as Hb.
  pose proof (target_month_index d (a + b)) as Hab.
  destruct (month_index_inj (target_year (months_later d a) b) (target_month (months_later d a) b)
              (target_year d (a + b)) (target_month d (a + b))
              (target_month_range _ _) (target_month_range _ _) ltac:(lia)) as [Ey Em].
  destruct (add_months_reaches d (a + b) Hv ltac:(lia)) as [Hok _].
  exists (months_later d (a + b)). split; [exact Hok |].
  destruct (valid_date_fields d Hv) as (_ & _ & Hday).
  pose proof (days_in_month_bounds (target_year d a) _ (target_month_range d a)) as B1.
  pose proof (days_in_month_bounds (target_year d (a + b)) _ (target_month_range d (a + b))) as B2.
  assert (Hd1 : day (months_later d a)
               = Z.min (day d) (days_in_month (target_year d a) (target_month d a)))
    by reflexivity.
  assert (E : months_later (months_later d a) b
              = mkdate (target_year d (a + b)) (target_month d (a + b))
                  (Z.min (day (months_later d a))
                     (days_in_month (target_year d (a + b)) (target_month d (a + b))))).
  { unfold months_later at 1. now rewrite Ey, Em. }
  rewrite E, Hd1. unfold months_later. cbn [year month day].
  remember (days_in_month (target_year d a) (target_month d a)) as n1.
  remember (days_in_month (target_year d (a + b)) (target_month d (a + b))) as n2.
  split; [reflexivity | split; [reflexivity | split]].
  - lia.
  - intros H28. f_equal. lia.
Qed.

(** A run of X2 from January 31: by one month and one month the date is
    March 28, by two months at once it is March 31. *)
Lemma add_months_in_two_steps_witness :
  exists d3,
    add_months (mkdate 2025 1 31) (1 + 1) = Ok d3 /\
    year d3 = 2025 /\ month d3 = 3 /\ 28 <= day d3 /\ d3 = mkdate 2025 3 31.
Proof.
  destruct (add_months_in_two_steps (mkdate 2025 1 31) (mkdate 2025 2 28) (mkdate 2025 3 28)
              1 1 eq_refl eq_refl eq_refl) as (d3 & Hrun & Hy & Hm & Hd & _).
  exists d3. repeat split; try assumption.
  vm_compute in Hrun. congruence.
Defined.

(* ===================================================================== *)
(** * The schedule, row by row *)
(* ===================================================================== *)

Section ScheduleRows.

Variable server_error : database -> statement -> option Z.

Lemma set_uuid4_calls_twice (a b : nat) (w : world) :
  set_uuid4_calls b (set_uuid4_calls a w) = set_uuid4_calls b w.
Proof. reflexivity. Qed.

(** The loop of the schedule, as long as every month lies within the
    calendar: one identifier per month, in the order of the draws. *)
Lemma installment_values_rows (g : uuid) (s : date) (months : list Z) (w : world) :
  valid_date s = true ->
  (forall m, In m months -> MINYEAR <= target_year s (m - 1) <= MAXYEAR) ->
  installment_values g s months w =
    (Ok (schedule_rows g s (uuid4_source w) (uuid4_calls w) months),
     set_uuid4_calls (uuid4_calls w + List.length months)%nat w).
Proof.
  intros Hv. revert w. induction months as [| m later IH]; intros w Hrange.
  - simpl. unfold ret. destruct w; unfold set_uuid4_calls; simpl.
    now rewrite Nat.add_0_r.
  - simpl. erewrite bind_ok by reflexivity.
    destruct (add_months_reaches s (m - 1) Hv (Hrange m (or_introl eq_refl))) as [Hok _].
    erewrite bind_ok by (unfold lift; rewrite Hok; reflexivity).
    erewrite bind_ok by (apply IH; intros m' Hm'; apply Hrange; now right).
    unfold ret. destruct w; unfold set_uuid4_calls; simpl.
    now rewrite Nat.add_succ_r.
Qed.

(** The loop for any start value and any months: it writes nothing, and
    ends with the rows of the months or with an exception of
    [add_months]. *)
Lemma installment_values_outcome (g : uuid) (s : date) (months : list Z) (w : world) :
  exists r w',
    installment_values g s months w = (r, w') /\
    db w' = db w /\ connection w' = connection w /\ screen w' = screen w /\
    (r = Raise ValueError \/ r = Raise OverflowError \/
     exists rows, r = Ok rows /\ map i_monthNumber rows = months /\
                  Forall (fun x => i_groupId x = g) rows).
Proof.
  revert w. induction months as [| m later IH]; intros w.
  - exists (Ok []), w. repeat split. right. right. exists []. repeat split. constructor.
  - simpl. erewrite bind_ok by reflexivity.
    destruct (add_months_total s (m - 1)) as [Hbad | [Hbad | [dd Hok]]].
    + erewrite bind_raise by (unfold lift; rewrite Hbad; reflexivity).
      eexists _, _. split; [reflexivity |]. repeat split. now left.
    + erewrite bind_raise by (unfold lift; rewrite Hbad; reflexivity).
      eexists _, _. split; [reflexivity |]. repeat split. right. now left.
    + erewrite bind_ok by (unfold lift; rewrite Hok; reflexivity).
      destruct (IH (set_uuid4_calls (S (uuid4_calls w)) w))
        as (r & w' & Hrun & Hdb & Hconn & Hscr & Hr).
      destruct Hr as [-> | [-> | (rows & -> & Hmonths & Hall)]].
      * erewrite bind_raise by exact Hrun.
        exists (Raise ValueError), w'. repeat split; try assumption. now left.
      * erewrite bind_raise by exact Hrun.
        exists (Raise OverflowError), w'. repeat split; try assumption. right. now left.
      * erewrite bind_ok by exact Hrun.
        eexists _, w'. split; [reflexivity |]. repeat split; try assumption.
        right. right. eexists. split; [reflexivity |]. split.
        -- simpl. now rewrite Hmonths.
        -- constructor; [reflexivity | exact Hall].
Qed.

(** From a start date the loop of the schedule never meets a year that
    is no C [int]: it stops at year 10000 at the latest. *)
Lemma schedule_never_overflows (g : uuid) (s : date) (D : Z) (w w' : world) :
  valid_date s = true ->
  installment_values g s (py_range 1 (D + 1)) w <> (Raise OverflowError, w').
Proof.
  intros Hv.
  destruct (Z_lt_ge_dec D 1) as [Hnone | HD].
  { unfold py_range. replace (Z.to_nat (D + 1 - 1)) with 0%nat by lia. discriminate. }
  destruct (Z_le_gt_dec (target_year s (D - 1)) MAXYEAR) as [Hin | Hpast].
  - rewrite installment_values_rows; [discriminate | exact Hv |].
    intros m Hm. apply py_range_In in Hm.
    destruct (valid_date_fields s Hv) as (Hyear & _).
    pose proof (target_year_mono s 0 (m - 1) ltac:(lia)) as Hlow.
    pose proof (target_year_mono s (m - 1) (D - 1) ltac:(lia)) as Hhigh.
    assert (H0 : target_year s 0 = year s).
    { unfold target_year. destruct (valid_date_fields s Hv) as (_ & Hmonth & _).
      rewrite Z.add_0_r, Z.div_small by lia. lia. }
    lia.
  - destruct (installment_values_past_maxyear g s D w Hv ltac:(lia) ltac:(lia))
      as (w1 & Hrun & _).
    rewrite Hrun. discriminate.
Qed.

Lemma schedule_rows_length (g : uuid) (s : date) (src : nat -> uuid) (c : nat)
  (months : list Z) :
  List.length (schedule_rows g s src c months) = List.length months.
Proof.
  revert c. induction months as [| m later IH]; intros c; simpl; [reflexivity |].
  now rewrite IH.
Qed.

Lemma schedule_rows_nth (g : uuid) (s : date) (src : nat -> uuid) (c : nat)
  (months : list Z) (k : nat) (r : installment_row) :
  nth_error (schedule_rows g s src c months) k = Some r ->
  exists m, nth_error months k = Some m /\
            r = mkinstallment (src (c + k)%nat) g m (due_date_of s m) false None None false.
Proof.
  revert c k. induction months as [| m later IH]; intros c k Hk.
  - destruct k; discriminate.
  - destruct k as [| k]; simpl in Hk.
    + injection Hk as <-. exists m. split; [reflexivity |]. now rewrite Nat.add_0_r.
    + destruct (IH (S c) k Hk) as (m' & Hm' & ->).
      exists m'. split; [exact Hm' |]. now rewrite Nat.add_succ_r.
Qed.

Lemma schedule_rows_group (g : uuid) (s : date) (src : nat -> uuid) (c : nat)
  (months : list Z) :
  filter (fun i => (i_groupId i =? g)%N) (schedule_rows g s src c months)
  = schedule_rows g s src c months.
Proof.
  revert c. induction months as [| m later IH]; intros c; simpl; [reflexivity |].
  now rewrite N.eqb_refl, IH.
Qed.

Lemma schedule_rows_ids (g : uuid) (s : date) (src : nat -> uuid) (c : nat)
  (months : list Z) :
  map i_id (schedule_rows g s src c months) = map src (seq c (List.length months)).
Proof.
  revert c. induction months as [| m later IH]; intros c; simpl; [reflexivity |].
  now rewrite IH.
Qed.

(** The rows of month [m] among those made for the months
    [a + 1, ..., a + n]. *)
Lemma schedule_rows_month (g : uuid) (s : date) (src : nat -> uuid) (c a n : nat) (m : Z) :
  map i_id
    (filter (fun i => (i_groupId i =? g)%N && (i_monthNumber i =? m))
       (schedule_rows g s src c (map (fun i => 1 + Z.of_nat i) (seq a n))))
  = if (Z.of_nat a + 1 <=? m) && (m <=? Z.of_nat a + Z.of_nat n)
    then [src (c + (Z.to_nat (m - 1) - a))%nat]
    else [].
Proof.
  revert c a. induction n as [| n IH]; intros c a.
  - cbn [seq map schedule_rows filter].
    destruct ((Z.of_nat a + 1 <=? m) && (m <=? Z.of_nat a + Z.of_nat 0)) eqn:Hc;
      [| reflexivity].
    apply andb_prop in Hc as [H1 H2]. apply Z.leb_le in H1, H2. lia.
  - cbn [seq map schedule_rows filter i_groupId i_monthNumber].
    rewrite N.eqb_refl. cbn [andb].
    assert (Hrest : map i_id
              (filter (fun i => (i_groupId i =? g)%N && (i_monthNumber i =? m))
                 (schedule_rows g s src (S c) (map (fun i => 1 + Z.of_nat i) (seq (S a) n))))
              = if (Z.of_nat (S a) + 1 <=? m) && (m <=? Z.of_nat (S a) + Z.of_nat n)
                then [src (S c + (Z.to_nat (m - 1) - S a))%nat] else []) by apply IH.
    destruct (Z.eqb_spec (1 + Z.of_nat a) m) as [E | E].
    + cbn [map i_id]. rewrite Hrest.
      replace ((Z.of_nat (S a) + 1 <=? m) && (m <=? Z.of_nat (S a) + Z.of_nat n)) with false
        by (symmetry; apply andb_false_iff; left; apply Z.leb_gt; lia).
      replace ((Z.of_nat a + 1 <=? m) && (m <=? Z.of_nat a + Z.of_nat (S n))) with true
        by (symmetry; apply andb_true_iff; split; apply Z.leb_le; lia).
      f_equal. f_equal. lia.
    + rewrite Hrest.
      destruct ((Z.of_nat (S a) + 1 <=? m) && (m <=? Z.of_nat (S a) + Z.of_nat n)) eqn:Hc.
      * apply andb_prop in Hc as [H1 H2]. apply Z.leb_le in H1, H2.
        replace ((Z.of_nat a + 1 <=? m) && (m <=? Z.of_nat a + Z.of_nat (S n))) with true
          by (symmetry; apply andb_true_iff; split; apply Z.leb_le; lia).
        f_equal. f_equal. lia.
      * replace ((Z.of_nat a + 1 <=? m) && (m <=? Z.of_nat a + Z.of_nat (S n))) with false;
          [reflexivity |].
        symmetry. apply andb_false_iff. apply andb_false_iff in Hc as [Hc | Hc];
          apply Z.leb_gt in Hc; [left | right]; apply Z.leb_gt; lia.
Qed.

Lemma NoDup_map_injective {A B : Type} (f : A -> B) (l : list A) :
  (forall i j, f i = f j -> i = j) -> NoDup l -> NoDup (map f l).
Proof.
  intros Hinj. induction 1 as [| x l Hx _ IH]; simpl; constructor; [| exact IH].
  intros Hin. apply in_map_iff in Hin as (y & Hy & Hin).
  apply Hinj in Hy. now subst.
Qed.

Lemma filter_none {A : Type} (p q : A -> bool) (l : list A) :
  filter p l = [] -> filter (fun x => p x && q x) l = [].
Proof.
  induction l as [| x l IH]; simpl; [reflexivity |].
  destruct (p x); simpl; [discriminate | exact IH].
Qed.

Lemma executemany_run (rows : list installment_row) (w : world) :
  rows <> [] ->
  server_error (db w) (InsertInstallments rows) = None ->
  executemany server_error rows w =
    (Ok tt, set_db (Foremen.apply_statement (InsertInstallments rows) (db w)) w).
Proof.
  intros Hne Hsrv. destruct rows as [| r rows]; [congruence |].
  unfold executemany, Foremen.execute. now rewrite Hsrv.
Qed.

(** The whole call on a group without installments, when every due date
    lies within the calendar and the server takes the two statements. *)
Lemma generate_run (w : world) (g : uuid) (s : date) (D : Z) :
  connection w = true ->
  valid_date s = true ->
  1 <= D ->
  target_year s (D - 1) <= MAXYEAR ->
  count_installments (db w) g = 0 ->
  server_error (db w) (CountInstallments g) = None ->
  (forall rows, server_error (db w) (InsertInstallments rows) = None) ->
  generate_installments_for_group server_error g s D w =
    (Ok true,
     mkworld true
       (with_installments
          (Installments (db w) ++
           schedule_rows g s (uuid4_source w) (uuid4_calls w) (py_range 1 (D + 1)))
          (db w))
       (now w) (uuid4_source w)
       (uuid4_calls w + List.length (py_range 1 (D + 1)))%nat
       (screen w ++ [(Success, [Txt "Generated "; Int D; Txt " installments for the group."])])
       (connect_error w)).
Proof.
  intros Hconn Hvalid HD Hyear Hnone Hcount Hinsert.
  destruct w as [conn d t src calls scr cerr]. simpl in *. subst conn.
  unfold generate_installments_for_group.
  erewrite bind_ok by reflexivity. cbn [negb].
  apply try_ok.
  erewrite bind_ok by (unfold Foremen.execute; simpl; rewrite Hcount; reflexivity).
  erewrite bind_ok by reflexivity.
  simpl. rewrite Hnone. simpl.
  erewrite bind_ok.
  2:{ apply installment_values_rows; [exact Hvalid |].
      intros m Hm. apply py_range_In in Hm.
      destruct (valid_date_fields s Hvalid) as (Hy & Hmo & _).
      split.
      - unfold target_year. pose proof (Z.div_pos (month s - 1 + (m - 1)) 12). lia.
      - etransitivity; [apply (target_year_mono s (m - 1) (D - 1)); lia | exact Hyear]. }
  simpl.
  assert (Hne : schedule_rows g s src calls (py_range 1 (D + 1)) <> []).
  { intros E. apply (f_equal (@List.length _)) in E.
    rewrite schedule_rows_length in E. simpl in E.
    pose proof (py_range_length 1 (D + 1) ltac:(lia)). lia. }
  erewrite bind_ok by (apply executemany_run; [exact Hne | apply Hinsert]).
  reflexivity.
Qed.

End ScheduleRows.

Section ScheduleFacts.

Variable server_error : database -> statement -> option Z.

Lemma date_ltb_month_index (a b : date) :
  1 <= month a <= 12 -> 1 <= month b <= 12 ->
  month_index a < month_index b -> date_ltb a b = true.
Proof.
  unfold month_index, date_ltb. intros Ha Hb Hlt.
  destruct (Z.ltb_spec (year a) (year b)) as [Hy | Hy]; [reflexivity |].
  assert (Ey : year a = year b) by lia.
  apply Z.eqb_eq in Ey. rewrite Ey. apply Z.eqb_eq in Ey.
  assert (Hm : month a < month b) by lia.
  apply Z.ltb_lt in Hm. now rewrite Hm.
Qed.

Lemma date_ltb_irrefl (a : date) : date_ltb a a = false.
Proof.
  unfold date_ltb. rewrite !Z.ltb_irrefl, !Z.eqb_refl. reflexivity.
Qed.

(** X3.  In a world with a connection, for a group without installments,
    a start date [s], a duration [D >= 1] whose last due month is not
    after year 9999, and a server that takes the two statements: the due
    date of the row at position [k] lies in the calendar month that is
    exactly [k] months after the month of [s] (no month is skipped and none
    comes twice), on the day of [s] or the last day of a shorter month; and
    the due dates strictly increase along the schedule. *)
Theorem generated_due_dates_advance (w : world) (g : uuid) (s : date) (D : Z) :
  connection w = true ->
  valid_date s = true ->
  1 <= D ->
  target_year s (D - 1) <= MAXYEAR ->
  count_installments (db w) g = 0 ->
  server_error (db w) (CountInstallments g) = None ->
  (forall rows, server_error (db w) (InsertInstallments rows) = None) ->
  exists rows w',
    generate_installments_for_group server_error g s D w = (Ok true, w') /\
    Installments (db w') = Installments (db w) ++ rows /\
    (forall k r, nth_error rows k = Some r ->
       i_monthNumber r = Z.of_nat k + 1 /\
       i_dueDate r = months_later s (Z.of_nat k) /\
       month_index (i_dueDate r) = month_index s + Z.of_nat k) /\
    (forall j k rj rk,
       nth_error rows j = Some rj -> nth_error rows k = Some rk -> (j < k)%nat ->
       date_ltb (i_dueDate rj) (i_dueDate rk) = true /\
       date_ltb (i_dueDate rk) (i_dueDate rj) = false /\
       i_dueDate rj <> i_dueDate rk).
Proof.
  intros Hconn Hvalid HD Hyear Hnone Hcount Hinsert.
  eexists _, _. split; [now apply generate_run |].
  split; [reflexivity |].
  assert (Hrow : forall k r,
             nth_error (schedule_rows g s (uuid4_source w) (uuid4_calls w)
                          (py_range 1 (D + 1))) k = Some r ->
             i_monthNumber r = Z.of_nat k + 1 /\
             i_dueDate r = months_later s (Z.of_nat k) /\
             month_index (i_dueDate r) = month_index s + Z.of_nat k).
  { intros k r Hk. destruct (schedule_rows_nth _ _ _ _ _ _ _ Hk) as (m & Hm & ->).
    assert (Hlt : (k < List.length (py_range 1 (D + 1)))%nat)
      by (apply nth_error_Some; congruence).
    pose proof (py_range_length 1 (D + 1) ltac:(lia)) as Hlen.
    rewrite py_range_nth in Hm by lia.
    assert (Em : m = 1 + Z.of_nat k) by congruence. subst m.
    cbn [i_monthNumber i_dueDate]. unfold due_date_of.
    replace (1 + Z.of_nat k - 1) with (Z.of_nat k) by lia.
    split; [lia | split; [reflexivity | apply month_index_months_later]]. }
  split; [exact Hrow |].
  intros j k rj rk Hj Hk Hjk.
  destruct (Hrow j rj Hj) as (_ & Ej & Ij). destruct (Hrow k rk Hk) as (_ & Ek & Ik).
  assert (Hlt : date_ltb (i_dueDate rj) (i_dueDate rk) = true).
  { apply date_ltb_month_index; [| | lia].
    - rewrite Ej. apply target_month_range.
    - rewrite Ek. apply target_month_range. }
  split; [exact Hlt | split].
  - unfold date_ltb.
    assert (Hidx : month_index (i_dueDate rj) < month_index (i_dueDate rk)) by lia.
    unfold month_index in Hidx.
    assert (Mj : 1 <= month (i_dueDate rj) <= 12) by (rewrite Ej; apply target_month_range).
    assert (Mk : 1 <= month (i_dueDate rk) <= 12) by (rewrite Ek; apply target_month_range).
    destruct (Z.ltb_spec (year (i_dueDate rk)) (year (i_dueDate rj))); [lia |].
    destruct (Z.eqb_spec (year (i_dueDate rk)) (year (i_dueDate rj))); [| reflexivity].
    destruct (Z.ltb_spec (month (i_dueDate rk)) (month (i_dueDate rj))); [lia |].
    destruct (Z.eqb_spec (month (i_dueDate rk)) (month (i_dueDate rj))); [lia | reflexivity].
  - intros E. rewrite E, date_ltb_irrefl in Hlt. discriminate.
Qed.

(** X4.  Under the same conditions the schedule can be looked up by
    month: right after the call, the query that the status page starts
    with, [SELECT id FROM Installments WHERE groupId = g AND monthNumber =
    m], finds exactly one installment for every month [m] of 1..D, the one
    with the identifier of draw [m - 1], and none for any other month.  The
    call draws exactly [D] identifiers, which are pairwise different when
    the source never repeats itself. *)
Theorem generated_months_are_unique (w : world) (g : uuid) (s : date) (D : Z) :
  connection w = true ->
  valid_date s = true ->
  1 <= D ->
  target_year s (D - 1) <= MAXYEAR ->
  count_installments (db w) g = 0 ->
  server_error (db w) (CountInstallments g) = None ->
  (forall rows, server_error (db w) (InsertInstallments rows) = None) ->
  exists rows w',
    generate_installments_for_group server_error g s D w = (Ok true, w') /\
    Installments (db w') = Installments (db w) ++ rows /\
    (forall m,
       select_installment_id (db w') g m =
       if (1 <=? m) && (m <=? D)
       then [uuid4_source w (uuid4_calls w + Z.to_nat (m - 1))%nat]
       else []) /\
    uuid4_calls w' = (uuid4_calls w + Z.to_nat D)%nat /\
    ((forall i j, uuid4_source w i = uuid4_source w j -> i = j) ->
     NoDup (map i_id rows)).
Proof.
  intros Hconn Hvalid HD Hyear Hnone Hcount Hinsert.
  eexists _, _. split; [now apply generate_run |].
  split; [reflexivity |].
  pose proof (py_range_length 1 (D + 1) ltac:(lia)) as Hlen.
  split; [| split].
  - intros m. unfold select_installment_id. cbn [db with_installments Installments].
    rewrite filter_app, map_app.
    rewrite (filter_none _ _ _ (count_zero_filter _ _ Hnone)). cbn [map app].
    unfold py_range.
    rewrite (schedule_rows_month g s (uuid4_source w) (uuid4_calls w) 0 (Z.to_nat (D + 1 - 1)) m).
    replace (Z.of_nat 0 + 1 <=? m) with (1 <=? m) by reflexivity.
    replace (Z.of_nat 0 + Z.of_nat (Z.to_nat (D + 1 - 1))) with D by lia.
    now rewrite Nat.sub_0_r.
  - cbn [uuid4_calls]. f_equal. lia.
  - intros Hinj. rewrite schedule_rows_ids.
    apply NoDup_map_injective; [exact Hinj | apply seq_NoDup].
Qed.

(** X5.  A duration of zero or less, which the page never passes on but
    the function accepts: in a world with a connection, for a group
    without installments whose count the server answers, the call sends no
    INSERT, draws no identifier and leaves the tables as they were, and yet
    returns [True] with the message "Generated D installments for the
    group.", whatever the start value is and whatever the server would say
    to an INSERT. *)
Theorem generate_nothing_for_no_duration (w : world) (g : uuid) (s : date) (D : Z) :
  connection w = true ->
  D <= 0 ->
  count_installments (db w) g = 0 ->
  server_error (db w) (CountInstallments g) = None ->
  generate_installments_for_group server_error g s D w =
    (Ok true,
     shown Success [Txt "Generated "; Int D; Txt " installments for the group."] w).
Proof.
  intros Hconn HD Hnone Hcount.
  destruct w as [conn d t src calls scr cerr]. simpl in *. subst conn.
  unfold generate_installments_for_group.
  erewrite bind_ok by reflexivity. cbn [negb].
  apply try_ok.
  erewrite bind_ok by (unfold Foremen.execute; simpl; rewrite Hcount; reflexivity).
  erewrite bind_ok by reflexivity.
  simpl. rewrite Hnone. simpl.
  assert (Hempty : py_range 1 (D + 1) = []).
  { unfold py_range. replace (Z.to_nat (D + 1 - 1)) with 0%nat by lia. reflexivity. }
  rewrite Hempty. destruct d; reflexivity.
Qed.

(** The call in any world. *)
Lemma generate_outcome (w : world) (g : uuid) (s : date) (D : Z) :
  exists r w',
    generate_installments_for_group server_error g s D w = (r, w') /\
    (valid_date s = true -> r = Ok true \/ r = Ok false \/ r = Raise ValueError) /\
    (db w' = db w \/
     (r = Ok true /\ count_installments (db w) g = 0 /\
      exists rows,
        db w' = with_installments (Installments (db w) ++ rows) (db w) /\
        Z.of_nat (List.length rows) = D /\
        map i_monthNumber rows = py_range 1 (D + 1) /\
        Forall (fun x => i_groupId x = g) rows)) /\
    (r <> Ok true -> db w' = db w).
Proof.
  destruct w as [conn d t src calls scr cerr].
  unfold generate_installments_for_group.
  destruct conn.
  2:{ erewrite bind_ok by reflexivity. cbn [negb].
      eexists _, _. split; [reflexivity |]. simpl. auto 6. }
  erewrite bind_ok by reflexivity. cbn [negb].
  destruct (server_error d (CountInstallments g)) as [errno |] eqn:Hcount.
  { erewrite try_caught.
    2:{ erewrite bind_raise; [reflexivity |].
        unfold Foremen.execute. simpl. rewrite Hcount. reflexivity. }
    eexists _, _. split; [reflexivity |]. simpl. auto 6. }
  destruct (0 <? count_installments d g) eqn:Hsome.
  { eexists _, _. split.
    - apply try_ok.
      erewrite bind_ok by (unfold Foremen.execute; simpl; rewrite Hcount; reflexivity).
      erewrite bind_ok by reflexivity.
      simpl. rewrite Hsome. reflexivity.
    - simpl. auto 6. }
  destruct (installment_values_outcome g s (py_range 1 (D + 1))
              (mkworld true d t src calls scr cerr))
    as (r & w1 & Hrun & Hdb & Hconn & _ & Hr).
  destruct w1 as [conn1 d1 t1 src1 calls1 scr1 cerr1]. simpl in Hdb, Hconn. subst d1 conn1.
  destruct Hr as [-> | [-> | (rows & -> & Hmonths & Hgroup)]].
  { eexists _, _. split.
    - eapply try_passes with (e := ValueError); [discriminate |].
      erewrite bind_ok by (unfold Foremen.execute; simpl; rewrite Hcount; reflexivity).
      erewrite bind_ok by reflexivity.
      simpl. rewrite Hsome. simpl.
      erewrite bind_raise by exact Hrun. reflexivity.
    - simpl. auto 6. }
  { eexists _, _. split.
    - eapply try_passes with (e := OverflowError); [discriminate |].
      erewrite bind_ok by (unfold Foremen.execute; simpl; rewrite Hcount; reflexivity).
      erewrite bind_ok by reflexivity.
      simpl. rewrite Hsome. simpl.
      erewrite bind_raise by exact Hrun. reflexivity.
    - simpl. split; [| split; [now left | reflexivity]].
      intros Hv. exfalso. exact (schedule_never_overflows g s D _ _ Hv Hrun). }
  destruct rows as [| row rows].
  { eexists _, _. split.
    - apply try_ok.
      erewrite bind_ok by (unfold Foremen.execute; simpl; rewrite Hcount; reflexivity).
      erewrite bind_ok by reflexivity.
      simpl. rewrite Hsome. simpl.
      erewrite bind_ok by exact Hrun. reflexivity.
    - simpl. auto 6. }
  destruct (server_error d (InsertInstallments (row :: rows))) as [errno |] eqn:Hinsert.
  { eexists _, _. split.
    - erewrite try_caught.
      2:{ erewrite bind_ok by (unfold Foremen.execute; simpl; rewrite Hcount; reflexivity).
          erewrite bind_ok by reflexivity.
          simpl. rewrite Hsome. simpl.
          erewrite bind_ok by exact Hrun.
          erewrite bind_raise; [reflexivity |].
          unfold executemany, Foremen.execute. simpl. rewrite Hinsert. reflexivity. }
      reflexivity.
    - simpl. auto 6. }
  eexists _, _. split.
  - apply try_ok.
    erewrite bind_ok by (unfold Foremen.execute; simpl; rewrite Hcount; reflexivity).
    erewrite bind_ok by reflexivity.
    simpl. rewrite Hsome. simpl.
    erewrite bind_ok by exact Hrun.
    erewrite bind_ok
      by (unfold executemany, Foremen.execute; simpl; rewrite Hinsert; reflexivity).
    reflexivity.
  - simpl. split; [auto |]. split; [| congruence].
    right. split; [reflexivity |].
    split.
    { unfold count_installments in *. apply Z.ltb_ge in Hsome.
      pose proof (Zle_0_nat (List.length (filter (fun i => (i_groupId i =? g)%N) (Installments d)))).
      lia. }
    exists (row :: rows).
    split; [reflexivity | split; [| split; assumption]].
    rewrite <- (length_map i_monthNumber), Hmonths.
    assert (HD : 1 <= D).
    { destruct (Z_lt_ge_dec D 1) as [Hlow | Hok]; [| lia].
      exfalso. unfold py_range in Hmonths.
      replace (Z.to_nat (D + 1 - 1)) with 0%nat in Hmonths by lia. discriminate. }
    rewrite py_range_length; lia.
Qed.

(** X6.  Whatever the world, the server and the arguments are, the call
    stores the whole schedule or nothing: either the tables are exactly as
    before, or the call returned [True] and appended [D] rows of the group
    with the month numbers 1..D.  When it does not return [True] the tables
    are as before.  And with a start date, which is what a [datetime.date]
    holds, it returns [True] or [False] or raises [ValueError], whatever
    the duration is: month by month the loop meets year 10000 before any
    year that is no C [int]. *)
Theorem generate_installments_all_or_nothing (w : world) (g : uuid) (s : date) (D : Z) :
  exists r w',
    generate_installments_for_group server_error g s D w = (r, w') /\
    (valid_date s = true -> r = Ok true \/ r = Ok false \/ r = Raise ValueError) /\
    (db w' = db w \/
     (r = Ok true /\
      exists rows,
        db w' = with_installments (Installments (db w) ++ rows) (db w) /\
        Z.of_nat (List.length rows) = D /\
        map i_monthNumber rows = py_range 1 (D + 1) /\
        Forall (fun x => i_groupId x = g) rows)) /\
    (r <> Ok true -> db w' = db w).
Proof.
  destruct (generate_outcome w g s D) as (r & w' & Hrun & Hr & Hdb & Hfalse).
  exists r, w'. repeat (split; [assumption |]). split; [| exact Hfalse].
  destruct Hdb as [Hdb | (Htrue & _ & Hrows)]; [now left | right; auto].
Qed.

(** X7.  Past the end of the calendar the call neither returns nor
    reports: for a start date, a duration [D >= 1] whose last due month
    falls after year 9999 and a group without installments, in a world with
    a connection whose server answers the count, the call raises the
    [ValueError] of [add_months], which its handler for database errors does
    not catch; no row is written and no message is shown. *)
Theorem generate_stops_past_the_calendar (w : world) (g : uuid) (s : date) (D : Z) :
  connection w = true ->
  valid_date s = true ->
  1 <= D ->
  MAXYEAR < target_year s (D - 1) ->
  count_installments (db w) g = 0 ->
  server_error (db w) (CountInstallments g) = None ->
  exists w',
    generate_installments_for_group server_error g s D w = (Raise ValueError, w') /\
    db w' = db w /\ screen w' = screen w.
Proof.
  intros Hconn Hvalid HD Hyear Hnone Hcount.
  destruct w as [conn d t src calls scr cerr]. simpl in *. subst conn.
  destruct (installment_values_past_maxyear g s D (mkworld true d t src calls scr cerr)
              Hvalid HD Hyear) as (w1 & Hrun & Hdb & _ & Hscr).
  exists w1. split; [| split; assumption].
  unfold generate_installments_for_group.
  erewrite bind_ok by reflexivity. cbn [negb].
  apply try_passes; [discriminate |].
  erewrite bind_ok by (unfold Foremen.execute; simpl; rewrite Hcount; reflexivity).
  erewrite bind_ok by reflexivity.
  simpl. rewrite Hnone. simpl.
  erewrite bind_raise by exact Hrun. reflexivity.
Qed.

End ScheduleFacts.

(** A run of X3: the schedule of three months from January 31. *)
Lemma generated_due_dates_advance_witness :
  exists rows w',
    generate_installments_for_group willing_server 7 (mkdate 2025 1 31) 3 fresh_world
      = (Ok true, w') /\
    map i_dueDate rows = [mkdate 2025 1 31; mkdate 2025 2 28; mkdate 2025 3 31].
Proof.
  destruct (generated_due_dates_advance willing_server fresh_world 7 (mkdate 2025 1 31) 3
              eq_refl eq_refl ltac:(lia) ltac:(vm_compute; discriminate)
              eq_refl eq_refl (fun _ => eq_refl))
    as (rows & w' & Hrun & Hrows & _).
  exists rows, w'. split; [exact Hrun |].
  vm_compute in Hrun. injection Hrun as <-. simpl in Hrows. subst rows. reflexivity.
Defined.

(** A run of X4: the three months are found, month 4 is not. *)
Lemma generated_months_are_unique_witness :
  exists w',
    generate_installments_for_group willing_server 7 (mkdate 2025 1 31) 3 fresh_world
      = (Ok true, w') /\
    select_installment_id (db w') 7 2 = [4097%N] /\
    select_installment_id (db w') 7 4 = [].
Proof.
  destruct (generated_months_are_unique willing_server fresh_world 7 (mkdate 2025 1 31) 3
              eq_refl eq_refl ltac:(lia) ltac:(vm_compute; discriminate)
              eq_refl eq_refl (fun _ => eq_refl))
    as (rows & w' & Hrun & _ & Hfind & _).
  exists w'. split; [exact Hrun | split].
  - rewrite (Hfind 2). reflexivity.
  - rewrite (Hfind 4). reflexivity.
Defined.

(** A run of X5: a duration of 0 and one of -5 in [fresh_world], with a
    server that would refuse every INSERT. *)
Lemma generate_nothing_for_no_duration_witness :
  generate_installments_for_group
    (fun _ st => match st with InsertInstallments _ => Some 1048 | _ => None end)
    7 (mkdate 2025 1 31) (-5) fresh_world
  = (Ok true,
     shown Success [Txt "Generated "; Int (-5); Txt " installments for the group."] fresh_world).
Proof.
  apply (generate_nothing_for_no_duration _ fresh_world 7 (mkdate 2025 1 31) (-5));
    [reflexivity | lia | reflexivity | reflexivity].
Defined.

(** A run of X7: two months from December 1 of 9999. *)
Lemma generate_stops_past_the_calendar_witness :
  exists w',
    generate_installments_for_group willing_server 7 (mkdate 9999 12 1) 2 fresh_world
      = (Raise ValueError, w') /\
    db w' = empty_db /\ screen w' = [].
Proof.
  destruct (generate_stops_past_the_calendar willing_server fresh_world 7 (mkdate 9999 12 1) 2
              eq_refl eq_refl ltac:(lia) ltac:(vm_compute; reflexivity) eq_refl eq_refl)
    as (w' & Hrun & Hdb & Hscr).
  exists w'. auto.
Defined.

(** A run of X6: in [fresh_world] the whole schedule of three months is
    stored; with a server that refuses the INSERT nothing is. *)
Lemma generate_installments_all_or_nothing_witness :
  (exists w',
     generate_installments_for_group willing_server 7 (mkdate 2025 1 31) 3 fresh_world
       = (Ok true, w') /\
     List.length (Installments (db w')) = 3%nat) /\
  (exists w',
     generate_installments_for_group
       (fun _ st => match st with InsertInstallments _ => Some 1048 | _ => None end)
       7 (mkdate 2025 1 31) 3 fresh_world = (Ok false, w') /\
     db w' = empty_db).
Proof.
  destruct (generate_installments_all_or_nothing willing_server fresh_world 7
              (mkdate 2025 1 31) 3) as (r & w' & Hrun & _).
  destruct (generate_installments_all_or_nothing
              (fun _ st => match st with InsertInstallments _ => Some 1048 | _ => None end)
              fresh_world 7 (mkdate 2025 1 31) 3) as (r2 & w2 & Hrun2 & _ & _ & Hkept).
  split.
  - exists w'. vm_compute in Hrun. injection Hrun as <- <-. split; reflexivity.
  - exists w2. assert (Hr2 : r2 = Ok false) by (vm_compute in Hrun2; congruence).
    subst r2. split; [exact Hrun2 |]. apply Hkept. discriminate.
Defined.

(* ===================================================================== *)
(** * ORDER BY *)
(* ===================================================================== *)

Section Ordering.

Context {A : Type}.
Variable key : A -> Z.

Lemma insert_by_In (r x : A) (l : list A) :
  In x (insert_by key r l) <-> x = r \/ In x l.
Proof.
  induction l as [| y l IH]; simpl.
  - intuition congruence.
  - destruct (key y <? key r); simpl; rewrite ?IH; intuition congruence.
Qed.

Lemma order_by_In (x : A) (l : list A) : In x (order_by key l) <-> In x l.
Proof.
  unfold order_by. induction l as [| y l IH]; simpl; [tauto |].
  rewrite insert_by_In, IH. intuition congruence.
Qed.

Lemma insert_by_length (r : A) (l : list A) :
  List.length (insert_by key r l) = S (List.length l).
Proof.
  induction l as [| y l IH]; simpl; [reflexivity |].
  destruct (key y <? key r); simpl; [now rewrite IH | reflexivity].
Qed.

Lemma order_by_length (l : list A) : List.length (order_by key l) = List.length l.
Proof.
  unfold order_by. induction l as [| y l IH]; simpl; [reflexivity |].
  now rewrite insert_by_length, IH.
Qed.

Lemma insert_by_ascending (r : A) (l : list A) :
  ascending (map key l) -> ascending (map key (insert_by key r l)).
Proof.
  induction l as [| x l IH]; simpl.
  - intros _. split; [intros y [] | exact I].
  - intros [Hx Hl]. destruct (Z.ltb_spec (key x) (key r)) as [Hlt | Hge]; simpl.
    + split; [| now apply IH].
      intros y Hy. apply in_map_iff in Hy as (z & <- & Hz).
      apply insert_by_In in Hz as [-> | Hz]; [lia |].
      apply Hx. now apply in_map.
    + split; [| split; assumption].
      intros y [<- | Hy]; [lia |]. specialize (Hx y Hy). lia.
Qed.

Lemma order_by_ascending (l : list A) : ascending (map key (order_by key l)).
Proof.
  unfold order_by. induction l as [| x l IH]; simpl; [exact I |].
  now apply insert_by_ascending.
Qed.

(** Rows that are in order already stay as they are. *)
Lemma order_by_sorted (l : list A) : ascending (map key l) -> order_by key l = l.
Proof.
  induction l as [| x l IH]; [reflexivity |].
  intros [Hx Hl]. change (order_by key (x :: l)) with (insert_by key x (order_by key l)).
  rewrite (IH Hl). destruct l as [| y l]; [reflexivity |].
  simpl. specialize (Hx (key y) (or_introl eq_refl)).
  destruct (Z.ltb_spec (key y) (key x)); [lia | reflexivity].
Qed.

End Ordering.

Section OrderingMaps.

Context {A B : Type}.

Lemma insert_by_map (key : B -> Z) (h : A -> B) (x : A) (l : list A) :
  insert_by key (h x) (map h l) = map h (insert_by (fun a => key (h a)) x l).
Proof.
  induction l as [| y l IH]; simpl; [reflexivity |].
  destruct (key (h y) <? key (h x)); simpl; [now rewrite IH | reflexivity].
Qed.

Lemma order_by_map (key : B -> Z) (h : A -> B) (l : list A) :
  order_by key (map h l) = map h (order_by (fun a => key (h a)) l).
Proof.
  unfold order_by. induction l as [| y l IH]; simpl; [reflexivity |].
  now rewrite IH, insert_by_map.
Qed.

End OrderingMaps.

(** The order of the status query is the same insertion sort. *)
Lemma order_by_chit_number_eq (l : list (status_key * option float)) :
  order_by_chit_number l = order_by chit_number_of l.
Proof.
  unfold order_by_chit_number, order_by.
  induction l as [| x l IH]; simpl; [reflexivity |]. rewrite IH.
  generalize (fold_right (insert_by chit_number_of) [] l). intros sorted.
  induction sorted as [| y sorted IHs]; simpl; [reflexivity |].
  now rewrite IHs.
Qed.

(* ===================================================================== *)
(** * The status list, entry by entry *)
(* ===================================================================== *)

Section StatusList.

Variable server_error : database -> statement -> option Z.

Lemma status_of_row_chit_number (row : status_key * option float) :
  Chit_Number (status_of_row row) = chit_number_of row.
Proof. destruct row as [[[[e s] n] c] v]. reflexivity. Qed.

(** The call never raises, never writes and draws no identifier; what it
    returns is nothing or the rows of the status query. *)
Lemma get_payment_status_outcome (w : world) (g : uuid) (m : Z) :
  exists entries w',
    get_payment_status_for_installment server_error g m w = (Ok entries, w') /\
    db w' = db w /\ uuid4_calls w' = uuid4_calls w /\ now w' = now w /\
    (entries = [] \/
     exists inst, In inst (select_installment_id (db w) g m) /\
                  entries = map status_of_row (select_payment_status (db w) inst g)).
Proof.
  destruct w as [conn d t src calls scr cerr].
  unfold get_payment_status_for_installment.
  destruct conn.
  2:{ erewrite bind_ok by reflexivity. cbn [negb].
      eexists _, _. split; [reflexivity |]. simpl. auto. }
  erewrite bind_ok by reflexivity. cbn [negb].
  destruct (server_error d (SelectInstallmentId g m)) as [errno |] eqn:Hsel.
  { erewrite try_caught.
    2:{ erewrite bind_raise; [reflexivity |].
        unfold Foremen.execute. simpl. rewrite Hsel. reflexivity. }
    eexists _, _. split; [reflexivity |]. simpl. auto. }
  destruct (select_installment_id d g m) as [| inst unread] eqn:Hfound.
  { eexists _, _. split.
    - apply try_ok.
      erewrite bind_ok by (unfold Foremen.execute; simpl; rewrite Hsel; reflexivity).
      erewrite bind_ok by reflexivity.
      simpl. rewrite Hfound. reflexivity.
    - simpl. auto. }
  destruct unread as [| other unread].
  2:{ eexists _, _. split.
      - erewrite try_caught.
        2:{ erewrite bind_ok by (unfold Foremen.execute; simpl; rewrite Hsel; reflexivity).
            erewrite bind_ok by reflexivity.
            simpl. rewrite Hfound.
            erewrite bind_raise by reflexivity. reflexivity. }
        reflexivity.
      - simpl. auto. }
  destruct (server_error d (SelectPaymentStatus inst g)) as [errno |] eqn:Hstat.
  { eexists _, _. split.
    - erewrite try_caught.
      2:{ erewrite bind_ok by (unfold Foremen.execute; simpl; rewrite Hsel; reflexivity).
          erewrite bind_ok by reflexivity.
          simpl. rewrite Hfound.
          erewrite bind_raise; [reflexivity |].
          unfold Foremen.execute. simpl. rewrite Hstat. reflexivity. }
      reflexivity.
    - simpl. auto. }
  eexists _, _. split.
  - apply try_ok.
    erewrite bind_ok by (unfold Foremen.execute; simpl; rewrite Hsel; reflexivity).
    erewrite bind_ok by reflexivity.
    simpl. rewrite Hfound.
    erewrite bind_ok by (unfold Foremen.execute; simpl; rewrite Hstat; reflexivity).
    erewrite bind_ok by reflexivity.
    reflexivity.
  - simpl. repeat split. right. exists inst. split; [rewrite Hfound; now left | reflexivity].
Qed.

(** X8.  When the month has at most one installment in the group, then
    whatever else the world, the server and the arguments are,
    [get_payment_status_for_installment] returns a list and raises nothing;
    it leaves the tables as they were and draws no identifier; and the
    entries it returns are in ascending order of chit number. *)
Theorem payment_status_in_chit_order (w : world) (g : uuid) (m : Z) :
  (List.length (select_installment_id (db w) g m) <= 1)%nat ->
  exists entries w',
    get_payment_status_for_installment server_error g m w = (Ok entries, w') /\
    db w' = db w /\ uuid4_calls w' = uuid4_calls w /\
    ascending (map Chit_Number entries).
Proof.
  intros _.
  destruct (get_payment_status_outcome w g m)
    as (entries & w' & Hrun & Hdb & Hcalls & _ & Hentries).
  exists entries, w'. repeat (split; [assumption |]).
  destruct Hentries as [-> | (inst & _ & ->)]; [exact I |].
  rewrite map_map.
  rewrite (map_ext _ chit_number_of status_of_row_chit_number).
  unfold select_payment_status. rewrite order_by_chit_number_eq.
  apply order_by_ascending.
Qed.

(** The join of the status query, pair by pair. *)
Lemma status_joined_pairs (d : database) (inst g : uuid) :
  status_joined d inst g =
  flat_map (fun p => joined_for d inst (fst p) (snd p)) (enrolled_pairs d g).
Proof.
  rewrite status_joined_unfold. unfold enrolled_pairs.
  induction (filter (fun e => (e_groupId e =? g)%N) (Enrollments d)) as [| e es IH];
    [reflexivity |].
  simpl. rewrite flat_map_app, IH. f_equal.
  induction (filter (fun s => (e_subscriberId e =? s_id s)%N) (Subscribers d)) as [| s ss IHs];
    [reflexivity |].
  simpl. now rewrite IHs.
Qed.

Lemma filter_at_most_one {T : Type} (f : T -> N) (v : N) (l : list T) :
  NoDup (map f l) ->
  filter (fun y => (v =? f y)%N) l = [] \/ exists x, filter (fun y => (v =? f y)%N) l = [x].
Proof.
  induction l as [| y l IH]; intros Hnd; [now left |].
  simpl in Hnd. inversion Hnd as [| ? ? Hnotin Hnd']; subst. simpl.
  destruct (N.eqb_spec v (f y)) as [E | E]; [| now apply IH].
  right. exists y. f_equal.
  clear IH Hnd Hnd'. induction l as [| z l IHl]; [reflexivity |]. simpl in *.
  destruct (N.eqb_spec v (f z)) as [E' | E']; [exfalso; apply Hnotin; left; congruence |].
  apply IHl. tauto.
Qed.

Lemma enrolled_pairs_In (d : database) (g : uuid) (p : enrollment_row * subscriber_row) :
  In p (enrolled_pairs d g) <->
  In (fst p) (Enrollments d) /\ e_groupId (fst p) = g /\
  In (snd p) (Subscribers d) /\ e_subscriberId (fst p) = s_id (snd p).
Proof.
  unfold enrolled_pairs. rewrite in_flat_map. split.
  - intros (e & He & Hp). apply filter_In in He as [He Hg]. apply N.eqb_eq in Hg.
    apply in_map_iff in Hp as (s & <- & Hs). apply filter_In in Hs as [Hs Hid].
    apply N.eqb_eq in Hid. simpl. auto.
  - destruct p as [e s]. simpl. intros (He & Hg & Hs & Hid). exists e. split.
    + apply filter_In. split; [assumption | now apply N.eqb_eq].
    + apply in_map. apply filter_In. split; [assumption | now apply N.eqb_eq].
Qed.

(** With identifiers that are keys, no enrollment comes twice among the
    pairs. *)
Lemma enrolled_pairs_NoDup (d : database) (g : uuid) :
  NoDup (map e_id (Enrollments d)) ->
  NoDup (map s_id (Subscribers d)) ->
  NoDup (map (fun p => e_id (fst p)) (enrolled_pairs d g)).
Proof.
  intros Hne Hns. unfold enrolled_pairs.
  pose proof (NoDup_map_filter e_id (fun e => (e_groupId e =? g)%N) _ Hne) as Hes.
  induction (filter (fun e => (e_groupId e =? g)%N) (Enrollments d)) as [| e es IH];
    [constructor |].
  simpl in Hes. inversion Hes as [| ? ? Hnotin Hes']; subst.
  simpl. rewrite map_app. specialize (IH Hes').
  destruct (filter_at_most_one s_id (e_subscriberId e) (Subscribers d) Hns) as [-> | [s ->]];
    [exact IH |].
  simpl. constructor; [| exact IH].
  intros Hin. apply Hnotin. apply in_map_iff in Hin as (p & <- & Hp).
  apply in_flat_map in Hp as (e' & He' & Hp).
  apply in_map_iff in Hp as (s' & <- & _). simpl. now apply in_map.
Qed.

Lemma filter_filter_same (k : status_key) (ks : list status_key) :
  filter (fun k' => negb (status_key_eqb k k'))
    (filter (fun k' => negb (status_key_eqb k k')) ks)
  = filter (fun k' => negb (status_key_eqb k k')) ks.
Proof.
  induction ks as [| x ks IH]; simpl; [reflexivity |].
  destruct (negb (status_key_eqb k x)) eqn:E; simpl; [rewrite E; now f_equal | exact IH].
Qed.

(** The different keys of a run of rows with one key, followed by others. *)
Lemma distinct_same_key (k : status_key) (same rest : list status_key) :
  same <> [] -> (forall x, In x same -> x = k) ->
  distinct (same ++ rest) = k :: filter (fun k' => negb (status_key_eqb k k')) (distinct rest).
Proof.
  induction same as [| x same IH]; intros Hne Hall; [congruence |].
  assert (Ex : x = k) by (apply Hall; now left). subst x.
  destruct same as [| y same]; [reflexivity |].
  change (distinct ((k :: y :: same) ++ rest))
    with (k :: filter (fun k' => negb (status_key_eqb k k')) (distinct ((y :: same) ++ rest))).
  rewrite IH; [| discriminate | intros x Hx; apply Hall; now right].
  f_equal. simpl. rewrite status_key_eqb_refl. simpl. apply filter_filter_same.
Qed.

Lemma filter_all_other (k : status_key) (ks : list status_key) :
  ~ In k ks -> filter (fun k' => negb (status_key_eqb k k')) ks = ks.
Proof.
  induction ks as [| x ks IH]; intros Hnotin; [reflexivity |]. simpl in *.
  replace (status_key_eqb k x) with false
    by (symmetry; apply status_key_eqb_neq; intros ->; tauto).
  simpl. f_equal. apply IH. tauto.
Qed.

(** [GROUP BY] over a join made pair by pair, when the pairs have
    different keys: one group per pair, in the order of the pairs. *)
Lemma status_grouped_flat_map {P : Type} (k : P -> status_key)
  (rows : P -> list (status_key * option float)) (ps : list P) :
  NoDup (map k ps) ->
  (forall p, In p ps -> rows p <> []) ->
  (forall p r, In p ps -> In r (rows p) -> fst r = k p) ->
  status_grouped (flat_map rows ps) =
  map (fun p => (k p, sql_sum (map snd (rows p)))) ps.
Proof.
  intros Hnd Hne Hkeys. unfold status_grouped.
  assert (Hdistinct : distinct (map fst (flat_map rows ps)) = map k ps).
  { clear - Hnd Hne Hkeys. induction ps as [| p ps IH]; [reflexivity |].
    simpl in Hnd. inversion Hnd as [| ? ? Hnotin Hnd']; subst.
    simpl. rewrite map_app.
    rewrite (distinct_same_key (k p)).
    - rewrite IH; [| assumption | intros; apply Hne; now right
                   | intros q r Hq; apply Hkeys; now right].
      now rewrite filter_all_other.
    - intros E. apply map_eq_nil in E. apply (Hne p); [now left | exact E].
    - intros x Hx. apply in_map_iff in Hx as (r & <- & Hr).
      apply Hkeys; [now left | exact Hr]. }
  rewrite Hdistinct, map_map. apply map_ext_in. intros p Hp. f_equal. f_equal. f_equal.
  apply (filter_flat_map_unique k rows (k p) p ps Hnd Hp).
  - intros r Hr. now apply Hkeys.
  - intros q r Hq Hne' Hr. rewrite (Hkeys q r Hq Hr). exact Hne'.
Qed.

(** The status query, entry by entry. *)
Lemma status_rows_exact (d : database) (inst g : uuid) :
  NoDup (map e_id (Enrollments d)) ->
  NoDup (map s_id (Subscribers d)) ->
  map status_of_row (select_payment_status d inst g) =
  map (entry_of d inst)
    (order_by (fun p => e_assignedChitNumber (fst p)) (enrolled_pairs d g)).
Proof.
  intros Hne Hns. unfold select_payment_status.
  rewrite status_joined_pairs.
  rewrite (status_grouped_flat_map (fun p => key_of (fst p) (snd p))).
  - rewrite order_by_chit_number_eq.
    rewrite (order_by_map chit_number_of
               (fun p => (key_of (fst p) (snd p),
                          sql_sum (map snd (joined_for d inst (fst p) (snd p)))))).
    rewrite map_map. apply map_ext. intros [e s].
    unfold status_of_row, entry_of. cbn [fst snd key_of].
    rewrite <- (sql_sum_joined_for d inst e s). reflexivity.
  - pose proof (enrolled_pairs_NoDup d g Hne Hns) as Hnd.
    clear - Hnd. induction (enrolled_pairs d g) as [| p ps IH]; [constructor |].
    simpl in *. inversion Hnd as [| ? ? Hnotin Hnd']; subst.
    constructor; [| now apply IH].
    intros Hin. apply Hnotin. apply in_map_iff in Hin as (q & Hq & Hin).
    apply in_map_iff. exists q. split; [| exact Hin].
    unfold key_of in Hq. congruence.
  - intros p _. apply joined_for_nonempty.
  - intros p r _ Hr. now apply joined_for_keys in Hr.
Qed.

Lemma get_payment_status_run (w : world) (g : uuid) (m : Z) (inst : uuid) :
  connection w = true ->
  server_error (db w) (SelectInstallmentId g m) = None ->
  select_installment_id (db w) g m = [inst] ->
  server_error (db w) (SelectPaymentStatus inst g) = None ->
  get_payment_status_for_installment server_error g m w =
    (Ok (map status_of_row (select_payment_status (db w) inst g)), w).
Proof.
  intros Hconn Hsel Hone Hstat.
  destruct w as [conn d t src calls scr cerr]. simpl in *. subst conn.
  unfold get_payment_status_for_installment.
  erewrite bind_ok by reflexivity. cbn [negb].
  apply try_ok.
  erewrite bind_ok by (unfold Foremen.execute; simpl; rewrite Hsel; reflexivity).
  erewrite bind_ok by reflexivity.
  simpl. rewrite Hone.
  erewrite bind_ok by (unfold Foremen.execute; simpl; rewrite Hstat; reflexivity).
  erewrite bind_ok by reflexivity.
  destruct d; reflexivity.
Qed.

(** X9.  In a world with a connection, where the month [m] of group [g]
    has the one installment [inst], the server answers both queries, and
    the identifiers of enrollments and subscribers are keys: the returned
    list is exactly the enrollments of [g], each with the subscriber it
    names, in the order of their chit numbers (table order among equal
    numbers), each with the total of its payments for [inst] and the status
    that follows from it.  So every enrollment with a subscriber appears
    exactly once, and the list is as long as there are such enrollments. *)
Theorem payment_status_one_entry_each (w : world) (g : uuid) (m : Z) (inst : uuid) :
  connection w = true ->
  server_error (db w) (SelectInstallmentId g m) = None ->
  select_installment_id (db w) g m = [inst] ->
  server_error (db w) (SelectPaymentStatus inst g) = None ->
  NoDup (map e_id (Enrollments (db w))) ->
  NoDup (map s_id (Subscribers (db w))) ->
  get_payment_status_for_installment server_error g m w =
    (Ok (map (entry_of (db w) inst)
           (order_by (fun p => e_assignedChitNumber (fst p)) (enrolled_pairs (db w) g))),
     w) /\
  List.length (order_by (fun p => e_assignedChitNumber (fst p)) (enrolled_pairs (db w) g))
  = List.length (enrolled_pairs (db w) g) /\
  (forall p, In p (order_by (fun p => e_assignedChitNumber (fst p)) (enrolled_pairs (db w) g))
     <-> In (fst p) (Enrollments (db w)) /\ e_groupId (fst p) = g /\
         In (snd p) (Subscribers (db w)) /\ e_subscriberId (fst p) = s_id (snd p)).
Proof.
  intros Hconn Hsel Hone Hstat Hne Hns.
  split; [| split].
  - rewrite <- (status_rows_exact (db w) inst g Hne Hns).
    now apply get_payment_status_run.
  - apply order_by_length.
  - intros p. rewrite order_by_In. apply enrolled_pairs_In.
Qed.

End StatusList.

Section PaidAfterPayment.

Variable server_error : database -> statement -> option Z.

Lemma insert_payment_exact (w : world) (inst sub : uuid) (amount : float) (notes : string) :
  connection w = true ->
  (forall r, server_error (db w) (InsertPayment r) = None) ->
  insert_payment server_error inst sub amount notes w =
    (Ok true,
     mkworld true
       (mkdb (ChitGroups (db w)) (Subscribers (db w)) (Enrollments (db w))
          (Installments (db w))
          (InstallmentPayments (db w) ++
           [mkpayment (uuid4_source w (uuid4_calls w)) inst sub (now w) amount notes]))
       (now w) (uuid4_source w) (S (uuid4_calls w))
       (screen w ++ [(Success, [Txt "Payment recorded successfully!"])])
       (connect_error w)).
Proof.
  intros Hconn Hsrv. destruct w as [conn d t src calls scr cerr]. simpl in *. subst conn.
  unfold insert_payment.
  erewrite bind_ok by reflexivity. cbn [negb].
  apply try_ok.
  erewrite bind_ok by reflexivity.
  erewrite bind_ok by reflexivity.
  erewrite bind_ok by (unfold Foremen.execute; simpl; rewrite Hsrv; reflexivity).
  reflexivity.
Qed.

Lemma total_paid_for_after (d : database) (inst sub : uuid) (p : payment_row) (x : uuid) :
  p_installmentId p = inst -> p_subscriberId p = sub ->
  total_paid_for
    (mkdb (ChitGroups d) (Subscribers d) (Enrollments d) (Installments d)
       (InstallmentPayments d ++ [p])) inst x
  = if (x =? sub)%N
    then match payments_of d inst sub with
         | [] => PyFloat (p_amountPaid p)
         | q :: qs =>
             PyFloat (fold_left PrimFloat.add (map p_amountPaid (qs ++ [p])) (p_amountPaid q))
         end
    else total_paid_for d inst x.
Proof.
  intros Hi Hs. unfold total_paid_for, payments_of. cbn [InstallmentPayments].
  rewrite filter_app. cbn [filter]. rewrite Hi, Hs, N.eqb_refl, andb_true_r.
  destruct (N.eqb_spec x sub) as [-> | Hne].
  - destruct (filter _ (InstallmentPayments d)); reflexivity.
  - now rewrite app_nil_r.
Qed.

(** X10.  Recording a first payment turns "Due" into "Paid".  In a world
    with a connection and a server that takes every statement, where month
    [m] of group [g] has the one installment [inst], identifiers are keys,
    and the subscriber [s], enrolled in [g] by [e], has no payment for
    [inst] yet: before the form is sent the status list holds the entry of
    [s] with status "Due" and total 0; after [record_payment_form] with any
    amount greater than zero it holds the entry with status "Paid" and the
    amount as total, however small the amount is; the entries of the other
    subscribers are the same as before. *)
Theorem first_payment_marks_paid (w : world) (g : uuid) (m : Z) (inst : uuid)
  (e : enrollment_row) (s : subscriber_row) (amount : float) (notes : string) :
  connection w = true ->
  (forall d st, server_error d st = None) ->
  select_installment_id (db w) g m = [inst] ->
  NoDup (map e_id (Enrollments (db w))) ->
  NoDup (map s_id (Subscribers (db w))) ->
  In e (Enrollments (db w)) -> e_groupId e = g ->
  In s (Subscribers (db w)) -> e_subscriberId e = s_id s ->
  payments_of (db w) inst (s_id s) = [] ->
  Py.gt (PyFloat amount) (PyInt 0) = true ->
  let pairs := order_by (fun p => e_assignedChitNumber (fst p)) (enrolled_pairs (db w) g) in
  exists w1,
    get_payment_status_for_installment server_error g m w =
      (Ok (map (entry_of (db w) inst) pairs), w) /\
    record_payment_form server_error inst (s_id s) amount notes true w = (Ok tt, w1) /\
    get_payment_status_for_installment server_error g m w1 =
      (Ok (map (entry_of (db w1) inst) pairs), w1) /\
    In (e, s) pairs /\
    entry_of (db w) inst (e, s) =
      mkstatus (s_name s) (e_assignedChitNumber e) "Due" (PyInt 0) /\
    entry_of (db w1) inst (e, s) =
      mkstatus (s_name s) (e_assignedChitNumber e) "Paid" (PyFloat amount) /\
    (forall p, e_subscriberId (fst p) <> s_id s ->
       entry_of (db w1) inst p = entry_of (db w) inst p).
Proof.
  intros Hconn Hsrv Hone Hne Hns He Hg Hs Hid Hnone Hgt pairs. subst pairs.
  pose proof (insert_payment_exact w inst (s_id s) amount notes Hconn
                (fun r => Hsrv (db w) (InsertPayment r))) as Hpay.
  set (d1 := mkdb (ChitGroups (db w)) (Subscribers (db w)) (Enrollments (db w))
               (Installments (db w))
               (InstallmentPayments (db w) ++
                [mkpayment (uuid4_source w (uuid4_calls w)) inst (s_id s) (now w) amount notes]))
    in *.
  set (w1 := mkworld true d1 (now w) (uuid4_source w) (S (uuid4_calls w))
               (screen w ++ [(Success, [Txt "Payment recorded successfully!"])])
               (connect_error w)) in *.
  exists w1. split; [| split; [| split; [| split; [| split; [| split]]]]].
  - rewrite <- (status_rows_exact (db w) inst g Hne Hns).
    now apply get_payment_status_run.
  - unfold record_payment_form. rewrite Hgt.
    erewrite bind_ok by exact Hpay. reflexivity.
  - change (enrolled_pairs (db w) g) with (enrolled_pairs (db w1) g).
    rewrite <- (status_rows_exact (db w1) inst g); [| exact Hne | exact Hns].
    apply get_payment_status_run; [reflexivity | apply Hsrv | exact Hone | apply Hsrv].
  - apply order_by_In, enrolled_pairs_In. simpl. auto.
  - unfold entry_of, total_paid_for. cbn [fst snd]. rewrite Hid, Hnone. reflexivity.
  - unfold entry_of. cbn [fst snd]. change (db w1) with d1. unfold d1.
    rewrite (total_paid_for_after (db w) inst (s_id s)) by reflexivity.
    rewrite Hid, N.eqb_refl, Hnone. cbn [p_amountPaid]. rewrite Hgt. reflexivity.
  - intros p Hp. unfold entry_of. change (db w1) with d1. unfold d1.
    rewrite (total_paid_for_after (db w) inst (s_id s)) by reflexivity.
    apply N.eqb_neq in Hp. now rewrite Hp.
Qed.

End PaidAfterPayment.

(** A run of X8 in [underpaid_world]. *)
Lemma payment_status_in_chit_order_witness :
  exists entries w',
    get_payment_status_for_installment willing_server 1 1 underpaid_world = (Ok entries, w') /\
    map Chit_Number entries = [1; 2].
Proof.
  destruct (payment_status_in_chit_order willing_server underpaid_world 1 1
              ltac:(vm_compute; lia))
    as (entries & w' & Hrun & _).
  exists entries, w'. split; [exact Hrun |].
  vm_compute in Hrun. injection Hrun as <- _. reflexivity.
Defined.

Lemma underpaid_keys :
  NoDup (map e_id (Enrollments (db underpaid_world))) /\
  NoDup (map s_id (Subscribers (db underpaid_world))).
Proof. split; simpl; repeat constructor; simpl; intuition discriminate. Qed.

(** A run of X9 in [underpaid_world]: two enrollments, two entries. *)
Lemma payment_status_one_entry_each_witness :
  get_payment_status_for_installment willing_server 1 1 underpaid_world =
    (Ok [mkstatus "Asha" 1 "Paid" (PyFloat 100); mkstatus "Ravi" 2 "Due" (PyInt 0)],
     underpaid_world).
Proof.
  destruct (payment_status_one_entry_each willing_server underpaid_world 1 1 30
              eq_refl eq_refl eq_refl eq_refl (proj1 underpaid_keys) (proj2 underpaid_keys))
    as (Hrun & _).
  rewrite Hrun. reflexivity.
Defined.

(** A run of X10: Ravi, who is "Due" in [underpaid_world], pays 0.01. *)
Lemma first_payment_marks_paid_witness :
  exists w1,
    record_payment_form willing_server 30 11 0.01 EmptyString true underpaid_world
      = (Ok tt, w1) /\
    get_payment_status_for_installment willing_server 1 1 w1 =
      (Ok [mkstatus "Asha" 1 "Paid" (PyFloat 100); mkstatus "Ravi" 2 "Paid" (PyFloat 0.01)],
       w1).
Proof.
  destruct (first_payment_marks_paid willing_server underpaid_world 1 1 30
              (mkenrollment 21 11 1 2 (mkdate 2025 1 31))
              (mksubscriber 11 "Ravi" "9000000002" EmptyString noon true)
              0.01 EmptyString
              eq_refl (fun _ _ => eq_refl) eq_refl
              (proj1 underpaid_keys) (proj2 underpaid_keys)
              ltac:(simpl; auto) eq_refl ltac:(simpl; auto) eq_refl eq_refl eq_refl)
    as (w1 & _ & Hform & Hafter & _).
  exists w1. split; [exact Hform |].
  rewrite Hafter. vm_compute in Hform. injection Hform as <-. reflexivity.
Defined.

(* ===================================================================== *)
(** * The exceptions of the dividend formula *)
(* ===================================================================== *)

(** X11.  [calculate_dividend] with a whole number of members, for any
    numbers as the other arguments: it never raises [ZeroDivisionError],
    and the only exception it can raise is [OverflowError].  For float
    arguments it returns a value whenever [n - 1] is small enough for a
    float.  The products are computed before the test of [num_members], so
    with an int value too large for a float even the call with one member
    raises [OverflowError] instead of returning 0. *)
Theorem calculate_dividend_exceptions (x d c : num) (n : Z) :
  calculate_dividend x d c (PyInt n) <> Raise ZeroDivisionError /\
  (forall e, calculate_dividend x d c (PyInt n) = Raise e -> e = OverflowError) /\
  (forall fx fd fc : float,
     (exists f, float_of_int (n - 1) = Ok f) ->
     exists v, calculate_dividend (PyFloat fx) (PyFloat fd) (PyFloat fc) (PyInt n) = Ok v) /\
  calculate_dividend (PyInt (10 ^ 400)) (PyFloat 5) (PyFloat 2) (PyInt 1) = Raise OverflowError.
Proof.
  split; [| split; [| split]].
  - intros H. apply calculate_dividend_raises in H. discriminate.
  - intros e. apply calculate_dividend_raises.
  - intros fx fd fc [f Hf]. unfold calculate_dividend. rewrite !percent_rate. simpl.
    destruct (1 <? n) eqn:Hn; [| eexists; reflexivity].
    apply Z.ltb_lt in Hn. unfold Py.truediv.
    replace (is_zero (PyInt (n - 1))) with false
      by (symmetry; simpl; apply Z.eqb_neq; lia).
    simpl. rewrite Hf. simpl. eexists; reflexivity.
  - vm_compute. reflexivity.
Qed.

(* ===================================================================== *)
(** * What the page "Chit Setup" reports *)
(* ===================================================================== *)

Section ChitReports.

Variable server_error : list chit_row -> list dividend_row ->
                        Dharmareddy.statement -> option Z.

Ltac run_store :=
  cbv beta iota zeta delta
    [bind lift ret execute_query fetch_chit look tell set_tables
     connected Chits Dividends clock page].

(** X12.  The form [new_chit_form] with a chit id, a value and a
    duration above zero whose quotient a float can hold: the message "Chit
    Fund '...' created successfully!" is shown in every case.  The row is
    stored when there is a connection and the server takes the INSERT;
    when the server refuses it, or without a connection, the table is as
    before, the error goes to the console only (for a refusal the line
    "Error executing query: '...'", the error between apostrophes), and the
    page still shows the success message. *)
Theorem new_chit_form_reports_success (s : store) (id : string) (v d : Z) (c : float)
  (sd : date) (inst : num) :
  id <> EmptyString -> 0 < v -> 0 < d ->
  Py.truediv (PyInt v) (PyInt d) = Ok inst ->
  let row := mkchit id v d c sd inst in
  let success := (Success, [Txt "Chit Fund '"; Txt id; Txt "' created successfully!"]) in
  (connected s = true ->
   server_error (Chits s) (Dividends s) (InsertChit row) = None ->
   new_chit_form server_error id v d c sd true s =
     (Ok tt, mkstore true (Chits s ++ [row]) (Dividends s) (clock s) (page s ++ [success]))) /\
  (forall errno,
     connected s = true ->
     server_error (Chits s) (Dividends s) (InsertChit row) = Some errno ->
     new_chit_form server_error id v d c sd true s =
       (Ok tt,
        mkstore true (Chits s) (Dividends s) (clock s)
          (page s ++ [(Printed, [Txt "Error executing query: '"; Exc (MySQLError errno);
                                 Txt "'"]);
                      success]))) /\
  (connected s = false ->
   new_chit_form server_error id v d c sd true s =
     (Ok tt,
      mkstore false (Chits s) (Dividends s) (clock s)
        (page s ++ [(Printed, [Txt "Error: MySQL Connection not available in execute_query."]);
                    success]))).
Proof.
  intros Hid Hv Hd Hdiv row success. subst row success.
  assert (Htest : negb (String.eqb id EmptyString) && (0 <? v) && (0 <? d) = true).
  { apply String.eqb_neq in Hid. apply Z.ltb_lt in Hv. apply Z.ltb_lt in Hd.
    now rewrite Hid, Hv, Hd. }
  assert (Hinst : calculate_installment (PyInt v) (PyInt d) = Ok inst)
    by (rewrite calculate_installment_positive; assumption).
  unfold new_chit_form. rewrite Htest.
  destruct s as [conn cs ds t pg]. simpl.
  split; [| split].
  - intros -> Hsrv. rewrite Hinst. run_store. rewrite Hsrv. reflexivity.
  - intros errno -> Hsrv. rewrite Hinst. run_store. rewrite Hsrv. run_store.
    now rewrite <- app_assoc.
  - intros ->. rewrite Hinst. run_store. now rewrite <- app_assoc.
Qed.

(** X13.  The expander "Edit Existing Chit Fund": when there is a
    connection, the server answers the SELECT and a chit with the selected
    id exists, the page stops with [TypeError] before the form is drawn,
    whatever the form would hold and whether or not its button was pressed;
    the store is as before.  And in every world the expander leaves the
    table of chits as it was: as the page is written, no chit can be
    edited through it. *)
Theorem edit_chit_expander_stops (s : store) (id : string) (v d : Z) (c : float)
  (sd : date) (submitted : bool) :
  (connected s = true ->
   id <> EmptyString ->
   server_error (Chits s) (Dividends s) (SelectChit id) = None ->
   (exists r, In r (Chits s) /\ chit_id r = id) ->
   edit_chit_expander server_error id v d c sd submitted s = (Raise TypeError, s)) /\
  Chits (snd (edit_chit_expander server_error id v d c sd submitted s)) = Chits s /\
  Dividends (snd (edit_chit_expander server_error id v d c sd submitted s)) = Dividends s.
Proof.
  split; [| split].
  - intros Hconn Hid Hsrv (r & Hr & Hrid).
    unfold edit_chit_expander. apply String.eqb_neq in Hid. rewrite Hid. cbn [negb].
    destruct s as [conn cs ds t pg]. simpl in *. subst conn.
    run_store. rewrite Hsrv. run_store.
    destruct (filter (fun r0 => String.eqb (chit_id r0) id) cs) as [| row rows] eqn:Hrows;
      [| reflexivity].
    exfalso. assert (Hin : In r (filter (fun r0 => String.eqb (chit_id r0) id) cs)).
    { apply filter_In. split; [exact Hr | now apply String.eqb_eq]. }
    rewrite Hrows in Hin. destruct Hin.
  - apply edit_chit_expander_run.
  - unfold edit_chit_expander.
    destruct (negb (String.eqb id EmptyString)); [| reflexivity].
    destruct s as [conn cs ds t pg]. run_store.
    destruct conn; [| reflexivity].
    destruct (server_error cs ds (SelectChit id)); [reflexivity |].
    destruct (filter _ cs); reflexivity.
Qed.

(** X14.  The button "Delete Chit Fund" leaves no message on the page.
    Its handler shows "Chit Fund '...' deleted successfully!" in every case
    and then calls [st.rerun()], so the page is drawn anew and carries
    neither that line nor any error: what is left are the lines of the
    console.  With a connection and a server that takes the DELETE, no chit
    with that id is left and the chits with other ids stay, in their order;
    when the server refuses the DELETE, or without a connection, the table
    is as before and the only trace is the line that [execute_query]
    prints.  In no case is a row added or changed. *)
Theorem delete_chit_leaves_no_message (s : store) (id : string) :
  let kept := filter (fun r => negb (String.eqb (chit_id r) id)) (Chits s) in
  let console := filter printed (page s) in
  (connected s = true ->
   server_error (Chits s) (Dividends s) (DeleteChit id) = None ->
   delete_chit server_error id s =
     (Ok tt, mkstore true kept (Dividends s) (clock s) console) /\
   (forall r, In r kept <-> In r (Chits s) /\ chit_id r <> id)) /\
  (forall errno,
     connected s = true ->
     server_error (Chits s) (Dividends s) (DeleteChit id) = Some errno ->
     delete_chit server_error id s =
       (Ok tt,
        mkstore true (Chits s) (Dividends s) (clock s)
          (console ++ [(Printed, [Txt "Error executing query: '"; Exc (MySQLError errno);
                                  Txt "'"])]))) /\
  (connected s = false ->
   delete_chit server_error id s =
     (Ok tt,
      mkstore false (Chits s) (Dividends s) (clock s)
        (console ++
         [(Printed, [Txt "Error: MySQL Connection not available in execute_query."])]))) /\
  Forall (fun m => printed m = true) (page (snd (delete_chit server_error id s))).
Proof.
  intros kept console. subst kept console. destruct s as [conn cs ds t pg]. simpl.
  assert (Hfilter : forall (l : list message) (m : message),
            printed m = true ->
            filter printed
              ((l ++ [m]) ++
               [(Success, [Txt "Chit Fund '"; Txt id; Txt "' deleted successfully!"])])
            = filter printed l ++ [m]).
  { intros l m Hm. rewrite !filter_app. simpl. rewrite Hm. now rewrite app_nil_r. }
  assert (Hsuccess : forall l : list message,
            filter printed
              (l ++ [(Success, [Txt "Chit Fund '"; Txt id; Txt "' deleted successfully!"])])
            = filter printed l).
  { intros l. rewrite filter_app. simpl. now rewrite app_nil_r. }
  split; [| split; [| split]].
  - intros -> Hsrv. split.
    + unfold delete_chit, Dharmareddy.rerun. run_store. rewrite Hsrv.
      cbn [Dharmareddy.apply_statement]. unfold set_tables.
      cbn [connected Chits Dividends clock page]. now rewrite Hsuccess.
    + intros r. rewrite filter_In, negb_true_iff, String.eqb_neq. tauto.
  - intros errno -> Hsrv.
    unfold delete_chit, Dharmareddy.rerun. run_store. rewrite Hsrv. run_store.
    now rewrite Hfilter.
  - intros ->. unfold delete_chit, Dharmareddy.rerun. run_store. now rewrite Hfilter.
  - unfold delete_chit, Dharmareddy.rerun. run_store.
    destruct conn; [destruct (server_error cs ds (DeleteChit id)) |]; run_store;
      cbn [snd page]; apply Forall_forall; intros m Hm;
      apply filter_In in Hm as [_ Hm]; exact Hm.
Qed.

End ChitReports.

Section DividendForm.

Variable server_error : list chit_row -> list dividend_row ->
                        Dharmareddy.statement -> option Z.
Variable auctions_of : string -> date -> list auction_row.

Ltac run_store :=
  cbv beta iota zeta delta
    [bind lift ret raise look tell set_tables connected Chits Dividends clock page].

(** X15.  The form [calculate_dividend_form] records no dividend.  When
    it is submitted for a chit and the query finds an auction, in a store
    with a connection and a server that answers the query, the form stops
    with [NameError] at [auction_result[winner_id]], before the dividend is
    calculated and before the loop that would write the rows; when the
    query finds none, the form shows "No auction found for Chit '...' on
    ...".  In every store the form ends without an exception or with
    [NameError], and the tables of chits and of dividends are as before. *)
Theorem dividend_form_records_nothing (s : store) (id : string) (auction_date : date)
  (submitted : bool) :
  (connected s = true ->
   id <> EmptyString ->
   server_error (Chits s) (Dividends s) (SelectAuction id auction_date) = None ->
   (auctions_of id auction_date <> [] ->
    calculate_dividend_form server_error auctions_of id auction_date true s
      = (Raise NameError, s)) /\
   (auctions_of id auction_date = [] ->
    calculate_dividend_form server_error auctions_of id auction_date true s
      = (Ok tt,
         mkstore true (Chits s) (Dividends s) (clock s)
           (page s ++ [(Warning, [Txt "No auction found for Chit '"; Txt id; Txt "' on ";
                                  Day auction_date; Txt "."])])))) /\
  (forall r s',
     calculate_dividend_form server_error auctions_of id auction_date submitted s = (r, s') ->
     (r = Ok tt \/ r = Raise NameError) /\
     Chits s' = Chits s /\ Dividends s' = Dividends s).
Proof.
  destruct s as [conn cs ds t pg]. simpl. split.
  - intros -> Hid Hsrv. apply String.eqb_neq in Hid.
    unfold calculate_dividend_form, fetch_auction. rewrite Hid. cbn [negb andb].
    split.
    + intros Hfound. run_store. rewrite Hsrv. run_store.
      destruct (auctions_of id auction_date); [congruence | reflexivity].
    + intros Hnone. run_store. rewrite Hsrv. run_store. rewrite Hnone. reflexivity.
  - intros r s'. unfold calculate_dividend_form, fetch_auction.
    destruct (submitted && negb (String.eqb id EmptyString)).
    2:{ intros [= <- <-]. auto. }
    run_store.
    destruct conn; [destruct (server_error cs ds (SelectAuction id auction_date)) |];
      run_store; try (intros [= <- <-]; auto).
    destruct (auctions_of id auction_date); intros [= <- <-]; auto.
Qed.

End DividendForm.

(** A run of X12: the chit "DR-02" with a server that refuses every
    statement. *)
Lemma new_chit_form_reports_success_witness :
  new_chit_form (fun _ _ _ => Some 1062) "DR-02" 100000 20 5 (mkdate 2025 6 1) true one_chit
  = (Ok tt,
     mkstore true (Chits one_chit) [] noon
       (page one_chit ++
        [(Printed, [Txt "Error executing query: '"; Exc (MySQLError 1062); Txt "'"]);
         (Success, [Txt "Chit Fund '"; Txt "DR-02"; Txt "' created successfully!"])])).
Proof.
  destruct (new_chit_form_reports_success (fun _ _ _ => Some 1062) one_chit "DR-02" 100000 20 5
              (mkdate 2025 6 1) (PyFloat 5000) ltac:(discriminate) ltac:(lia) ltac:(lia)
              ltac:(vm_compute; reflexivity)) as (_ & Hrefused & _).
  exact (Hrefused 1062 eq_refl eq_refl).
Defined.

(** A run of X15: an auction of "DR-01" is found, and the form stops. *)
Lemma dividend_form_records_nothing_witness :
  calculate_dividend_form willing_chit_server
    (fun _ _ => [mkauction (Some 2) (Some (PyFloat 5))]) "DR-01" (mkdate 2025 6 1) true one_chit
  = (Raise NameError, one_chit).
Proof.
  destruct (dividend_form_records_nothing willing_chit_server
              (fun _ _ => [mkauction (Some 2) (Some (PyFloat 5))]) one_chit "DR-01"
              (mkdate 2025 6 1) true) as (Hrun & _).
  destruct (Hrun eq_refl ltac:(discriminate) eq_refl) as (Hfound & _).
  apply Hfound. discriminate.
Defined.

(** A run of X13: the chit "DR-01" exists, so selecting it stops the
    page. *)
Lemma edit_chit_expander_stops_witness :
  edit_chit_expander willing_chit_server "DR-01" 200000 10 5 (mkdate 2025 6 1) true one_chit
  = (Raise TypeError, one_chit).
Proof.
  destruct (edit_chit_expander_stops willing_chit_server one_chit "DR-01" 200000 10 5
              (mkdate 2025 6 1) true) as (Hstop & _).
  apply Hstop; [reflexivity | discriminate | reflexivity |].
  eexists. split; [left; reflexivity | reflexivity].
Defined.

(** A run of X14: deleting "DR-01" from [one_chit], and with a server
    that refuses. *)
Lemma delete_chit_leaves_no_message_witness :
  delete_chit willing_chit_server "DR-01" one_chit
  = (Ok tt, mkstore true [] [] noon (filter printed (page one_chit))) /\
  delete_chit (fun _ _ _ => Some 1451) "DR-01" one_chit
  = (Ok tt,
     mkstore true (Chits one_chit) [] noon
       (filter printed (page one_chit) ++
        [(Printed, [Txt "Error executing query: '"; Exc (MySQLError 1451); Txt "'"])])).
Proof.
  destruct (delete_chit_leaves_no_message willing_chit_server one_chit "DR-01")
    as (Htaken & _).
  destruct (delete_chit_leaves_no_message (fun _ _ _ => Some 1451) one_chit "DR-01")
    as (_ & Hrefused & _).
  destruct (Htaken eq_refl eq_refl) as (Hrun & _).
  split; [rewrite Hrun; reflexivity | exact (Hrefused 1451 eq_refl eq_refl)].
Defined.

(* ===================================================================== *)
(** * Refused statements and missing connections *)
(* ===================================================================== *)

Section Refusals.

Variable server_error : database -> statement -> option Z.

Ltac other_errno errno E :=
  destruct errno as [| p | p]; try reflexivity;
  do 11 (try (destruct p as [p | p |]; try reflexivity));
  exfalso; apply E; reflexivity.

(** X16.  A refused INSERT stores nothing.  In a world with a connection
    whose server answers every statement with the error number [errno],
    each of [insert_group], [insert_subscriber], [insert_enrollment] and
    [insert_payment] returns [False], leaves the five tables as they were,
    has drawn one identifier, and shows one error message: for
    [insert_subscriber] and [insert_enrollment] with [errno] = 1062 the
    text about the phone number or the enrollment that exists already, in
    every other case the text with the error itself. *)
Theorem refused_inserts_store_nothing (w : world) (errno : Z) :
  connection w = true ->
  (forall st, server_error (db w) st = Some errno) ->
  let refused text :=
    mkworld true (db w) (now w) (uuid4_source w) (S (uuid4_calls w))
      (screen w ++ [(Error, text)]) (connect_error w) in
  (forall name value subs dur start commission,
     insert_group server_error name value subs dur start commission w =
       (Ok false, refused [Txt "Error adding Chit Group: "; Exc (MySQLError errno)])) /\
  (forall name phone address,
     insert_subscriber server_error name phone address w =
       (Ok false,
        refused (if errno =? 1062
                 then [Txt "Error adding Subscriber: Phone number '"; Txt phone;
                       Txt "' already exists."]
                 else [Txt "Error adding Subscriber: "; Exc (MySQLError errno)]))) /\
  (forall sub g n join,
     insert_enrollment server_error sub g n join w =
       (Ok false,
        refused (if errno =? 1062
                 then [Txt "Error enrolling Subscriber: Either they are already enrolled in this group, or the assigned number is already taken in this group."]
                 else [Txt "Error enrolling Subscriber: "; Exc (MySQLError errno)]))) /\
  (forall inst sub amount notes,
     insert_payment server_error inst sub amount notes w =
       (Ok false, refused [Txt "Error recording payment: "; Exc (MySQLError errno)])).
Proof.
  intros Hconn Hsrv refused. subst refused.
  destruct w as [conn d t src calls scr cerr]. simpl in *. subst conn.
  split; [| split; [| split]].
  - intros. unfold insert_group.
    erewrite bind_ok by reflexivity. cbn [negb].
    erewrite try_caught.
    2:{ erewrite bind_ok by reflexivity.
        erewrite bind_raise; [reflexivity |].
        unfold Foremen.execute. simpl. rewrite Hsrv. reflexivity. }
    reflexivity.
  - intros. unfold insert_subscriber.
    erewrite bind_ok by reflexivity. cbn [negb].
    erewrite try_caught.
    2:{ erewrite bind_ok by reflexivity.
        erewrite bind_ok by reflexivity.
        erewrite bind_raise; [reflexivity |].
        unfold Foremen.execute. simpl. rewrite Hsrv. reflexivity. }
    destruct (Z.eqb_spec errno 1062) as [-> | E]; [reflexivity |].
    other_errno errno E.
  - intros. unfold insert_enrollment.
    erewrite bind_ok by reflexivity. cbn [negb].
    erewrite try_caught.
    2:{ erewrite bind_ok by reflexivity.
        erewrite bind_raise; [reflexivity |].
        unfold Foremen.execute. simpl. rewrite Hsrv. reflexivity. }
    destruct (Z.eqb_spec errno 1062) as [-> | E]; [reflexivity |].
    other_errno errno E.
  - intros. unfold insert_payment.
    erewrite bind_ok by reflexivity. cbn [negb].
    erewrite try_caught.
    2:{ erewrite bind_ok by reflexivity.
        erewrite bind_ok by reflexivity.
        erewrite bind_raise; [reflexivity |].
        unfold Foremen.execute. simpl. rewrite Hsrv. reflexivity. }
    reflexivity.
Qed.

End Refusals.

(** A run of X16: a second subscriber with a phone number that the
    server reports as a duplicate. *)
Lemma refused_inserts_store_nothing_witness :
  insert_subscriber (refusing_server 1062) "Asha" "9000000001" EmptyString underpaid_world =
    (Ok false,
     mkworld true underpaid_db noon counting_uuids 1
       [(Error, [Txt "Error adding Subscriber: Phone number '"; Txt "9000000001";
                 Txt "' already exists."])]
       None).
Proof.
  destruct (refused_inserts_store_nothing (refusing_server 1062) underpaid_world 1062
              eq_refl (fun _ => eq_refl)) as (_ & Hsub & _).
  exact (Hsub "Asha"%string "9000000001"%string EmptyString).
Defined.

(* ===================================================================== *)
(** * The listings *)
(* ===================================================================== *)

Section Listings.

Variable server_error : database -> statement -> option Z.
Variable query_error : database -> query -> option Z.

Lemma set_db_same (w : world) : set_db (db w) w = w.
Proof. now destruct w. Qed.

Lemma get_installments_run (w : world) (g : uuid) :
  connection w = true ->
  query_error (db w) (SelectInstallments g) = None ->
  get_installments_for_group query_error g w = (Ok (select_installments (db w) g), w).
Proof.
  intros Hconn Hq. destruct w as [conn d t src calls scr cerr]. simpl in *. subst conn.
  unfold get_installments_for_group.
  erewrite bind_ok by reflexivity. cbn [negb].
  apply try_ok.
  erewrite bind_ok by (unfold execute; simpl; rewrite Hq; reflexivity).
  reflexivity.
Qed.

Lemma get_enrollments_run (w : world) (g : uuid) :
  connection w = true ->
  query_error (db w) (SelectEnrollmentDetails g) = None ->
  get_enrollments_details_for_group query_error g w =
    (Ok (select_enrollment_details (db w) g), w).
Proof.
  intros Hconn Hq. destruct w as [conn d t src calls scr cerr]. simpl in *. subst conn.
  unfold get_enrollments_details_for_group.
  erewrite bind_ok by reflexivity. cbn [negb].
  apply try_ok.
  erewrite bind_ok by (unfold execute; simpl; rewrite Hq; reflexivity).
  reflexivity.
Qed.

Lemma get_group_details_run (w : world) (id : uuid) :
  connection w = true ->
  query_error (db w) (SelectGroupDetails id) = None ->
  get_group_details_by_id query_error id w =
    (Ok (hd_error (select_group_details (db w) id)), w).
Proof.
  intros Hconn Hq. destruct w as [conn d t src calls scr cerr]. simpl in *. subst conn.
  unfold get_group_details_by_id.
  erewrite bind_ok by reflexivity. cbn [negb].
  apply try_ok.
  erewrite bind_ok by (unfold execute; simpl; rewrite Hq; reflexivity).
  reflexivity.
Qed.

(** What a listing returns in any world: nothing, or the rows of its
    query; the tables and the identifiers are as before. *)
Lemma get_installments_outcome (w : world) (g : uuid) :
  exists rows w',
    get_installments_for_group query_error g w = (Ok rows, w') /\
    db w' = db w /\ uuid4_calls w' = uuid4_calls w /\ connection w' = connection w /\
    (rows = [] \/ rows = select_installments (db w) g).
Proof.
  destruct w as [conn d t src calls scr cerr]. unfold get_installments_for_group.
  destruct conn.
  2:{ erewrite bind_ok by reflexivity. eexists _, _. split; [reflexivity |]. simpl. auto. }
  erewrite bind_ok by reflexivity. cbn [negb].
  destruct (query_error d (SelectInstallments g)) as [errno |] eqn:Hq.
  - erewrite try_caught
      by (erewrite bind_raise; [reflexivity | unfold execute; simpl; rewrite Hq; reflexivity]).
    eexists _, _. split; [reflexivity |]. simpl. auto.
  - eexists _, _. split.
    + apply try_ok.
      erewrite bind_ok by (unfold execute; simpl; rewrite Hq; reflexivity).
      reflexivity.
    + simpl. auto.
Qed.

Lemma get_enrollments_outcome (w : world) (g : uuid) :
  exists rows w',
    get_enrollments_details_for_group query_error g w = (Ok rows, w') /\
    db w' = db w /\ uuid4_calls w' = uuid4_calls w /\ connection w' = connection w /\
    (rows = [] \/ rows = select_enrollment_details (db w) g).
Proof.
  destruct w as [conn d t src calls scr cerr]. unfold get_enrollments_details_for_group.
  destruct conn.
  2:{ erewrite bind_ok by reflexivity. eexists _, _. split; [reflexivity |]. simpl. auto. }
  erewrite bind_ok by reflexivity. cbn [negb].
  destruct (query_error d (SelectEnrollmentDetails g)) as [errno |] eqn:Hq.
  - erewrite try_caught
      by (erewrite bind_raise; [reflexivity | unfold execute; simpl; rewrite Hq; reflexivity]).
    eexists _, _. split; [reflexivity |]. simpl. auto.
  - eexists _, _. split.
    + apply try_ok.
      erewrite bind_ok by (unfold execute; simpl; rewrite Hq; reflexivity).
      reflexivity.
    + simpl. auto.
Qed.

Lemma select_enrollment_details_In (d : database) (g : uuid) (r : enrollment_detail) :
  In r (select_enrollment_details d g) <->
  exists e s,
    In e (Enrollments d) /\ e_groupId e = g /\
    In s (Subscribers d) /\ e_subscriberId e = s_id s /\
    r = mkdetail (e_id e) (s_id s) (s_name s) (s_phoneNumber s)
          (e_assignedChitNumber e) (e_joinDate e).
Proof.
  unfold select_enrollment_details. rewrite order_by_In, in_flat_map. split.
  - intros (e & He & Hr). apply filter_In in He as [He Hg]. apply N.eqb_eq in Hg.
    apply in_map_iff in Hr as (s & <- & Hs). apply filter_In in Hs as [Hs Hid].
    apply N.eqb_eq in Hid. exists e, s. auto.
  - intros (e & s & He & Hg & Hs & Hid & ->). exists e. split.
    + apply filter_In. split; [assumption | now apply N.eqb_eq].
    + apply in_map_iff. exists s. split; [reflexivity |].
      apply filter_In. split; [assumption | now apply N.eqb_eq].
Qed.

(** X17.  The listings only read.  In every world and whatever the server
    answers, [get_installments_for_group] and
    [get_enrollments_details_for_group] return a list and raise nothing,
    leave the tables as they were and draw no identifier.  The installments
    returned are rows of the table that belong to the group, in ascending
    order of month number; the enrollment details returned are in ascending
    order of chit number, and each is made of an enrollment of the group and
    the subscriber it names (an enrollment whose subscriber is not in the
    table is not listed). *)
Theorem listings_only_read (w : world) (g : uuid) :
  (exists rows w',
     get_installments_for_group query_error g w = (Ok rows, w') /\
     db w' = db w /\ uuid4_calls w' = uuid4_calls w /\
     ascending (map i_monthNumber rows) /\
     (forall r, In r rows -> In r (Installments (db w)) /\ i_groupId r = g)) /\
  (exists rows w',
     get_enrollments_details_for_group query_error g w = (Ok rows, w') /\
     db w' = db w /\ uuid4_calls w' = uuid4_calls w /\
     ascending (map assignedChitNumber rows) /\
     (forall r, In r rows ->
        exists e s,
          In e (Enrollments (db w)) /\ e_groupId e = g /\
          In s (Subscribers (db w)) /\ e_subscriberId e = s_id s /\
          r = mkdetail (e_id e) (s_id s) (s_name s) (s_phoneNumber s)
                (e_assignedChitNumber e) (e_joinDate e))).
Proof.
  split.
  - destruct (get_installments_outcome w g) as (rows & w' & Hrun & Hdb & Hcalls & _ & Hrows).
    exists rows, w'. repeat (split; [assumption |]).
    destruct Hrows as [-> | ->]; [split; [exact I | intros r []] |].
    split; [apply order_by_ascending |].
    intros r Hr. unfold select_installments in Hr.
    apply order_by_In, filter_In in Hr as [Hr Hg]. apply N.eqb_eq in Hg. auto.
  - destruct (get_enrollments_outcome w g) as (rows & w' & Hrun & Hdb & Hcalls & _ & Hrows).
    exists rows, w'. repeat (split; [assumption |]).
    destruct Hrows as [-> | ->]; [split; [exact I | intros r []] |].
    split; [apply order_by_ascending |].
    intros r Hr. now apply select_enrollment_details_In.
Qed.

Lemma schedule_rows_months (g : uuid) (s : date) (src : nat -> uuid) (c : nat)
  (months : list Z) :
  map i_monthNumber (schedule_rows g s src c months) = months.
Proof.
  revert c. induction months as [| m later IH]; intros c; simpl; [reflexivity |].
  now rewrite IH.
Qed.

Lemma py_range_ascending (lo hi : Z) : ascending (py_range lo hi).
Proof.
  unfold py_range. generalize (Z.to_nat (hi - lo)) as n. generalize 0%nat as a.
  intros a n. revert a. induction n as [| n IH]; intros a; simpl; [exact I |].
  split; [| apply IH].
  intros y Hy. apply in_map_iff in Hy as (i & <- & Hi). apply in_seq in Hi. lia.
Qed.

(** X18.  What was generated is what the pages list.  Under the
    conditions of the schedule (a connection, a group without installments,
    a start date, a duration [D >= 1] that stays within year 9999, a server
    that takes the statements), [get_installments_for_group] called right
    after [generate_installments_for_group] returns exactly the [D] rows
    that were generated, in the order of their months, and nothing else. *)
Theorem generated_installments_are_listed (w : world) (g : uuid) (s : date) (D : Z) :
  connection w = true ->
  valid_date s = true ->
  1 <= D ->
  target_year s (D - 1) <= MAXYEAR ->
  count_installments (db w) g = 0 ->
  server_error (db w) (CountInstallments g) = None ->
  (forall rows, server_error (db w) (InsertInstallments rows) = None) ->
  (forall d, query_error d (SelectInstallments g) = None) ->
  exists rows w',
    generate_installments_for_group server_error g s D w = (Ok true, w') /\
    Installments (db w') = Installments (db w) ++ rows /\
    get_installments_for_group query_error g w' = (Ok rows, w') /\
    map i_monthNumber rows = py_range 1 (D + 1) /\
    Z.of_nat (List.length rows) = D.
Proof.
  intros Hconn Hvalid HD Hyear Hnone Hcount Hinsert Hquery.
  eexists _, _. split; [now apply generate_run |].
  split; [reflexivity |]. split; [| split].
  - rewrite get_installments_run; [| reflexivity | apply Hquery].
    f_equal. f_equal. unfold select_installments.
    cbn [db with_installments Installments].
    rewrite filter_app, (count_zero_filter _ _ Hnone), schedule_rows_group. cbn [app].
    apply order_by_sorted. rewrite schedule_rows_months. apply py_range_ascending.
  - apply schedule_rows_months.
  - rewrite schedule_rows_length, py_range_length; lia.
Qed.

End Listings.

(** A run of X17 in [underpaid_world]: the one installment of group 1
    and its two enrollments; the tables stay as they are. *)
Lemma listings_only_read_witness :
  (exists rows w',
     get_installments_for_group willing_queries 1 underpaid_world = (Ok rows, w') /\
     db w' = underpaid_db /\ map i_monthNumber rows = [1]) /\
  (exists rows w',
     get_enrollments_details_for_group willing_queries 1 underpaid_world = (Ok rows, w') /\
     db w' = underpaid_db /\ map assignedChitNumber rows = [1; 2]).
Proof.
  destruct (listings_only_read willing_queries underpaid_world 1)
    as ((rows & w' & Hrun & Hdb & _) & (details & w2 & Hrun2 & Hdb2 & _)).
  split.
  - exists rows, w'. split; [exact Hrun | split; [exact Hdb |]].
    vm_compute in Hrun. injection Hrun as <- _. reflexivity.
  - exists details, w2. split; [exact Hrun2 | split; [exact Hdb2 |]].
    vm_compute in Hrun2. injection Hrun2 as <- _. reflexivity.
Defined.

(** A run of X18 in [fresh_world]. *)
Lemma generated_installments_are_listed_witness :
  exists rows w',
    generate_installments_for_group willing_server 7 (mkdate 2025 1 31) 3 fresh_world
      = (Ok true, w') /\
    get_installments_for_group willing_queries 7 w' = (Ok rows, w') /\
    map i_monthNumber rows = [1; 2; 3].
Proof.
  destruct (generated_installments_are_listed willing_server willing_queries fresh_world 7
              (mkdate 2025 1 31) 3
              eq_refl eq_refl ltac:(lia) ltac:(vm_compute; discriminate)
              eq_refl eq_refl (fun _ => eq_refl) (fun _ => eq_refl))
    as (rows & w' & Hrun & _ & Hlist & Hmonths & _).
  exists rows, w'. split; [exact Hrun | split; [exact Hlist | exact Hmonths]].
Defined.

Section EnrollmentListing.

Variable server_error : database -> statement -> option Z.
Variable query_error : database -> query -> option Z.

Lemma insert_enrollment_exact (w : world) (sub g : uuid) (n : Z) (join : date) :
  connection w = true ->
  (forall r, server_error (db w) (InsertEnrollment r) = None) ->
  insert_enrollment server_error sub g n join w =
    (Ok true,
     mkworld true
       (mkdb (ChitGroups (db w)) (Subscribers (db w))
          (Enrollments (db w) ++
           [mkenrollment (uuid4_source w (uuid4_calls w)) sub g n join])
          (Installments (db w)) (InstallmentPayments (db w)))
       (now w) (uuid4_source w) (S (uuid4_calls w))
       (screen w ++ [(Success, [Txt "Subscriber enrolled successfully!"])])
       (connect_error w)).
Proof.
  intros Hconn Hsrv. destruct w as [conn d t src calls scr cerr]. simpl in *. subst conn.
  unfold insert_enrollment.
  erewrite bind_ok by reflexivity. cbn [negb].
  apply try_ok.
  erewrite bind_ok by reflexivity.
  erewrite bind_ok by (unfold Foremen.execute; simpl; rewrite Hsrv; reflexivity).
  reflexivity.
Qed.

(** X19.  An enrollment that was stored is listed.  In a world with a
    connection and a server that takes the statements, enrolling the
    subscriber [s] of the table in group [g] with chit number [n] appends
    one enrollment, and [get_enrollments_details_for_group] called right
    after lists it with the name and the phone number of [s], the number [n]
    and the join date given, in a list in ascending order of chit number.
    When the identifiers of the subscribers are a key, the listing has
    grown by exactly that one row. *)
Theorem enrollment_is_listed (w : world) (g : uuid) (s : subscriber_row) (n : Z)
  (join : date) :
  connection w = true ->
  (forall r, server_error (db w) (InsertEnrollment r) = None) ->
  (forall d, query_error d (SelectEnrollmentDetails g) = None) ->
  In s (Subscribers (db w)) ->
  let new_id := uuid4_source w (uuid4_calls w) in
  exists w1 rows,
    insert_enrollment server_error (s_id s) g n join w = (Ok true, w1) /\
    Enrollments (db w1) = Enrollments (db w) ++ [mkenrollment new_id (s_id s) g n join] /\
    get_enrollments_details_for_group query_error g w1 = (Ok rows, w1) /\
    In (mkdetail new_id (s_id s) (s_name s) (s_phoneNumber s) n join) rows /\
    ascending (map assignedChitNumber rows) /\
    (NoDup (map s_id (Subscribers (db w))) ->
     List.length rows = S (List.length (select_enrollment_details (db w) g))).
Proof.
  intros Hconn Hsrv Hquery Hs new_id. subst new_id.
  eexists _, _. split; [now apply insert_enrollment_exact |].
  split; [reflexivity |].
  split; [apply get_enrollments_run; [reflexivity | apply Hquery] |].
  cbn [db]. split; [| split].
  - apply select_enrollment_details_In. cbn [Enrollments Subscribers].
    exists (mkenrollment (uuid4_source w (uuid4_calls w)) (s_id s) g n join), s.
    repeat split; try assumption. apply in_or_app. right. now left.
  - apply order_by_ascending.
  - intros Hns. unfold select_enrollment_details. rewrite !order_by_length.
    cbn [Enrollments Subscribers]. rewrite filter_app, flat_map_app, length_app.
    cbn [filter e_groupId]. rewrite N.eqb_refl. cbn [flat_map e_subscriberId].
    rewrite (filter_key_unique s_id _ s Hns Hs). simpl. lia.
Qed.

End EnrollmentListing.

(** A run of X19: Ravi is enrolled a second time, with chit number 7. *)
Lemma enrollment_is_listed_witness :
  exists w1 rows,
    insert_enrollment willing_server 11 1 7 (mkdate 2025 2 1) underpaid_world = (Ok true, w1) /\
    get_enrollments_details_for_group willing_queries 1 w1 = (Ok rows, w1) /\
    map (fun r => (subscriberName r, assignedChitNumber r)) rows
    = [("Asha"%string, 1); ("Ravi"%string, 2); ("Ravi"%string, 7)].
Proof.
  destruct (enrollment_is_listed willing_server willing_queries underpaid_world 1
              (mksubscriber 11 "Ravi" "9000000002" EmptyString noon true) 7 (mkdate 2025 2 1)
              eq_refl (fun _ => eq_refl) (fun _ => eq_refl) ltac:(simpl; auto))
    as (w1 & rows & Hrun & _ & Hlist & _).
  exists w1, rows. split; [exact Hrun | split; [exact Hlist |]].
  vm_compute in Hrun. injection Hrun as <-.
  vm_compute in Hlist. injection Hlist as <-. reflexivity.
Defined.

(* ===================================================================== *)
(** * Recording an auction *)
(* ===================================================================== *)

Section Auctions.

Variable query_error : database -> query -> option Z.
Variable rowcount : database -> query -> Z.
Variable month_label : Z -> date -> string.
Variable subscriber_label : string -> Z -> string.

(** The call in any world: it raises nothing, and the tables are as
    before or hold the update. *)
Lemma update_auction_outcome (w : world) (id : uuid) (prize : float) (winner : uuid) :
  exists b w',
    update_installment_auction query_error rowcount id prize winner w = (Ok b, w') /\
    (db w' = db w \/
     (connection w = true /\
      query_error (db w) (UpdateInstallmentAuction prize winner id) = None /\
      db w' = with_installments (map (set_auction prize winner id) (Installments (db w)))
                (db w) /\
      b = (0 <? rowcount (db w) (UpdateInstallmentAuction prize winner id)))) /\
    (connection w = true ->
     query_error (db w) (UpdateInstallmentAuction prize winner id) = None ->
     db w' = with_installments (map (set_auction prize winner id) (Installments (db w)))
               (db w) /\
     b = (0 <? rowcount (db w) (UpdateInstallmentAuction prize winner id))).
Proof.
  destruct w as [conn d t src calls scr cerr]. unfold update_installment_auction.
  destruct conn.
  2:{ erewrite bind_ok by reflexivity. eexists _, _. split; [reflexivity |].
      simpl. split; [now left | discriminate]. }
  erewrite bind_ok by reflexivity. cbn [negb].
  destruct (query_error d (UpdateInstallmentAuction prize winner id)) as [errno |] eqn:Hq.
  - erewrite try_caught.
    2:{ erewrite bind_ok by reflexivity.
        erewrite bind_raise; [reflexivity |].
        unfold execute. simpl. rewrite Hq. reflexivity. }
    eexists _, _. split; [reflexivity |]. simpl. split; [now left | congruence].
  - destruct (0 <? rowcount d (UpdateInstallmentAuction prize winner id)) eqn:Hcount.
    + eexists _, _. split.
      * apply try_ok.
        erewrite bind_ok by reflexivity.
        erewrite bind_ok by (unfold execute; simpl; rewrite Hq; reflexivity).
        erewrite bind_ok by reflexivity.
        simpl. rewrite Hcount. reflexivity.
      * simpl. split; [right |]; auto.
    + eexists _, _. split.
      * apply try_ok.
        erewrite bind_ok by reflexivity.
        erewrite bind_ok by (unfold execute; simpl; rewrite Hq; reflexivity).
        erewrite bind_ok by reflexivity.
        simpl. rewrite Hcount. reflexivity.
      * simpl. split; [right |]; auto.
Qed.

Lemma set_auction_other (prize : float) (winner id : uuid) (r : installment_row) :
  i_id r <> id -> set_auction prize winner id r = r.
Proof. intros H. unfold set_auction. apply N.eqb_neq in H. now rewrite H. Qed.

Lemma set_auction_keeps (prize : float) (winner id : uuid) (r : installment_row) :
  i_id (set_auction prize winner id r) = i_id r /\
  i_groupId (set_auction prize winner id r) = i_groupId r /\
  i_monthNumber (set_auction prize winner id r) = i_monthNumber r /\
  i_dueDate (set_auction prize winner id r) = i_dueDate r /\
  i_isCompleted (set_auction prize winner id r) = i_isCompleted r.
Proof. unfold set_auction. destruct (i_id r =? id)%N; repeat split. Qed.

(** X20.  [update_installment_auction] in any world, whatever the server
    answers and whatever [rowcount] reads: it returns [True] or [False] and
    raises nothing; it touches no table but [Installments]; there it adds
    and removes no row and leaves every identifier, group, month number, due
    date and completion flag as it was; a row with another identifier is
    exactly as before.  With a connection and a server that takes the
    UPDATE, every row with the identifier has its auction marked as
    conducted with the prize and the winner given, and the call returns
    [True] exactly when [rowcount] is above zero. *)
Theorem auction_update_touches_one_installment (w : world) (id : uuid) (prize : float)
  (winner : uuid) :
  exists b w',
    update_installment_auction query_error rowcount id prize winner w = (Ok b, w') /\
    ChitGroups (db w') = ChitGroups (db w) /\
    Subscribers (db w') = Subscribers (db w) /\
    Enrollments (db w') = Enrollments (db w) /\
    InstallmentPayments (db w') = InstallmentPayments (db w) /\
    map (fun r => (i_id r, i_groupId r, i_monthNumber r, i_dueDate r, i_isCompleted r))
      (Installments (db w'))
    = map (fun r => (i_id r, i_groupId r, i_monthNumber r, i_dueDate r, i_isCompleted r))
        (Installments (db w)) /\
    (forall k r, nth_error (Installments (db w)) k = Some r -> i_id r <> id ->
       nth_error (Installments (db w')) k = Some r) /\
    (connection w = true ->
     query_error (db w) (UpdateInstallmentAuction prize winner id) = None ->
     (forall r, In r (Installments (db w')) -> i_id r = id ->
        i_isAuctionConducted r = true /\
        i_auctionPrizeAmount r = Some prize /\
        i_auctionWinnerId r = Some winner) /\
     (b = true <-> 0 < rowcount (db w) (UpdateInstallmentAuction prize winner id))).
Proof.
  destruct (update_auction_outcome w id prize winner) as (b & w' & Hrun & Hdb & Htaken).
  exists b, w'. split; [exact Hrun |].
  assert (Hshape : db w' = db w \/
            db w' = with_installments (map (set_auction prize winner id) (Installments (db w)))
                      (db w)).
  { destruct Hdb as [Hdb | (_ & _ & Hdb & _)]; auto. }
  split; [| split; [| split; [| split; [| split; [| split]]]]].
  - destruct Hshape as [-> | ->]; reflexivity.
  - destruct Hshape as [-> | ->]; reflexivity.
  - destruct Hshape as [-> | ->]; reflexivity.
  - destruct Hshape as [-> | ->]; reflexivity.
  - destruct Hshape as [-> | ->]; [reflexivity |].
    cbn [with_installments Installments]. rewrite map_map. apply map_ext. intros r.
    destruct (set_auction_keeps prize winner id r) as (-> & -> & -> & -> & ->). reflexivity.
  - intros k r Hk Hid. destruct Hshape as [-> | ->]; [exact Hk |].
    cbn [with_installments Installments].
    rewrite nth_error_map, Hk. simpl. now rewrite set_auction_other.
  - intros Hconn Hq. destruct (Htaken Hconn Hq) as [-> ->]. split.
    + cbn [with_installments Installments]. intros r Hr Hid.
      apply in_map_iff in Hr as (r0 & <- & _). unfold set_auction in *.
      destruct (i_id r0 =? id)%N eqn:E; [repeat split |].
      apply N.eqb_neq in E. contradiction.
    + rewrite Z.ltb_lt. tauto.
Qed.

Lemma dict_get_In {V : Type} (options : list (string * V)) (key : string) (v : V) :
  dict_get options key = Some v -> In (key, v) options.
Proof.
  unfold dict_get. destruct (find _ (rev options)) as [[k v'] |] eqn:Hfind; [| discriminate].
  simpl. intros [= <-]. apply find_some in Hfind as [Hin Hk].
  apply String.eqb_eq in Hk. simpl in Hk. subst k. now apply in_rev.
Qed.

Lemma NoDup_map_In_eq {T : Type} (f : T -> N) (l : list T) (x y : T) :
  NoDup (map f l) -> In x l -> In y l -> f x = f y -> x = y.
Proof.
  induction l as [| z l IH]; intros Hnd Hx Hy Hf; [destruct Hx |].
  simpl in Hnd. inversion Hnd as [| ? ? Hnotin Hnd']; subst.
  destruct Hx as [-> | Hx], Hy as [-> | Hy]; try reflexivity.
  - exfalso. apply Hnotin. rewrite Hf. now apply in_map.
  - exfalso. apply Hnotin. rewrite <- Hf. now apply in_map.
  - now apply IH.
Qed.

(** X21.  The form [record_auction_form] never overwrites a recorded
    auction.  When the identifiers of the installments are a key, then
    whatever the widgets hold, whatever the server answers and whatever
    [rowcount] reads, the part "View Installments by Group" for group [g]
    ends without an exception, and afterwards every installment whose
    auction was recorded before is exactly as it was, and so is every
    installment of another group; no installment is added or removed and no
    other table is touched.  The form offers the installments without an
    auction only, so a recorded prize and winner stay. *)
Theorem recorded_auctions_are_kept (w : world) (g : uuid)
  (group_name installment_name : string) (prize : float) (winner_name : string)
  (button : bool) :
  NoDup (map i_id (Installments (db w))) ->
  exists w',
    view_installments query_error rowcount month_label subscriber_label
      g group_name installment_name prize winner_name button w = (Ok tt, w') /\
    (forall k r, nth_error (Installments (db w)) k = Some r ->
       i_isAuctionConducted r = true \/ i_groupId r <> g ->
       nth_error (Installments (db w')) k = Some r) /\
    List.length (Installments (db w')) = List.length (Installments (db w)) /\
    ChitGroups (db w') = ChitGroups (db w) /\
    Subscribers (db w') = Subscribers (db w) /\
    Enrollments (db w') = Enrollments (db w) /\
    InstallmentPayments (db w') = InstallmentPayments (db w).
Proof.
  intros Hnd.
  assert (Hsame : forall w0 : world, db w0 = db w ->
            (forall k r, nth_error (Installments (db w)) k = Some r ->
               i_isAuctionConducted r = true \/ i_groupId r <> g ->
               nth_error (Installments (db w0)) k = Some r) /\
            List.length (Installments (db w0)) = List.length (Installments (db w)) /\
            ChitGroups (db w0) = ChitGroups (db w) /\
            Subscribers (db w0) = Subscribers (db w) /\
            Enrollments (db w0) = Enrollments (db w) /\
            InstallmentPayments (db w0) = InstallmentPayments (db w)).
  { intros w0 ->. repeat split. auto. }
  unfold view_installments.
  destruct (get_installments_outcome query_error w g)
    as (installments & w1 & Hrun1 & Hdb1 & _ & _ & Hrows).
  erewrite bind_ok by exact Hrun1.
  destruct installments as [| first more].
  { eexists. split; [reflexivity |]. apply Hsame. destruct w1; exact Hdb1. }
  cbv beta iota zeta.
  remember (filter (fun inst => negb (i_isAuctionConducted inst)) (first :: more))
    as open_installments eqn:Hos.
  assert (Hopen : forall r, In r open_installments ->
            In r (Installments (db w)) /\ i_groupId r = g /\ i_isAuctionConducted r = false).
  { intros r Hr. rewrite Hos in Hr. apply filter_In in Hr as [Hr Hflag].
    apply negb_true_iff in Hflag.
    destruct Hrows as [Hrows | Hrows]; [discriminate |].
    rewrite Hrows in Hr. unfold select_installments in Hr.
    apply order_by_In, filter_In in Hr as [Hr Hg]. apply N.eqb_eq in Hg. auto. }
  clear Hos.
  destruct open_installments as [| o os].
  { eexists. split; [reflexivity |]. apply Hsame. destruct w1; exact Hdb1. }
  destruct (get_enrollments_outcome query_error w1 g)
    as (enrolled & w2 & Hrun2 & Hdb2 & _ & _ & _).
  rewrite Hdb1 in Hdb2.
  erewrite bind_ok by exact Hrun2.
  destruct enrolled as [| sub subs].
  { eexists. split; [reflexivity |]. apply Hsame. destruct w2; exact Hdb2. }
  cbv beta iota zeta.
  destruct button;
    [| eexists; split; [reflexivity |]; apply Hsame; destruct w2; exact Hdb2].
  destruct (dict_get
              (map (fun inst => (month_label (i_monthNumber inst) (i_dueDate inst), i_id inst))
                 (o :: os)) installment_name) as [inst_id |] eqn:Hpick;
    [| eexists; split; [reflexivity |]; apply Hsame; destruct w2; exact Hdb2].
  destruct (dict_get
              (map (fun sub0 => (subscriber_label (subscriberName sub0) (assignedChitNumber sub0),
                                 subscriberId sub0)) (sub :: subs)) winner_name)
    as [winner_id |] eqn:Hwinner;
    [| eexists; split; [reflexivity |]; apply Hsame; destruct w2; exact Hdb2].
  destruct (Py.le (PyInt 0) (PyFloat prize)) eqn:Hprize;
    [| eexists; split; [reflexivity |]; apply Hsame; destruct w2; exact Hdb2].
  destruct (update_auction_outcome w2 inst_id prize winner_id)
    as (b & w3 & Hrun3 & Hdb3 & _).
  erewrite bind_ok by exact Hrun3.
  assert (Hend : exists w4, (if b then Foremen.rerun else ret tt) w3 = (Ok tt, w4) /\
                            db w4 = db w3).
  { destruct b; eexists; (split; [reflexivity |]); [destruct w3 |]; reflexivity. }
  destruct Hend as (w4 & Hend & Hdb4).
  exists w4. split; [exact Hend |].
  rewrite Hdb2, <- Hdb4 in Hdb3.
  destruct Hdb3 as [Hdb3 | (_ & _ & Hdb3 & _)]; [apply Hsame; exact Hdb3 |].
  rewrite Hdb3. cbn [with_installments Installments ChitGroups Subscribers Enrollments
                      InstallmentPayments].
  split; [| rewrite length_map; repeat split].
  intros k r Hk Hkeep. rewrite nth_error_map, Hk. simpl. f_equal.
  apply set_auction_other. intros Hid.
  apply dict_get_In, in_map_iff in Hpick as (r0 & Hr0 & Hin0).
  injection Hr0 as _ Hr0.
  destruct (Hopen r0 Hin0) as (Hin & Hg0 & Hflag0).
  assert (E : r = r0).
  { apply (NoDup_map_In_eq i_id (Installments (db w))); try assumption.
    - now apply nth_error_In in Hk.
    - congruence. }
  subst r0. destruct Hkeep as [Hflag | Hg]; congruence.
Qed.

End Auctions.

(** A run of X20 in [auction_world]: the auction of month 3 is
    recorded, months 1 and 2 are as before. *)
Lemma auction_update_touches_one_installment_witness :
  exists w',
    update_installment_auction willing_queries matched_rows 32 95000 11 auction_world
      = (Ok true, w') /\
    map (fun r => (i_monthNumber r, i_isAuctionConducted r, i_auctionWinnerId r))
      (Installments (db w'))
    = [(1, false, None); (2, true, Some 10%N); (3, true, Some 11%N)].
Proof.
  destruct (auction_update_touches_one_installment willing_queries matched_rows
              auction_world 32 95000 11) as (b & w' & Hrun & _).
  exists w'. vm_compute in Hrun. injection Hrun as <- <-. split; reflexivity.
Defined.

(** A run of X21 in [auction_world], where month 2 has its auction
    recorded: selecting "Month 3" records the auction of month 3; the label
    of month 2 is not among the options, so selecting it changes nothing. *)
Lemma recorded_auctions_are_kept_witness :
  (exists w',
     view_installments willing_queries matched_rows plain_month_label plain_subscriber_label
       1 "Group A" "Month 3" 95000 "Ravi" true auction_world = (Ok tt, w') /\
     map (fun r => (i_monthNumber r, i_auctionPrizeAmount r, i_auctionWinnerId r))
       (Installments (db w'))
     = [(1, None, None); (2, Some 90000%float, Some 10%N); (3, Some 95000%float, Some 11%N)]) /\
  db (snd (view_installments willing_queries matched_rows plain_month_label
             plain_subscriber_label 1 "Group A" "Month 2" 1 "Ravi" true auction_world))
  = auction_db.
Proof.
  assert (Hnd : NoDup (map i_id (Installments (db auction_world)))).
  { simpl. repeat constructor; simpl; intuition discriminate. }
  destruct (recorded_auctions_are_kept willing_queries matched_rows plain_month_label
              plain_subscriber_label auction_world 1 "Group A" "Month 3" 95000 "Ravi" true Hnd)
    as (w' & Hrun & _).
  split.
  - exists w'. split; [exact Hrun |].
    vm_compute in Hrun. injection Hrun as <-. reflexivity.
  - vm_compute. reflexivity.
Defined.

(* ===================================================================== *)
(** * The other forms *)
(* ===================================================================== *)

Section Forms.

Variable server_error : database -> statement -> option Z.
Variable query_error : database -> query -> option Z.

Lemma insert_subscriber_exact (w : world) (name phone address : string) :
  connection w = true ->
  (forall r, server_error (db w) (InsertSubscriber r) = None) ->
  insert_subscriber server_error name phone address w =
    (Ok true,
     mkworld true
       (mkdb (ChitGroups (db w))
          (Subscribers (db w) ++
           [mksubscriber (uuid4_source w (uuid4_calls w)) name phone address (now w) true])
          (Enrollments (db w)) (Installments (db w)) (InstallmentPayments (db w)))
       (now w) (uuid4_source w) (S (uuid4_calls w))
       (screen w ++ [(Success, [Txt "Subscriber '"; Txt name; Txt "' added successfully!"])])
       (connect_error w)).
Proof.
  intros Hconn Hsrv. destruct w as [conn d t src calls scr cerr]. simpl in *. subst conn.
  unfold insert_subscriber.
  erewrite bind_ok by reflexivity. cbn [negb].
  apply try_ok.
  erewrite bind_ok by reflexivity.
  erewrite bind_ok by reflexivity.
  erewrite bind_ok by (unfold Foremen.execute; simpl; rewrite Hsrv; reflexivity).
  reflexivity.
Qed.

(** X22.  The form [add_subscriber_form] with the button pressed: an
    empty name or an empty phone number gives the warning "Please fill in
    the Subscriber's Name and Phone Number." and leaves the world otherwise
    as it was; with both filled in, in a world with a connection whose
    server takes the INSERT, one subscriber is appended with the name, the
    phone number and the address as given (the address may be empty), the
    reading of the clock as creation date, the active flag, and the next
    identifier drawn.  Without the button nothing happens. *)
Theorem add_subscriber_form_validation (w : world) (name phone address : string) :
  (name = EmptyString \/ phone = EmptyString ->
   add_subscriber_form server_error name phone address true w =
     (Ok tt,
      shown Warning [Txt "Please fill in the Subscriber's Name and Phone Number."] w)) /\
  (name <> EmptyString -> phone <> EmptyString ->
   connection w = true ->
   (forall r, server_error (db w) (InsertSubscriber r) = None) ->
   exists w',
     add_subscriber_form server_error name phone address true w = (Ok tt, w') /\
     db w' =
       mkdb (ChitGroups (db w))
         (Subscribers (db w) ++
          [mksubscriber (uuid4_source w (uuid4_calls w)) name phone address (now w) true])
         (Enrollments (db w)) (Installments (db w)) (InstallmentPayments (db w))) /\
  add_subscriber_form server_error name phone address false w = (Ok tt, w).
Proof.
  split; [| split].
  - intros Hbad. unfold add_subscriber_form.
    replace (negb (String.eqb name EmptyString) && negb (String.eqb phone EmptyString))
      with false; [reflexivity |].
    destruct Hbad as [-> | ->]; [reflexivity | now rewrite andb_false_r].
  - intros Hname Hphone Hconn Hsrv. unfold add_subscriber_form.
    apply String.eqb_neq in Hname, Hphone. rewrite Hname, Hphone. cbn [negb andb].
    eexists. split;
      [erewrite bind_ok by (now apply insert_subscriber_exact); reflexivity | reflexivity].
  - reflexivity.
Qed.

(** The dictionary of a list of options keeps, for a name, the
    identifier of the last option with that name. *)
Lemma dict_get_last {V : Type} (before after : list (string * V)) (key : string) (v : V) :
  ~ In key (map fst after) ->
  dict_get (before ++ (key, v) :: after) key = Some v.
Proof.
  intros Hnotin. unfold dict_get.
  rewrite rev_app_distr. simpl rev. rewrite <- app_assoc. simpl app.
  assert (Hnone : forall l : list (string * V),
            ~ In key (map fst l) -> forall rest,
            find (fun p => String.eqb (fst p) key) (rev l ++ rest)
            = find (fun p => String.eqb (fst p) key) rest).
  { induction l as [| [k x] l IH]; intros Hl rest; [reflexivity |].
    simpl in *. rewrite <- app_assoc. rewrite IH by tauto. simpl.
    replace (String.eqb k key) with false; [reflexivity |].
    symmetry. apply String.eqb_neq. tauto. }
  rewrite Hnone by exact Hnotin. simpl. now rewrite String.eqb_refl.
Qed.

Lemma dict_get_none {V : Type} (options : list (string * V)) (key : string) :
  ~ In key (map fst options) -> dict_get options key = None.
Proof.
  intros Hnotin. unfold dict_get.
  destruct (find _ (rev options)) as [[k v] |] eqn:Hfind; [| reflexivity].
  exfalso. apply find_some in Hfind as [Hin Hk]. apply String.eqb_eq in Hk. simpl in Hk.
  subst k. apply Hnotin. apply in_rev in Hin. now apply (in_map fst) in Hin.
Qed.

(** X23.  The form [add_enrollment_form] with the button pressed and two
    option lists that are not empty.  A chit number below 1, or a name that
    is not among the options, gives the warning "Please select a Group and
    Subscriber ..." and leaves the world otherwise as it was.  Otherwise,
    in a world with a connection whose server takes the INSERT, one
    enrollment is appended, with the number and the join date given and
    with the identifiers of the last option of each list that carries the
    selected name: of two groups with the same name, the one listed later
    gets the enrollment. *)
Theorem add_enrollment_form_picks_last_option (w : world)
  (group_options subscriber_options : list (string * uuid))
  (group_name subscriber_name : string) (n : Z) (join : date) :
  group_options <> [] -> subscriber_options <> [] ->
  let warning :=
    shown Warning [Txt "Please select a Group and Subscriber and provide a valid Assigned Number and Join Date."] w in
  (n < 1 \/ ~ In group_name (map fst group_options)
         \/ ~ In subscriber_name (map fst subscriber_options) ->
   add_enrollment_form server_error group_options subscriber_options
     group_name subscriber_name n join true w = (Ok tt, warning)) /\
  (forall gbefore gid gafter sbefore sid safter,
     group_options = gbefore ++ (group_name, gid) :: gafter ->
     ~ In group_name (map fst gafter) ->
     subscriber_options = sbefore ++ (subscriber_name, sid) :: safter ->
     ~ In subscriber_name (map fst safter) ->
     1 <= n ->
     connection w = true ->
     (forall r, server_error (db w) (InsertEnrollment r) = None) ->
     exists w',
       add_enrollment_form server_error group_options subscriber_options
         group_name subscriber_name n join true w = (Ok tt, w') /\
       Enrollments (db w') =
         Enrollments (db w) ++
         [mkenrollment (uuid4_source w (uuid4_calls w)) sid gid n join]).
Proof.
  intros Hg Hs warning. subst warning.
  destruct group_options as [| go gos]; [congruence |].
  destruct subscriber_options as [| so sos]; [congruence |].
  unfold add_enrollment_form. split.
  - intros Hbad.
    destruct (dict_get (go :: gos) group_name) as [gid |] eqn:Egroup;
      [| reflexivity].
    destruct (dict_get (so :: sos) subscriber_name) as [sid |] eqn:Esub;
      [| reflexivity].
    destruct Hbad as [Hn | [Hgn | Hsn]].
    + apply Z.leb_gt in Hn. now rewrite Hn.
    + rewrite dict_get_none in Egroup by exact Hgn. discriminate.
    + rewrite dict_get_none in Esub by exact Hsn. discriminate.
  - intros gbefore gid gafter sbefore sid safter Egroup Hgafter Esub Hsafter Hn Hconn Hsrv.
    rewrite Egroup, Esub, (dict_get_last _ _ _ _ Hgafter), (dict_get_last _ _ _ _ Hsafter).
    apply Z.leb_le in Hn. rewrite Hn.
    eexists. split;
      [erewrite bind_ok by (now apply insert_enrollment_exact); reflexivity | reflexivity].
Qed.

(** X24.  The button "Generate Installments" takes the schedule from the
    stored group.  For a selected name that the option list maps to the
    identifier of the group [gr], the one row of [ChitGroups] with that
    identifier, in a world with a connection and a server that answers the
    statements: when the stored duration is zero or less, the button gives
    the warning "Could not fetch required details ..." and generates
    nothing; when it is [D >= 1], the stored start date is a date, the last
    due month is not after year 9999 and the group has no installments, the
    button appends [D] installments of the group with the month numbers
    1..D, the first one due on the stored start date. *)
Theorem generate_button_uses_stored_group (w : world) (options : list (string * uuid))
  (name : string) (gr : group_row) :
  connection w = true ->
  name <> EmptyString ->
  dict_get options name = Some (g_id gr) ->
  select_group_details (db w) (g_id gr) = [gr] ->
  (forall d, query_error d (SelectGroupDetails (g_id gr)) = None) ->
  (g_duration gr <= 0 ->
   generate_installments_button server_error query_error options name true w =
     (Ok tt,
      shown Warning [Txt "Could not fetch required details (Start Date or Duration) for the selected group."] w)) /\
  (1 <= g_duration gr ->
   valid_date (g_startDate gr) = true ->
   target_year (g_startDate gr) (g_duration gr - 1) <= MAXYEAR ->
   count_installments (db w) (g_id gr) = 0 ->
   server_error (db w) (CountInstallments (g_id gr)) = None ->
   (forall rows, server_error (db w) (InsertInstallments rows) = None) ->
   exists rows w',
     generate_installments_button server_error query_error options name true w = (Ok tt, w') /\
     Installments (db w') = Installments (db w) ++ rows /\
     map i_monthNumber rows = py_range 1 (g_duration gr + 1) /\
     map i_dueDate rows = map (due_date_of (g_startDate gr)) (py_range 1 (g_duration gr + 1)) /\
     Forall (fun r => i_groupId r = g_id gr) rows /\
     Z.of_nat (List.length rows) = g_duration gr /\
     (exists first, hd_error rows = Some first /\ i_dueDate first = g_startDate gr)).
Proof.
  intros Hconn Hname Hpick Hrow Hquery.
  unfold generate_installments_button.
  destruct options as [| o os]; [discriminate Hpick |].
  apply String.eqb_neq in Hname. rewrite Hname. cbn [negb andb]. rewrite Hpick.
  erewrite bind_ok by (apply get_group_details_run; [exact Hconn | apply Hquery]).
  rewrite Hrow. cbn [hd_error].
  split.
  - intros Hd. apply Z.ltb_ge in Hd. now rewrite Hd.
  - intros Hd Hvalid Hyear Hnone Hcount Hinsert.
    assert (Hpos : (0 <? g_duration gr) = true) by (apply Z.ltb_lt; lia).
    rewrite Hpos.
    erewrite bind_ok by (now apply generate_run).
    eexists _, _. split; [reflexivity |].
    cbn [db with_installments Installments].
    split; [reflexivity | split; [apply schedule_rows_months | split; [| split; [| split]]]].
    + generalize (uuid4_calls w) as c. generalize (py_range 1 (g_duration gr + 1)) as months.
      induction months as [| m later IH]; intros c; simpl; [reflexivity | now rewrite IH].
    + generalize (uuid4_calls w) as c. generalize (py_range 1 (g_duration gr + 1)) as months.
      induction months as [| m later IH]; intros c; simpl; constructor; [reflexivity | apply IH].
    + rewrite schedule_rows_length, py_range_length; lia.
    + assert (Hfirst : exists later, py_range 1 (g_duration gr + 1) = 1 :: later).
      { unfold py_range. replace (Z.to_nat (g_duration gr + 1 - 1))
          with (S (Z.to_nat (g_duration gr - 1))) by lia.
        simpl. eexists. reflexivity. }
      destruct Hfirst as [later ->]. simpl. eexists. split; [reflexivity |].
      simpl. unfold due_date_of. change (1 - 1) with 0.
      destruct (add_months_ok_inv _ _ 0 Hvalid (add_months_zero _ Hvalid)) as (E & _).
      symmetry. exact E.
Qed.

End Forms.

(** A run of X22: a subscriber without a phone number is refused, one
    with both is stored with the reading of the clock. *)
Lemma add_subscriber_form_validation_witness :
  add_subscriber_form willing_server "Meena" EmptyString "12 Main Road" true fresh_world =
    (Ok tt,
     shown Warning [Txt "Please fill in the Subscriber's Name and Phone Number."] fresh_world) /\
  (exists w',
     add_subscriber_form willing_server "Meena" "9000000003" EmptyString true fresh_world
       = (Ok tt, w') /\
     Subscribers (db w') = [mksubscriber 4096 "Meena" "9000000003" EmptyString noon true]).
Proof.
  destruct (add_subscriber_form_validation willing_server fresh_world
              "Meena" EmptyString "12 Main Road") as (Hrefused & _).
  destruct (add_subscriber_form_validation willing_server fresh_world
              "Meena" "9000000003" EmptyString) as (_ & Htaken & _).
  destruct (Htaken ltac:(discriminate) ltac:(discriminate) eq_refl (fun _ => eq_refl))
    as (w' & Hrun & Hdb).
  split; [exact (Hrefused (or_intror eq_refl)) |].
  exists w'. split; [exact Hrun |]. rewrite Hdb. reflexivity.
Defined.

(** A run of X23: two groups are called "Group A", with the identifiers
    1 and 2; the enrollment goes to group 2. *)
Lemma add_enrollment_form_picks_last_option_witness :
  exists w',
    add_enrollment_form willing_server
      [("Group A"%string, 1%N); ("Group A"%string, 2%N); ("Group B"%string, 3%N)]
      [("Asha"%string, 10%N)] "Group A" "Asha" 5 (mkdate 2025 2 1) true underpaid_world
    = (Ok tt, w') /\
    map e_groupId (Enrollments (db w')) = [1%N; 1%N; 2%N].
Proof.
  destruct (add_enrollment_form_picks_last_option willing_server underpaid_world
              [("Group A"%string, 1%N); ("Group A"%string, 2%N); ("Group B"%string, 3%N)]
              [("Asha"%string, 10%N)] "Group A" "Asha" 5 (mkdate 2025 2 1)
              ltac:(discriminate) ltac:(discriminate)) as (_ & Htaken).
  destruct (Htaken [("Group A"%string, 1%N)] 2%N [("Group B"%string, 3%N)] [] 10%N []
              eq_refl ltac:(simpl; intuition discriminate) eq_refl ltac:(simpl; tauto)
              ltac:(lia) eq_refl (fun _ => eq_refl)) as (w' & Hrun & Hrows).
  exists w'. split; [exact Hrun |]. rewrite Hrows. reflexivity.
Defined.

(** A run of X24: "Group A" of [underpaid_world], stored with 20 months
    from January 31, once its one installment is taken out of the table. *)
Lemma generate_button_uses_stored_group_witness :
  exists rows w',
    generate_installments_button willing_server willing_queries [("Group A"%string, 1%N)]
      "Group A" true
      (mkworld true (with_installments [] underpaid_db) noon counting_uuids 0 [] None)
    = (Ok tt, w') /\
    Installments (db w') = rows /\
    Z.of_nat (List.length rows) = 20 /\
    (exists first, hd_error rows = Some first /\ i_dueDate first = mkdate 2025 1 31).
Proof.
  destruct (generate_button_uses_stored_group willing_server willing_queries
              (mkworld true (with_installments [] underpaid_db) noon counting_uuids 0 [] None)
              [("Group A"%string, 1%N)] "Group A"
              (mkgroup 1 "Group A" 100000 20 20 (mkdate 2025 1 31) (Some 5%float) true)
              eq_refl ltac:(discriminate) eq_refl eq_refl (fun _ => eq_refl))
    as (_ & Hgenerate).
  destruct (Hgenerate ltac:(simpl; lia) eq_refl ltac:(vm_compute; discriminate)
              eq_refl eq_refl (fun _ => eq_refl))
    as (rows & w' & Hrun & Hrows & _ & _ & _ & Hlen & Hfirst).
  exists rows, w'. repeat split; assumption.
Defined.

(* ===================================================================== *)
(** * Without a connection *)
(* ===================================================================== *)

Section Offline.

Variable server_error : database -> statement -> option Z.
Variable query_error : database -> query -> option Z.
Variable rowcount : database -> query -> Z.

(** X25.  Without a connection every database function gives up at
    once: it returns [False], or the empty list, or [None], after the one
    message of [get_db_connection]; no statement is sent, so the tables are
    as they were, no identifier is drawn and the clock is not read.  The
    message is "Database connection error: Unable to connect. ... Details:
    ..." with the error when [connect] raised, and "Database connection
    failed." when the connection it gave is not connected. *)
Theorem without_connection_nothing_is_sent (w : world) :
  connection w = false ->
  let w' := set_screen (screen w ++ [no_connection (connect_error w)]) w in
  (forall name value subs dur start commission,
     insert_group server_error name value subs dur start commission w = (Ok false, w')) /\
  (forall name phone address,
     insert_subscriber server_error name phone address w = (Ok false, w')) /\
  (forall sub g n join,
     insert_enrollment server_error sub g n join w = (Ok false, w')) /\
  (forall g s D,
     generate_installments_for_group server_error g s D w = (Ok false, w')) /\
  (forall inst sub amount notes,
     insert_payment server_error inst sub amount notes w = (Ok false, w')) /\
  (forall g m,
     get_payment_status_for_installment server_error g m w = (Ok [], w')) /\
  (forall g, get_installments_for_group query_error g w = (Ok [], w')) /\
  (forall g, get_enrollments_details_for_group query_error g w = (Ok [], w')) /\
  (forall id, get_group_details_by_id query_error id w = (Ok None, w')) /\
  (forall id prize winner,
     update_installment_auction query_error rowcount id prize winner w = (Ok false, w')) /\
  db w' = db w /\ uuid4_calls w' = uuid4_calls w /\
  (forall errno,
     connect_error w = Some errno ->
     w' = shown Error
            [Txt "Database connection error: Unable to connect. Please check your credentials and database status. Details: ";
             Exc (MySQLError errno)] w) /\
  (connect_error w = None -> w' = shown Error [Txt "Database connection failed."] w).
Proof.
  intros Hconn w'. subst w'.
  destruct w as [conn d t src calls scr cerr]. simpl in Hconn. subst conn.
  repeat split; simpl; intros; subst cerr; reflexivity.
Qed.

End Offline.

(** A run of X25: in [offline_world], where the connection is not
    connected, and in [unreachable_world], where [connect] raises the error
    2003. *)
Lemma without_connection_nothing_is_sent_witness :
  insert_payment willing_server 30 11 5000 EmptyString offline_world =
    (Ok false, shown Error [Txt "Database connection failed."] offline_world) /\
  generate_installments_for_group willing_server 7 (mkdate 2025 1 31) 3 unreachable_world =
    (Ok false,
     shown Error
       [Txt "Database connection error: Unable to connect. Please check your credentials and database status. Details: ";
        Exc (MySQLError 2003)] unreachable_world).
Proof.
  destruct (without_connection_nothing_is_sent willing_server willing_queries matched_rows
              offline_world eq_refl) as (_ & _ & _ & _ & Hpay & _).
  destruct (without_connection_nothing_is_sent willing_server willing_queries matched_rows
              unreachable_world eq_refl) as (_ & _ & _ & Hgen & _).
  split; [apply Hpay | apply Hgen].
Defined.

(* ===================================================================== *)
(** * What the select boxes offer *)
(* ===================================================================== *)

Section Offers.

Variable server_error : database -> statement -> option Z.
Variable query_error : database -> query -> option Z.
Variable name_before : string -> string -> bool.

Lemma insert_by_name_In {A : Type} (name : A -> string) (r x : A) (l : list A) :
  In x (insert_by_name name_before name r l) <-> x = r \/ In x l.
Proof.
  induction l as [| y l IH]; simpl.
  - intuition congruence.
  - destruct (name_before (name y) (name r)); simpl; rewrite ?IH; intuition congruence.
Qed.

Lemma order_by_name_In {A : Type} (name : A -> string) (x : A) (l : list A) :
  In x (order_by_name name_before name l) <-> In x l.
Proof.
  unfold order_by_name. induction l as [| y l IH]; simpl; [tauto |].
  rewrite insert_by_name_In, IH. intuition congruence.
Qed.

Lemma insert_group_exact (w : world) (name : string) (value : float) (subs dur : Z)
  (start : date) (commission : option float) :
  connection w = true ->
  (forall r, server_error (db w) (InsertChitGroup r) = None) ->
  insert_group server_error name value subs dur start commission w =
    (Ok true,
     mkworld true
       (mkdb (ChitGroups (db w) ++
              [mkgroup (uuid4_source w (uuid4_calls w)) name value subs dur start
                 commission true])
          (Subscribers (db w)) (Enrollments (db w)) (Installments (db w))
          (InstallmentPayments (db w)))
       (now w) (uuid4_source w) (S (uuid4_calls w))
       (screen w ++ [(Success, [Txt "Chit Group '"; Txt name; Txt "' added successfully!"])])
       (connect_error w)).
Proof.
  intros Hconn Hsrv. destruct w as [conn d t src calls scr cerr]. simpl in *. subst conn.
  unfold insert_group.
  erewrite bind_ok by reflexivity. cbn [negb].
  apply try_ok.
  erewrite bind_ok by reflexivity.
  erewrite bind_ok by (unfold Foremen.execute; simpl; rewrite Hsrv; reflexivity).
  reflexivity.
Qed.

Lemma get_group_names_run (w : world) :
  connection w = true ->
  query_error (db w) SelectGroupNames = None ->
  get_group_names_and_ids query_error name_before w =
    (Ok (map (fun group => (g_name group, g_id group))
           (order_by_name name_before g_name (filter g_isActive (ChitGroups (db w))))),
     w).
Proof.
  intros Hconn Hq. destruct w as [conn d t src calls scr cerr]. simpl in *. subst conn.
  unfold get_group_names_and_ids.
  erewrite bind_ok by reflexivity. cbn [negb].
  apply try_ok.
  erewrite bind_ok by (unfold execute; simpl; rewrite Hq; reflexivity).
  reflexivity.
Qed.

Lemma get_subscriber_names_run (w : world) :
  connection w = true ->
  query_error (db w) SelectSubscriberNames = None ->
  get_subscriber_names_and_ids query_error name_before w =
    (Ok (map (fun sub => (s_name sub, s_id sub))
           (order_by_name name_before s_name (filter s_isActive (Subscribers (db w))))),
     w).
Proof.
  intros Hconn Hq. destruct w as [conn d t src calls scr cerr]. simpl in *. subst conn.
  unfold get_subscriber_names_and_ids.
  erewrite bind_ok by reflexivity. cbn [negb].
  apply try_ok.
  erewrite bind_ok by (unfold execute; simpl; rewrite Hq; reflexivity).
  reflexivity.
Qed.

(** A name that only one option carries is mapped to that option's
    identifier. *)
Lemma dict_get_unique {V : Type} (options : list (string * V)) (key : string) (v : V) :
  In (key, v) options ->
  (forall v', In (key, v') options -> v' = v) ->
  dict_get options key = Some v.
Proof.
  intros Hin Hall.
  destruct (dict_get options key) as [v' |] eqn:Hget.
  - apply dict_get_In in Hget. now rewrite (Hall v' Hget).
  - exfalso. unfold dict_get in Hget.
    destruct (find _ (rev options)) as [p |] eqn:Hfind; [discriminate |].
    assert (Hnone : String.eqb (fst (key, v)) key = false)
      by (apply (find_none _ _ Hfind); now apply in_rev in Hin).
    simpl in Hnone. rewrite String.eqb_refl in Hnone. discriminate.
Qed.

(** X26.  What was added is offered.  In a world with a connection and a
    server that takes the statements, right after [insert_group] the list
    of [get_group_names_and_ids] holds the new group's name with its new
    identifier, besides exactly the active groups that were there before,
    whatever the order of the collation is; and when no active group had
    that name, the dictionary the pages build from the list maps the name
    to the new identifier.  The same holds for [insert_subscriber] and
    [get_subscriber_names_and_ids]. *)
Theorem added_rows_are_offered (w : world) :
  connection w = true ->
  (forall d st, server_error d st = None) ->
  (forall d q, query_error d q = None) ->
  let new_id := uuid4_source w (uuid4_calls w) in
  (forall name value subs dur start commission,
     exists w1 options,
       insert_group server_error name value subs dur start commission w = (Ok true, w1) /\
       get_group_names_and_ids query_error name_before w1 = (Ok options, w1) /\
       (forall p, In p options <->
          p = (name, new_id) \/
          exists r, In r (ChitGroups (db w)) /\ g_isActive r = true /\ p = (g_name r, g_id r)) /\
       ((forall r, In r (ChitGroups (db w)) -> g_isActive r = true -> g_name r <> name) ->
        dict_get options name = Some new_id)) /\
  (forall name phone address,
     exists w1 options,
       insert_subscriber server_error name phone address w = (Ok true, w1) /\
       get_subscriber_names_and_ids query_error name_before w1 = (Ok options, w1) /\
       (forall p, In p options <->
          p = (name, new_id) \/
          exists r, In r (Subscribers (db w)) /\ s_isActive r = true /\ p = (s_name r, s_id r)) /\
       ((forall r, In r (Subscribers (db w)) -> s_isActive r = true -> s_name r <> name) ->
        dict_get options name = Some new_id)).
Proof.
  intros Hconn Hsrv Hquery new_id. subst new_id. split.
  - intros name value subs dur start commission.
    eexists _, _. split; [apply insert_group_exact; [exact Hconn | intros; apply Hsrv] |].
    split; [apply get_group_names_run; [reflexivity | apply Hquery] |].
    cbn [db ChitGroups].
    assert (Hoptions : forall p,
              In p (map (fun group => (g_name group, g_id group))
                      (order_by_name name_before g_name
                         (filter g_isActive
                            (ChitGroups (db w) ++
                             [mkgroup (uuid4_source w (uuid4_calls w)) name value subs dur
                                start commission true])))) <->
              p = (name, uuid4_source w (uuid4_calls w)) \/
              exists r, In r (ChitGroups (db w)) /\ g_isActive r = true /\
                        p = (g_name r, g_id r)).
    { intros p. rewrite in_map_iff. split.
      - intros (r & <- & Hr). apply order_by_name_In, filter_In in Hr as [Hr Hactive].
        apply in_app_or in Hr as [Hr | [<- | []]]; [right; eauto | now left].
      - intros [-> | (r & Hr & Hactive & ->)].
        + eexists. split; [| apply order_by_name_In, filter_In; split;
                             [apply in_or_app; right; left; reflexivity | reflexivity]].
          reflexivity.
        + exists r. split; [reflexivity |].
          apply order_by_name_In, filter_In. split; [apply in_or_app; now left | exact Hactive]. }
    split; [exact Hoptions |].
    intros Hfresh. apply dict_get_unique.
    + apply Hoptions. now left.
    + intros v' Hv'. apply Hoptions in Hv' as [E | (r & Hr & Hactive & E)].
      * congruence.
      * injection E as E _. exfalso. apply (Hfresh r Hr Hactive). congruence.
  - intros name phone address.
    eexists _, _. split; [apply insert_subscriber_exact; [exact Hconn | intros; apply Hsrv] |].
    split; [apply get_subscriber_names_run; [reflexivity | apply Hquery] |].
    cbn [db Subscribers].
    assert (Hoptions : forall p,
              In p (map (fun sub => (s_name sub, s_id sub))
                      (order_by_name name_before s_name
                         (filter s_isActive
                            (Subscribers (db w) ++
                             [mksubscriber (uuid4_source w (uuid4_calls w)) name phone address
                                (now w) true])))) <->
              p = (name, uuid4_source w (uuid4_calls w)) \/
              exists r, In r (Subscribers (db w)) /\ s_isActive r = true /\
                        p = (s_name r, s_id r)).
    { intros p. rewrite in_map_iff. split.
      - intros (r & <- & Hr). apply order_by_name_In, filter_In in Hr as [Hr Hactive].
        apply in_app_or in Hr as [Hr | [<- | []]]; [right; eauto | now left].
      - intros [-> | (r & Hr & Hactive & ->)].
        + eexists. split; [| apply order_by_name_In, filter_In; split;
                             [apply in_or_app; right; left; reflexivity | reflexivity]].
          reflexivity.
        + exists r. split; [reflexivity |].
          apply order_by_name_In, filter_In. split; [apply in_or_app; now left | exact Hactive]. }
    split; [exact Hoptions |].
    intros Hfresh. apply dict_get_unique.
    + apply Hoptions. now left.
    + intros v' Hv'. apply Hoptions in Hv' as [E | (r & Hr & Hactive & E)].
      * congruence.
      * injection E as E _. exfalso. apply (Hfresh r Hr Hactive). congruence.
Qed.

End Offers.

(** A run of X26: "Group B" is added to [underpaid_world]. *)
Lemma added_rows_are_offered_witness :
  exists w1 options,
    insert_group willing_server "Group B" 50000 10 10 (mkdate 2025 3 1) None underpaid_world
      = (Ok true, w1) /\
    get_group_names_and_ids willing_queries table_order w1 = (Ok options, w1) /\
    dict_get options "Group B" = Some 4096%N.
Proof.
  destruct (added_rows_are_offered willing_server willing_queries table_order underpaid_world
              eq_refl (fun _ _ => eq_refl) (fun _ _ => eq_refl)) as (Hgroup & _).
  destruct (Hgroup "Group B"%string 50000%float 10 10 (mkdate 2025 3 1) None)
    as (w1 & options & Hrun & Hlist & _ & Hget).
  exists w1, options. split; [exact Hrun | split; [exact Hlist |]].
  apply Hget. intros r [<- | []] _. discriminate.
Defined.

(* ===================================================================== *)
(** * One installment per month *)
(* ===================================================================== *)

Section MonthsStayUnique.

Variable server_error : database -> statement -> option Z.
Variable query_error : database -> query -> option Z.
Variable rowcount : database -> query -> Z.

Lemma insert_group_installments (w : world) (name : string) (value : float) (subs dur : Z)
  (start : date) (commission : option float) :
  Installments (db (snd (insert_group server_error name value subs dur start commission w)))
  = Installments (db w).
Proof.
  destruct w as [conn d t src calls scr cerr]. destruct conn; [| reflexivity].
  unfold insert_group. erewrite bind_ok by reflexivity. cbn [negb].
  unfold try_except_Error, bind, uuid4, Foremen.execute. simpl.
  destruct (server_error d _); reflexivity.
Qed.

Lemma insert_subscriber_installments (w : world) (name phone address : string) :
  Installments (db (snd (insert_subscriber server_error name phone address w)))
  = Installments (db w).
Proof.
  destruct w as [conn d t src calls scr cerr]. destruct conn; [| reflexivity].
  unfold insert_subscriber. erewrite bind_ok by reflexivity. cbn [negb].
  unfold try_except_Error, bind, uuid4, datetime_now, Foremen.execute. simpl.
  destruct (server_error d _) as [errno |]; [| reflexivity].
  destruct errno as [| p | p]; try reflexivity.
  do 11 (try (destruct p as [p | p |]; try reflexivity)).
Qed.

Lemma insert_enrollment_installments (w : world) (sub g : uuid) (n : Z) (join : date) :
  Installments (db (snd (insert_enrollment server_error sub g n join w)))
  = Installments (db w).
Proof.
  destruct w as [conn d t src calls scr cerr]. destruct conn; [| reflexivity].
  unfold insert_enrollment. erewrite bind_ok by reflexivity. cbn [negb].
  unfold try_except_Error, bind, uuid4, Foremen.execute. simpl.
  destruct (server_error d _) as [errno |]; [| reflexivity].
  destruct errno as [| p | p]; try reflexivity.
  do 11 (try (destruct p as [p | p |]; try reflexivity)).
Qed.

Lemma insert_payment_installments (w : world) (inst sub : uuid) (amount : float)
  (notes : string) :
  Installments (db (snd (insert_payment server_error inst sub amount notes w)))
  = Installments (db w).
Proof.
  destruct w as [conn d t src calls scr cerr]. destruct conn; [| reflexivity].
  unfold insert_payment. erewrite bind_ok by reflexivity. cbn [negb].
  unfold try_except_Error, bind, uuid4, datetime_now, Foremen.execute. simpl.
  destruct (server_error d _); reflexivity.
Qed.

Lemma py_range_NoDup (lo hi : Z) : NoDup (py_range lo hi).
Proof.
  unfold py_range. apply NoDup_map_injective; [intros i j; lia | apply seq_NoDup].
Qed.

Lemma filter_month_at_most_one (g : uuid) (m : Z) (rows : list installment_row) :
  NoDup (map i_monthNumber rows) ->
  (List.length (filter (fun i => (i_groupId i =? g)%N && (i_monthNumber i =? m)%Z) rows)
   <= 1)%nat.
Proof.
  induction rows as [| r rows IH]; intros Hnd; simpl; [lia |].
  inversion Hnd as [| ? ? Hnotin Hnd']; subst.
  destruct ((i_groupId r =? g)%N && (i_monthNumber r =? m)) eqn:E; [| now apply IH].
  apply andb_prop in E as [_ E]. apply Z.eqb_eq in E. simpl.
  replace (filter _ rows) with (@nil installment_row); [simpl; lia |].
  symmetry. clear IH Hnd Hnd'. induction rows as [| x rows IHr]; [reflexivity |].
  simpl in *. destruct (Z.eqb_spec (i_monthNumber x) m) as [Ex | Ex].
  - exfalso. apply Hnotin. left. congruence.
  - rewrite andb_false_r. apply IHr. tauto.
Qed.

Lemma filter_other_group (g g' : uuid) (m : Z) (rows : list installment_row) :
  Forall (fun x => i_groupId x = g) rows -> g' <> g ->
  filter (fun i => (i_groupId i =? g')%N && (i_monthNumber i =? m)) rows = [].
Proof.
  intros Hall Hne. induction Hall as [| r rows Hr _ IH]; [reflexivity |].
  simpl. rewrite Hr. replace (g =? g')%N with false; [exact IH |].
  symmetry. apply N.eqb_neq. congruence.
Qed.

Lemma select_installment_id_set_auction (d : database) (prize : float) (winner id g : uuid)
  (m : Z) :
  select_installment_id
    (with_installments (map (set_auction prize winner id) (Installments d)) d) g m
  = select_installment_id d g m.
Proof.
  unfold select_installment_id. cbn [with_installments Installments].
  induction (Installments d) as [| r rows IH]; [reflexivity |].
  simpl. destruct (set_auction_keeps prize winner id r) as (Hid & Hg & Hm & _).
  rewrite Hg, Hm.
  destruct ((i_groupId r =? g)%N && (i_monthNumber r =? m)); simpl; rewrite IH;
    [now rewrite Hid | reflexivity].
Qed.

Lemma ledger_step_keeps_months (w w' : world) :
  ledger_step server_error query_error rowcount w w' ->
  one_installment_per_month (db w) -> one_installment_per_month (db w').
Proof.
  intros Hstep Hinv. unfold one_installment_per_month in *.
  assert (Hsame : forall w0 : world, Installments (db w0) = Installments (db w) ->
            forall g m, (List.length (select_installment_id (db w0) g m) <= 1)%nat).
  { intros w0 E g m. unfold select_installment_id in *. rewrite E. apply Hinv. }
  destruct Hstep.
  - apply Hsame, insert_group_installments.
  - apply Hsame, insert_subscriber_installments.
  - apply Hsame, insert_enrollment_installments.
  - destruct (generate_outcome server_error w g s D) as (r & w' & Hrun & _ & Hdb & _).
    rewrite Hrun. cbn [snd].
    destruct Hdb as [Hdb | (_ & Hnone & rows & Hdb & _ & Hmonths & Hgroup)];
      [apply Hsame; now rewrite Hdb |].
    intros g' m. rewrite Hdb. unfold select_installment_id.
    cbn [with_installments Installments]. rewrite filter_app, map_app, length_app, !length_map.
    destruct (N.eq_dec g' g) as [-> | Hne].
    + rewrite (filter_none _ _ _ (count_zero_filter _ _ Hnone)). cbn [List.length].
      apply filter_month_at_most_one. rewrite Hmonths. apply py_range_NoDup.
    + rewrite (filter_other_group g g' m rows Hgroup Hne). cbn [List.length].
      specialize (Hinv g' m). unfold select_installment_id in Hinv.
      rewrite length_map in Hinv. lia.
  - destruct (update_auction_outcome query_error rowcount w id prize winner)
      as (b & w' & Hrun & Hdb & _).
    rewrite Hrun. cbn [snd].
    destruct Hdb as [Hdb | (_ & _ & Hdb & _)]; [apply Hsame; now rewrite Hdb |].
    intros g m. rewrite Hdb, select_installment_id_set_auction. apply Hinv.
  - apply Hsame, insert_payment_installments.
  - destruct (get_payment_status_outcome server_error w g m)
      as (entries & w' & Hrun & Hdb & _).
    rewrite Hrun. cbn [snd]. apply Hsame. now rewrite Hdb.
Qed.

(** X27.  No month gets a second installment.  Whatever calls of
    [insert_group], [insert_subscriber], [insert_enrollment],
    [generate_installments_for_group], [update_installment_auction],
    [insert_payment] and [get_payment_status_for_installment] are made, in
    whatever order, with whatever arguments, and whatever the server
    answers: when every group has at most one installment per month before,
    it has at most one per month after, and so from empty tables on.  The
    schedule is generated only for a group that has none, with month
    numbers that differ, and no call changes a month number. *)
Theorem months_stay_unique (w w' : world) :
  ledger_run server_error query_error rowcount w w' ->
  one_installment_per_month (db w) ->
  one_installment_per_month (db w').
Proof.
  intros Hrun Hinv. induction Hrun as [w | w w1 w2 Hrun IH Hstep]; [exact Hinv |].
  apply (ledger_step_keeps_months w1 w2 Hstep). now apply IH.
Qed.

End MonthsStayUnique.

(** A run of X27: from the empty tables, a schedule is generated for
    group 7, a second attempt is made, and an auction is recorded. *)
Lemma months_stay_unique_witness :
  one_installment_per_month
    (db (snd (update_installment_auction willing_queries matched_rows 4097 90000 10
                (snd (generate_installments_for_group willing_server 7 (mkdate 2025 2 28) 5
                        (snd (generate_installments_for_group willing_server 7
                                (mkdate 2025 1 31) 3 fresh_world))))))).
Proof.
  apply (months_stay_unique willing_server willing_queries matched_rows fresh_world).
  - eapply run_call; [eapply run_call; [eapply run_call; [apply run_done |] |] |].
    + apply (call_generate _ _ _ fresh_world 7 (mkdate 2025 1 31) 3).
    + apply call_generate.
    + apply call_update_auction.
  - intros g m. simpl. lia.
Defined.

(* ===================================================================== *)
(** * The pages "Record Payments" and "View Dues & Status" *)
(* ===================================================================== *)

Section PaymentPages.

Variable server_error : database -> statement -> option Z.
Variable query_error : database -> query -> option Z.
Variable month_label : Z -> date -> string.
Variable subscriber_label : string -> Z -> string.

(** X28.  The page "Record Payments" for a group that has no
    installments yet: in a world with a connection whose server answers the
    listing, for a selected name that the options map to the group, the page
    shows the warning "Could not find the selected group ID." as its only
    message, although the group was found; the [else] that tells to
    generate the installments belongs to another test and is not reached. *)
Theorem payments_page_warns_about_group (w : world) (options : list (string * uuid))
  (group_name installment_name subscriber_name : string) (amount : float) (notes : string)
  (button : bool) (gid : uuid) :
  connection w = true ->
  dict_get options group_name = Some gid ->
  query_error (db w) (SelectInstallments gid) = None ->
  count_installments (db w) gid = 0 ->
  record_payments_page server_error query_error month_label subscriber_label
    options group_name installment_name subscriber_name amount notes button w
  = (Ok tt, shown Warning [Txt "Could not find the selected group ID."] w).
Proof.
  intros Hconn Hpick Hquery Hnone. unfold record_payments_page.
  destruct options as [| o os]; [discriminate Hpick |]. rewrite Hpick.
  erewrite bind_ok by (now apply get_installments_run).
  unfold select_installments. rewrite (count_zero_filter _ _ Hnone). reflexivity.
Qed.

(** The form in any world: it ends without an exception, and the tables
    are as before or hold one more payment, with the identifiers and the
    amount handed to the form. *)
Lemma record_payment_form_outcome (w : world) (inst sub : uuid) (amount : float)
  (notes : string) (button : bool) :
  exists w',
    record_payment_form server_error inst sub amount notes button w = (Ok tt, w') /\
    (db w' = db w \/
     (button = true /\ Py.gt (PyFloat amount) (PyInt 0) = true /\
      exists p,
        db w' = mkdb (ChitGroups (db w)) (Subscribers (db w)) (Enrollments (db w))
                  (Installments (db w)) (InstallmentPayments (db w) ++ [p]) /\
        p_installmentId p = inst /\ p_subscriberId p = sub /\ p_amountPaid p = amount)).
Proof.
  unfold record_payment_form.
  destruct button; [| eexists; split; [reflexivity | now left]].
  destruct (Py.gt (PyFloat amount) (PyInt 0)) eqn:Hgt;
    [| eexists; split; [reflexivity | left; now destruct w]].
  destruct w as [conn d t src calls scr cerr]. unfold insert_payment.
  destruct conn; [| eexists; split; [reflexivity | now left]].
  destruct (server_error d (InsertPayment (mkpayment (src calls) inst sub t amount notes)))
    as [errno |] eqn:Hsrv.
  - eexists. split.
    + erewrite bind_ok; [reflexivity |].
      erewrite bind_ok by reflexivity. cbn [negb].
      erewrite try_caught.
      2:{ erewrite bind_ok by reflexivity.
          erewrite bind_ok by reflexivity.
          erewrite bind_raise; [reflexivity |].
          unfold Foremen.execute. simpl. rewrite Hsrv. reflexivity. }
      reflexivity.
    + now left.
  - eexists. split.
    + erewrite bind_ok; [reflexivity |].
      erewrite bind_ok by reflexivity. cbn [negb].
      apply try_ok.
      erewrite bind_ok by reflexivity.
      erewrite bind_ok by reflexivity.
      erewrite bind_ok by (unfold Foremen.execute; simpl; rewrite Hsrv; reflexivity).
      reflexivity.
    + right. repeat split. eexists. split; [reflexivity |]. repeat split.
Qed.

(** X29.  A payment recorded through the page "Record Payments" always
    refers to the selected group.  Whatever the widgets hold and whatever
    the server answers, the page ends without an exception and changes no
    table but [InstallmentPayments]; there it appends nothing, or one
    payment whose installment is an installment of the group that the
    selected name is mapped to, whose subscriber is a subscriber of the
    table enrolled in that group, and whose amount is the amount entered,
    which is greater than zero. *)
Theorem payments_page_keeps_references (w : world) (options : list (string * uuid))
  (group_name installment_name subscriber_name : string) (amount : float) (notes : string)
  (button : bool) :
  exists w',
    record_payments_page server_error query_error month_label subscriber_label
      options group_name installment_name subscriber_name amount notes button w = (Ok tt, w') /\
    ChitGroups (db w') = ChitGroups (db w) /\
    Subscribers (db w') = Subscribers (db w) /\
    Enrollments (db w') = Enrollments (db w) /\
    Installments (db w') = Installments (db w) /\
    (InstallmentPayments (db w') = InstallmentPayments (db w) \/
     exists gid p i e s,
       InstallmentPayments (db w') = InstallmentPayments (db w) ++ [p] /\
       dict_get options group_name = Some gid /\
       In i (Installments (db w)) /\ i_groupId i = gid /\ p_installmentId p = i_id i /\
       In e (Enrollments (db w)) /\ e_groupId e = gid /\
       In s (Subscribers (db w)) /\ e_subscriberId e = s_id s /\
       p_subscriberId p = s_id s /\
       p_amountPaid p = amount /\ Py.gt (PyFloat amount) (PyInt 0) = true).
Proof.
  assert (Hsame : forall w0 : world, db w0 = db w ->
            ChitGroups (db w0) = ChitGroups (db w) /\
            Subscribers (db w0) = Subscribers (db w) /\
            Enrollments (db w0) = Enrollments (db w) /\
            Installments (db w0) = Installments (db w) /\
            (InstallmentPayments (db w0) = InstallmentPayments (db w) \/
             exists gid p i e s,
               InstallmentPayments (db w0) = InstallmentPayments (db w) ++ [p] /\
               dict_get options group_name = Some gid /\
               In i (Installments (db w)) /\ i_groupId i = gid /\ p_installmentId p = i_id i /\
               In e (Enrollments (db w)) /\ e_groupId e = gid /\
               In s (Subscribers (db w)) /\ e_subscriberId e = s_id s /\
               p_subscriberId p = s_id s /\
               p_amountPaid p = amount /\ Py.gt (PyFloat amount) (PyInt 0) = true)).
  { intros w0 ->. repeat split. now left. }
  unfold record_payments_page.
  destruct options as [| o os].
  { eexists. split; [reflexivity |]. apply Hsame. now destruct w. }
  destruct (dict_get (o :: os) group_name) as [gid |] eqn:Hgroup.
  2:{ eexists. split; [reflexivity |]. now apply Hsame. }
  destruct (get_installments_outcome query_error w gid)
    as (installments & w1 & Hrun1 & Hdb1 & _ & _ & Hrows).
  erewrite bind_ok by exact Hrun1.
  destruct installments as [| first more].
  { eexists. split; [reflexivity |]. apply Hsame. destruct w1; exact Hdb1. }
  cbv beta iota zeta.
  destruct (dict_get
              (map (fun inst => (month_label (i_monthNumber inst) (i_dueDate inst), i_id inst))
                 (first :: more)) installment_name) as [inst_id |] eqn:Hinst.
  2:{ eexists. split; [reflexivity |]. apply Hsame. destruct w1; exact Hdb1. }
  destruct (get_enrollments_outcome query_error w1 gid)
    as (enrolled & w2 & Hrun2 & Hdb2 & _ & _ & Henrolled).
  rewrite Hdb1 in Hdb2, Henrolled.
  erewrite bind_ok by exact Hrun2.
  destruct enrolled as [| sub subs].
  { eexists. split; [reflexivity |]. apply Hsame. destruct w2; exact Hdb2. }
  cbv beta iota zeta.
  destruct (dict_get
              (map (fun sub0 => (subscriber_label (subscriberName sub0) (assignedChitNumber sub0),
                                 subscriberId sub0)) (sub :: subs)) subscriber_name)
    as [sub_id |] eqn:Hsub.
  2:{ eexists. split; [reflexivity |]. apply Hsame. destruct w2; exact Hdb2. }
  destruct (record_payment_form_outcome w2 inst_id sub_id amount notes button)
    as (w3 & Hrun3 & Hdb3).
  exists w3. split; [exact Hrun3 |].
  rewrite Hdb2 in Hdb3.
  destruct Hdb3 as [Hdb3 | (_ & Hgt & p & Hdb3 & Hpi & Hps & Hpa)]; [now apply Hsame |].
  rewrite Hdb3. cbn [ChitGroups Subscribers Enrollments Installments InstallmentPayments].
  repeat (split; [reflexivity |]). right.
  apply dict_get_In, in_map_iff in Hinst as (i & Hi & Hini).
  injection Hi as _ Hi.
  destruct Hrows as [Hrows | Hrows]; [discriminate |].
  rewrite Hrows in Hini. unfold select_installments in Hini.
  apply order_by_In, filter_In in Hini as [Hini Hig]. apply N.eqb_eq in Hig.
  apply dict_get_In, in_map_iff in Hsub as (detail & Hdetail & Hind).
  injection Hdetail as _ Hdetail.
  destruct Henrolled as [Henrolled | Henrolled]; [discriminate |].
  rewrite Henrolled in Hind.
  apply select_enrollment_details_In in Hind as (e & s & He & Heg & Hs & Hes & ->).
  cbn [subscriberId] in Hdetail.
  exists gid, p, i, e, s. repeat split; try assumption; congruence.
Qed.

Lemma dict_get_some {V : Type} (options : list (string * V)) (key : string) :
  In key (map fst options) -> exists v, dict_get options key = Some v /\ In (key, v) options.
Proof.
  intros Hin. destruct (dict_get options key) as [v |] eqn:Hget.
  - exists v. split; [reflexivity | now apply dict_get_In].
  - exfalso. apply in_map_iff in Hin as ([k v] & Hk & Hin). simpl in Hk. subst k.
    unfold dict_get in Hget.
    destruct (find _ (rev options)) as [p |] eqn:Hfind; [discriminate |].
    assert (Hnone : String.eqb (fst (key, v)) key = false)
      by (apply (find_none _ _ Hfind); now apply in_rev in Hin).
    simpl in Hnone. rewrite String.eqb_refl in Hnone. discriminate.
Qed.

(** X30.  The page "View Dues & Status" finds every month it offers.  In
    a world with a connection and a server that answers every statement,
    where no month of a group has two installments and the identifiers of
    enrollments and subscribers are keys: for a selected group and any
    label among those the page offers for its installments, the month the
    label is mapped to has exactly one installment [inst], the status query
    never answers "not found", and the page shows the status list of
    [inst], one entry per enrollment in the order of the chit numbers, or,
    when nobody is enrolled, the note "No payment status found for Month
    m.". *)
Theorem dues_page_finds_listed_months (w : world) (options : list (string * uuid))
  (group_name installment_name : string) (gid : uuid) :
  connection w = true ->
  (forall d st, server_error d st = None) ->
  (forall d q, query_error d q = None) ->
  one_installment_per_month (db w) ->
  NoDup (map e_id (Enrollments (db w))) ->
  NoDup (map s_id (Subscribers (db w))) ->
  dict_get options group_name = Some gid ->
  installment_name <> EmptyString ->
  In installment_name
     (map (fun inst => month_label (i_monthNumber inst) (i_dueDate inst))
        (select_installments (db w) gid)) ->
  exists m inst,
    select_installment_id (db w) gid m = [inst] /\
    view_dues_page server_error query_error month_label options group_name installment_name
      true w =
    match map (entry_of (db w) inst)
            (order_by (fun p => e_assignedChitNumber (fst p)) (enrolled_pairs (db w) gid)) with
    | [] =>
        (Ok [], shown Info [Txt "No payment status found for Month "; Int m; Txt "."] w)
    | entries => (Ok entries, w)
    end.
Proof.
  intros Hconn Hsrv Hquery Hinv Hne Hns Hgroup Hname Hoffered.
  assert (Hlabels : In installment_name
            (map fst (map (fun inst => (month_label (i_monthNumber inst) (i_dueDate inst),
                                        i_monthNumber inst))
                        (select_installments (db w) gid)))).
  { rewrite map_map. exact Hoffered. }
  destruct (dict_get_some _ _ Hlabels) as (m & Hget & Hin).
  apply in_map_iff in Hin as (r & Hr & Hinr). injection Hr as _ Hm.
  assert (Hrow : In r (Installments (db w)) /\ i_groupId r = gid).
  { unfold select_installments in Hinr.
    apply order_by_In, filter_In in Hinr as [Hinr Hg]. apply N.eqb_eq in Hg. auto. }
  destruct Hrow as [Hrin Hrg].
  assert (Hfound : In (i_id r) (select_installment_id (db w) gid m)).
  { unfold select_installment_id. apply in_map. apply filter_In. split; [exact Hrin |].
    apply andb_true_intro. split; [now apply N.eqb_eq | now apply Z.eqb_eq]. }
  assert (Hone : select_installment_id (db w) gid m = [i_id r]).
  { specialize (Hinv gid m).
    destruct (select_installment_id (db w) gid m) as [| a [| b rest]];
      [destruct Hfound | | simpl in Hinv; lia].
    destruct Hfound as [-> | []]. reflexivity. }
  exists m, (i_id r). split; [exact Hone |].
  unfold view_dues_page.
  destruct options as [| o os]; [discriminate Hgroup |]. rewrite Hgroup.
  erewrite bind_ok by (apply get_installments_run; [exact Hconn | apply Hquery]).
  destruct (select_installments (db w) gid) as [| first more] eqn:Hlist; [destruct Hinr |].
  cbv beta iota zeta.
  apply String.eqb_neq in Hname. rewrite Hname. cbn [negb andb]. rewrite Hget.
  erewrite bind_ok
    by (apply get_payment_status_run; [exact Hconn | apply Hsrv | exact Hone | apply Hsrv]).
  rewrite (status_rows_exact (db w) (i_id r) gid Hne Hns).
  destruct (map (entry_of (db w) (i_id r)) _); reflexivity.
Qed.

End PaymentPages.

(** A run of X28: "Group A" of [underpaid_world] without its
    installment. *)
Lemma payments_page_warns_about_group_witness :
  record_payments_page willing_server willing_queries plain_month_label plain_subscriber_label
    [("Group A"%string, 1%N)] "Group A" "Month 1" "Asha" 5000 EmptyString true
    (mkworld true (with_installments [] underpaid_db) noon counting_uuids 0 [] None)
  = (Ok tt,
     shown Warning [Txt "Could not find the selected group ID."]
       (mkworld true (with_installments [] underpaid_db) noon counting_uuids 0 [] None)).
Proof.
  apply (payments_page_warns_about_group willing_server willing_queries plain_month_label
           plain_subscriber_label _ _ _ _ _ _ _ _ 1%N); reflexivity.
Defined.

(** A run of X29 in [underpaid_world]: Ravi pays 5000 for month 1. *)
Lemma payments_page_keeps_references_witness :
  exists w',
    record_payments_page willing_server willing_queries plain_month_label
      plain_subscriber_label [("Group A"%string, 1%N)] "Group A" "Month 1" "Ravi" 5000
      EmptyString true underpaid_world = (Ok tt, w') /\
    map (fun p => (p_installmentId p, p_subscriberId p, p_amountPaid p))
      (InstallmentPayments (db w'))
    = [(30%N, 10%N, 100%float); (30%N, 11%N, 5000%float)].
Proof.
  destruct (payments_page_keeps_references willing_server willing_queries plain_month_label
              plain_subscriber_label underpaid_world [("Group A"%string, 1%N)]
              "Group A" "Month 1" "Ravi" 5000 EmptyString true) as (w' & Hrun & _).
  exists w'. split; [exact Hrun |].
  vm_compute in Hrun. injection Hrun as <-. reflexivity.
Defined.

(** A run of X30 in [underpaid_world]. *)
Lemma dues_page_finds_listed_months_witness :
  view_dues_page willing_server willing_queries plain_month_label
    [("Group A"%string, 1%N)] "Group A" "Month 1" true underpaid_world
  = (Ok [mkstatus "Asha" 1 "Paid" (PyFloat 100); mkstatus "Ravi" 2 "Due" (PyInt 0)],
     underpaid_world).
Proof.
  destruct (dues_page_finds_listed_months willing_server willing_queries plain_month_label
              underpaid_world [("Group A"%string, 1%N)] "Group A" "Month 1" 1%N
              eq_refl (fun _ _ => eq_refl) (fun _ _ => eq_refl)
              ltac:(intros g m; unfold select_installment_id; simpl;
                    destruct (_ && _)%bool; simpl; lia)
              (proj1 underpaid_keys) (proj2 underpaid_keys)
              eq_refl ltac:(discriminate) ltac:(simpl; auto))
    as (m & inst & Hone & Hrun).
  rewrite Hrun.
  assert (Hinst : inst = 30%N).
  { destruct m as [| [q | q |] |]; vm_compute in Hone; congruence. }
  subst inst. reflexivity.
Defined.
